(** * Reconcilers of cluster-api-provider-gcp: networks, firewalls, bastion

    A shallow embedding of the reconcilers found under
    [cloud/services/compute] and of the helpers they call, followed by the
    properties of the specification that were checked against them.

    Two generations of the network reconciler live in the tree:
    - package [networks] ([cloud/services/compute/networks/reconcile.go]),
      written against the synchronous Get/Insert/Delete interfaces of
      [service.go]; it is embedded in [Module Networks];
    - package [compute] (the older [ReconcileNetwork], [DeleteNetwork],
      [createCloudNat], together with [firewalls.go] and the bastion code),
      written against the generated API client whose mutating calls return
      an operation that has to be waited on; it is embedded in
      [Module Compute].

    The provider is never fixed by the reconcilers: every client is an
    interface.  The embedding keeps it that way.  A client is a record of
    transition functions over an arbitrary provider state [W], and every
    call a reconciler makes is journalled, so that statements such as
    "no mutating call is issued" are statements about the journal and hold
    for every provider.  [Module Fake] gives one concrete provider, an
    in-memory store, for the properties that need the provider to remember
    what was inserted. *)

From Stdlib Require Import ZArith Lia Ascii String.
From stdpp Require Import base strings list gmap pretty.

Local Open Scope string_scope.
Local Open Scope list_scope.

(** ** Strings, as package [strings] and [path] treat them *)

Module GoStrings.

(** [strings.HasPrefix]. *)
Definition HasPrefix (s prefix : string) : bool := String.prefix prefix s.

(** [strings.HasSuffix]. *)
Definition HasSuffix (s suffix : string) : bool :=
  String.prefix (String.rev suffix) (String.rev s).

(** [strings.IndexByte]: [None] stands for -1. *)
Fixpoint IndexByte (s : string) (c : ascii) : option nat :=
  match s with
  | EmptyString => None
  | String a rest =>
      if Ascii.eqb a c then Some 0
      else match IndexByte rest c with
           | Some i => Some (S i)
           | None => None
           end
  end.

Definition ContainsByte (s : string) (c : ascii) : bool :=
  match IndexByte s c with Some _ => true | None => false end.

(** [strings.Cut] with a one-byte separator: the text before the first
    separator, the text after it, and whether it was found. *)
Definition Cut (s : string) (sep : ascii) : string * string * bool :=
  match IndexByte s sep with
  | Some i => (String.substring 0 i s,
               String.substring (S i) (String.length s - S i) s, true)
  | None => (s, "", false)
  end.

(** [strings.Count] with a one-byte pattern. *)
Fixpoint CountByte (s : string) (c : ascii) : nat :=
  match s with
  | EmptyString => 0
  | String a rest => (if Ascii.eqb a c then 1 else 0) + CountByte rest c
  end.

(** [strings.Split(s, "/")]: never empty, [Split "" = [""]]. *)
Fixpoint SplitByte (s : string) (sep : ascii) : list string :=
  match s with
  | EmptyString => [""]
  | String a rest =>
      if Ascii.eqb a sep then "" :: SplitByte rest sep
      else match SplitByte rest sep with
           | [] => [String a ""]
           | w :: ws => String a w :: ws
           end
  end.

(** Removes the trailing occurrences of [c]. *)
Fixpoint dropLeading (c : ascii) (s : string) : string :=
  match s with
  | EmptyString => EmptyString
  | String a rest => if Ascii.eqb a c then dropLeading c rest else s
  end.

Definition TrimRightByte (s : string) (c : ascii) : string :=
  String.rev (dropLeading c (String.rev s)).

(** The text after the last occurrence of [c], or the whole of [s]. *)
Fixpoint afterLast (c : ascii) (s : string) : string :=
  match s with
  | EmptyString => EmptyString
  | String a rest =>
      if ContainsByte rest c then afterLast c rest
      else if Ascii.eqb a c then rest else s
  end.

(** [path.Base]: the last element of a slash-separated path.  Trailing
    slashes are removed first; the empty path gives ".", a path made of
    slashes only gives "/". *)
Definition Base (path : string) : string :=
  if String.eqb path "" then "."
  else
    let path := TrimRightByte path "/" in
    let path := afterLast "/" path in
    if String.eqb path "" then "/" else path.

End GoStrings.

(** ** Errors *)

(** The errors the reconcilers see: an error of the API client
    ([*googleapi.Error], with its HTTP status), a plain error, and an error
    wrapped by [errors.Wrapf]. *)
Inductive error : Type :=
| GoogleApiError (code : Z) (message : string)
| ErrorString (message : string)
| Wrapf (cause : error) (message : string).

Module gcperrors.

(** Modelled from the spec: package [cloud/gcperrors], which is not part
    of the sources at hand.  NotFound is the provider's answer for an
    absent resource (HTTP status 404 of an API error); an error that was
    wrapped is no longer recognised, the test looks at the error itself. *)
Definition IsNotFound (err : option error) : bool :=
  match err with
  | Some (GoogleApiError 404 _) => true
  | _ => false
  end.

(** Modelled from the spec: [gcperrors.IgnoreNotFound], which drops a
    NotFound error and lets every other error through. *)
Definition IgnoreNotFound (err : option error) : option error :=
  if IsNotFound err then None else err.

Arguments IsNotFound : simpl never.

End gcperrors.

(** ** [net/url]: the part of [url.Parse] that decides [URL.Path] *)

Module url.

Import GoStrings.

Definition isCTL (c : ascii) : bool :=
  let n := nat_of_ascii c in (n <? 32)%nat || (n =? 127)%nat.

Fixpoint stringContainsCTLByte (s : string) : bool :=
  match s with
  | EmptyString => false
  | String a rest => isCTL a || stringContainsCTLByte rest
  end.

Definition isLetter (c : ascii) : bool :=
  let n := nat_of_ascii c in
  ((97 <=? n) && (n <=? 122))%nat || ((65 <=? n) && (n <=? 90))%nat.

Definition isSchemeExtra (c : ascii) : bool :=
  let n := nat_of_ascii c in
  ((48 <=? n) && (n <=? 57))%nat
  || Ascii.eqb c "+" || Ascii.eqb c "-" || Ascii.eqb c ".".

(** [getScheme]: the scheme in front of the first colon and the rest, or
    no scheme.  [i] is the position of the byte under inspection and
    [seen] the bytes already accepted. *)
Fixpoint getScheme_from (i : nat) (seen rest whole : string)
  : (string * string) + error :=
  match rest with
  | EmptyString => inl ("", whole)
  | String c rest' =>
      if isLetter c then getScheme_from (S i) (seen +:+ String c "") rest' whole
      else if isSchemeExtra c then
        match i with
        | 0 => inl ("", whole)
        | _ => getScheme_from (S i) (seen +:+ String c "") rest' whole
        end
      else if Ascii.eqb c ":" then
        match i with
        | 0 => inr (ErrorString "missing protocol scheme")
        | _ => inl (seen, rest')
        end
      else inl ("", whole)
  end.

Definition getScheme (rawURL : string) : (string * string) + error :=
  getScheme_from 0 "" rawURL rawURL.

Definition unhex (c : ascii) : option nat :=
  let n := nat_of_ascii c in
  if ((48 <=? n) && (n <=? 57))%nat then Some (n - 48)
  else if ((97 <=? n) && (n <=? 102))%nat then Some (n - 97 + 10)
  else if ((65 <=? n) && (n <=? 70))%nat then Some (n - 65 + 10)
  else None.

(** [unescape] in path mode: every percent sign must be followed by two
    hexadecimal digits, which it replaces by the byte they denote. *)
Fixpoint unescape (s : string) : string + error :=
  match s with
  | EmptyString => inl ""
  | String c rest =>
      if Ascii.eqb c "%" then
        match rest with
        | String h (String l rest') =>
            match unhex h, unhex l with
            | Some a, Some b =>
                match unescape rest' with
                | inl t => inl (String (ascii_of_nat (16 * a + b)) t)
                | inr e => inr e
                end
            | _, _ => inr (ErrorString "invalid URL escape")
            end
        | _ => inr (ErrorString "invalid URL escape")
        end
      else
        match unescape rest with
        | inl t => inl (String c t)
        | inr e => inr e
        end
  end.

(** [strings.ToLower] on the bytes a scheme can hold. *)
Definition lowerByte (c : ascii) : ascii :=
  let n := nat_of_ascii c in
  if ((65 <=? n) && (n <=? 90))%nat then ascii_of_nat (n + 32) else c.

Fixpoint ToLower (s : string) : string :=
  match s with
  | EmptyString => EmptyString
  | String c rest => String (lowerByte c) (ToLower rest)
  end.

Record URL : Type := mkURL {
  Scheme : string;
  Opaque : string;
  Authority : string;
  Path : string;
  RawQuery : string;
  Fragment : string
}.

Section Parse.

(** [parseAuthority] validates the user information, the host and the
    port of a reference that has an authority part; it has no bearing
    on the path and is left to the caller of this section. *)
Variable parseAuthority : string -> option error.

(** [parse(rawURL, viaRequest = false)]. *)
Definition parse (rawURL : string) : URL + error :=
  if stringContainsCTLByte rawURL then
    inr (ErrorString "net/url: invalid control character in URL")
  else if String.eqb rawURL "*" then inl (mkURL "" "" "" "*" "" "")
  else
    match getScheme rawURL with
    | inr e => inr e
    | inl (scheme, rest) =>
        let scheme := ToLower scheme in
        let '(rest, query) :=
          if HasSuffix rest "?" && (CountByte rest "?" =? 1)%nat
          then (String.substring 0 (String.length rest - 1) rest, "")
          else let '(r, q, _) := Cut rest "?" in (r, q) in
        if negb (HasPrefix rest "/") && negb (String.eqb scheme "") then
          inl (mkURL scheme rest "" "" query "")
        else if negb (HasPrefix rest "/")
                && (let '(segment, _, _) := Cut rest "/" in
                    ContainsByte segment ":") then
          inr (ErrorString "first path segment in URL cannot contain colon")
        else
          let '(authority, rest, checked) :=
            if (negb (String.eqb scheme "") || negb (HasPrefix rest "///"))
               && HasPrefix rest "//" then
              let a := String.substring 2 (String.length rest - 2) rest in
              match IndexByte a "/" with
              | Some i =>
                  (String.substring 0 i a,
                   String.substring i (String.length a - i) a,
                   parseAuthority (String.substring 0 i a))
              | None => (a, "", parseAuthority a)
              end
            else ("", rest, None) in
          match checked with
          | Some e => inr e
          | None =>
              match unescape rest with
              | inr e => inr e
              | inl p => inl (mkURL scheme "" authority p query "")
              end
          end
    end.

(** [url.Parse]: the fragment is cut off first and unescaped last. *)
Definition Parse (rawURL : string) : URL + error :=
  let '(u, frag, _) := Cut rawURL "#" in
  match parse u with
  | inr e => inr (Wrapf e "parse")
  | inl url =>
      if String.eqb frag "" then inl url
      else match unescape frag with
           | inr e => inr (Wrapf e "parse")
           | inl f =>
               inl (mkURL (Scheme url) (Opaque url) (Authority url)
                      (Path url) (RawQuery url) f)
           end
  end.

End Parse.

End url.

(** ** Resources of the compute API *)

(** [meta.Key]: a name, with a region for regional resources and a zone for
    zonal ones. *)
Record Key : Type := mkKey {
  key_Name : string;
  key_Zone : string;
  key_Region : string
}.

Definition GlobalKey (name : string) : Key := mkKey name "" "".
Definition RegionalKey (name region : string) : Key := mkKey name "" region.
Definition ZonalKey (name zone : string) : Key := mkKey name zone "".

Module Network.
Record t : Type := mk {
  Name : string;
  Description : string;
  SelfLink : string;
  AutoCreateSubnetworks : bool;
  Subnetworks : list string;
  ForceSendFields : list string
}.
End Network.

Module Subnetwork.
Record t : Type := mk {
  Name : string;
  Description : string;
  Region : string;
  IpCidrRange : string;
  EnableFlowLogs : bool;
  Network : string;
  SelfLink : string
}.
End Subnetwork.

Module RouterNat.
Record t : Type := mk {
  Name : string;
  NatIpAllocateOption : string;
  SourceSubnetworkIpRangesToNat : string
}.
End RouterNat.

Module Router.
Record t : Type := mk {
  Name : string;
  Description : string;
  Network : string;
  SelfLink : string;
  Nats : list RouterNat.t
}.
End Router.

Module Route.
Record t : Type := mk {
  Name : string;
  Network : string;
  Description : string
}.
End Route.

Module FirewallAllowed.
Record t : Type := mk {
  IPProtocol : string;
  Ports : list string
}.
End FirewallAllowed.

Module Firewall.
Record t : Type := mk {
  Name : string;
  Network : string;
  SelfLink : string;
  Allowed : list FirewallAllowed.t;
  Direction : string;
  SourceRanges : list string;
  SourceTags : list string;
  TargetTags : list string
}.
End Firewall.

Module Instance.
Record t : Type := mk {
  Name : string;
  Zone : string;
  MachineType : string;
  CanIpForward : bool;
  Network : string;
  Tags : list string;
  DiskSizeGb : Z;
  DiskType : string;
  SourceImage : string;
  ServiceAccountScopes : list string;
  SelfLink : string;
  Status : string
}.
End Instance.

(** The handle of an asynchronous mutation. *)
Module Operation.
Record t : Type := mk { Name : string }.
End Operation.

(** ** The cluster object the reconcilers write to

    The fields of [GCPCluster] that the reconcilers read or assign: two
    fields of the declared network ([Spec.Network]) and the recorded status
    ([Status.Network], [Status.Bastion]).  A nil [FirewallRules] map and an
    empty one are the same finite map; the reconciler allocates the map
    before its first assignment. *)
Record GCPCluster : Type := mkCluster {
  Spec_Network_Name : option string;
  Spec_Network_AutoCreateSubnetworks : option bool;
  Status_Network_SelfLink : option string;
  Status_Network_Router : option string;
  Status_Network_FirewallRules : gmap string string;
  Status_Bastion_SelfLink : option string;
  Status_Bastion_InstanceStatus : option string
}.

Definition set_Spec_Network_Name (v : option string) (c : GCPCluster) :=
  mkCluster v (Spec_Network_AutoCreateSubnetworks c)
    (Status_Network_SelfLink c) (Status_Network_Router c)
    (Status_Network_FirewallRules c)
    (Status_Bastion_SelfLink c) (Status_Bastion_InstanceStatus c).

Definition set_Spec_Network_AutoCreateSubnetworks (v : option bool) (c : GCPCluster) :=
  mkCluster (Spec_Network_Name c) v
    (Status_Network_SelfLink c) (Status_Network_Router c)
    (Status_Network_FirewallRules c)
    (Status_Bastion_SelfLink c) (Status_Bastion_InstanceStatus c).

Definition set_SelfLink (v : option string) (c : GCPCluster) :=
  mkCluster (Spec_Network_Name c) (Spec_Network_AutoCreateSubnetworks c)
    v (Status_Network_Router c)
    (Status_Network_FirewallRules c)
    (Status_Bastion_SelfLink c) (Status_Bastion_InstanceStatus c).

Definition set_Router (v : option string) (c : GCPCluster) :=
  mkCluster (Spec_Network_Name c) (Spec_Network_AutoCreateSubnetworks c)
    (Status_Network_SelfLink c) v
    (Status_Network_FirewallRules c)
    (Status_Bastion_SelfLink c) (Status_Bastion_InstanceStatus c).

Definition set_FirewallRules (v : gmap string string) (c : GCPCluster) :=
  mkCluster (Spec_Network_Name c) (Spec_Network_AutoCreateSubnetworks c)
    (Status_Network_SelfLink c) (Status_Network_Router c)
    v
    (Status_Bastion_SelfLink c) (Status_Bastion_InstanceStatus c).

Definition set_Bastion (link status : option string) (c : GCPCluster) :=
  mkCluster (Spec_Network_Name c) (Spec_Network_AutoCreateSubnetworks c)
    (Status_Network_SelfLink c) (Status_Network_Router c)
    (Status_Network_FirewallRules c)
    link status.

(** ** The journal of provider calls *)

Inductive Client : Type :=
| NetworksAPI | SubnetworksAPI | RoutersAPI | RoutesAPI
| FirewallsAPI | InstancesAPI | OperationsAPI.

Inductive Verb : Type := DoGet | DoInsert | DoDelete | DoPatch | DoList | DoWait.

(** A list filter: [filter.Regexp field pattern] of the newer client, or the
    filter string the older client passes as it is. *)
Inductive Filter : Type :=
| FilterRegexp (field pattern : string)
| FilterString (expr : string).

(** What a call carries besides its key. *)
Inductive Payload : Type :=
| NoPayload
| NetworkObj (n : Network.t)
| SubnetworkObj (n : Subnetwork.t)
| RouterObj (r : Router.t)
| FirewallObj (f : Firewall.t)
| InstanceObj (i : Instance.t)
| FilterExpr (f : Filter)
| OperationObj (op : Operation.t).

(** A call, with the error it was answered with ([None] for nil). *)
Record Call : Type := mkCall {
  client : Client;
  verb : Verb;
  key : Key;
  payload : Payload;
  answer : option error
}.

Definition Client_eqb (a b : Client) : bool :=
  match a, b with
  | NetworksAPI, NetworksAPI | SubnetworksAPI, SubnetworksAPI
  | RoutersAPI, RoutersAPI | RoutesAPI, RoutesAPI
  | FirewallsAPI, FirewallsAPI | InstancesAPI, InstancesAPI
  | OperationsAPI, OperationsAPI => true
  | _, _ => false
  end.

Definition Verb_eqb (a b : Verb) : bool :=
  match a, b with
  | DoGet, DoGet | DoInsert, DoInsert | DoDelete, DoDelete
  | DoPatch, DoPatch | DoList, DoList | DoWait, DoWait => true
  | _, _ => false
  end.

(** A call that changes the provider: Insert, Delete or Patch. *)
Definition mutating (c : Call) : bool :=
  match verb c with
  | DoInsert | DoDelete | DoPatch => true
  | DoGet | DoList | DoWait => false
  end.

Definition is_call (cl : Client) (v : Verb) (c : Call) : bool :=
  Client_eqb (client c) cl && Verb_eqb (verb c) v.

(** ** Computations of a reconciler

    A reconciler runs against a provider state [W] and the cluster object;
    it returns a value or panics (a nil dereference), and leaves the journal
    of the provider calls it made, oldest first. *)

Inductive Result (A : Type) : Type :=
| Returned (a : A)
| Panicked.
Arguments Returned {A} a.
Arguments Panicked {A}.

Record State (W : Type) : Type := mkState {
  provider : W;
  cluster : GCPCluster
}.
Arguments mkState {W} provider cluster.
Arguments provider {W} s.
Arguments cluster {W} s.

Definition M (W A : Type) : Type := State W -> Result A * State W * list Call.

Definition result {W A} (r : Result A * State W * list Call) : Result A := r.1.1.
Definition final {W A} (r : Result A * State W * list Call) : State W := r.1.2.
Definition journal {W A} (r : Result A * State W * list Call) : list Call := r.2.

(** The [err] of a [(value, err)] pair, and [err != nil]. *)
Definition errorOf {T} (r : T + error) : option error :=
  match r with inl _ => None | inr err => Some err end.

Definition notNil (e : option error) : bool :=
  match e with Some _ => true | None => false end.

Section Monad.
Context {W : Type}.

Definition ret {A} (a : A) : M W A := fun s => (Returned a, s, []).

Definition bind {A B} (m : M W A) (k : A -> M W B) : M W B :=
  fun s =>
    match m s with
    | (Returned a, s1, j1) =>
        let '(r, s2, j2) := k a s1 in (r, s2, j1 ++ j2)
    | (Panicked, s1, j1) => (Panicked, s1, j1)
    end.

(** A nil pointer is dereferenced. *)
Definition panic {A} : M W A := fun s => (Panicked, s, []).

(** One call to the provider, journalled with the error of its answer. *)
Definition invoke {A} (cl : Client) (v : Verb) (k : Key) (p : Payload)
    (err : A -> option error) (f : W -> A * W) : M W A :=
  fun s =>
    let '(a, w) := f (provider s) in
    (Returned a, mkState w (cluster s), [mkCall cl v k p (err a)]).

Definition readCluster : M W GCPCluster := fun s => (Returned (cluster s), s, []).

Definition assign (f : GCPCluster -> GCPCluster) : M W unit :=
  fun s => (Returned tt, mkState (provider s) (f (cluster s)), []).

(** [if err := m; err != nil { return err }], followed by [k]. *)
Definition orReturn (m : M W (option error)) (k : M W (option error))
  : M W (option error) :=
  bind m (fun e => match e with Some err => ret (Some err) | None => k end).

(** [for _, x := range l { if err := body x; err != nil { return err } }]. *)
Fixpoint forEach {A} (body : A -> M W (option error)) (l : list A)
  : M W (option error) :=
  match l with
  | [] => ret None
  | x :: rest => orReturn (body x) (forEach body rest)
  end.

End Monad.

Declare Scope go_scope.
Delimit Scope go_scope with go.
Notation "x <- m ;; k" := (bind m (fun x => k))
  (at level 20, m at level 99, k at level 200, only parsing) : go_scope.
Notation "'do' m ;; k" := (bind m (fun _ => k))
  (at level 10, m at level 99, k at level 200, only parsing) : go_scope.
Notation "'check' m ;; k" := (orReturn m k)
  (at level 10, m at level 99, k at level 200, only parsing) : go_scope.

Local Open Scope go_scope.

(** ** Package [networks]: [service.go] and [reconcile.go] *)

Module Networks.

(** The Get/Insert/Delete interface shared by [networksInterface],
    [subnetworksInterface] and [routersInterface].  [Get] answers with the
    resource or with an error, never with both and never with neither. *)
Record resourceInterface (W T : Type) : Type := {
  client_Get : Key -> W -> (T + error) * W;
  client_Insert : Key -> T -> W -> option error * W;
  client_Delete : Key -> W -> option error * W
}.
Arguments client_Get {W T} r k w.
Arguments client_Insert {W T} r k obj w.
Arguments client_Delete {W T} r k w.

(** [routesInterface]; only [Delete] and [List] are called. *)
Record routesInterface (W : Type) : Type := {
  routes_Delete : Key -> W -> option error * W;
  routes_List : Filter -> W -> (list Route.t + error) * W
}.
Arguments routes_Delete {W} r k w.
Arguments routes_List {W} r f w.

(** The methods of [Scope] that the reconciler calls. *)
Record Scope : Type := {
  Name : string;
  NetworkName : string;
  Region : string;
  IsSharedVpc : bool;
  NetworkSpec : Network.t;
  SubnetworkSpec : list Subnetwork.t;
  NatRouterSpec : Router.t
}.

Record Service (W : Type) : Type := {
  scope : Scope;
  networks : resourceInterface W Network.t;
  subnetworks : resourceInterface W Subnetwork.t;
  routers : resourceInterface W Router.t;
  routes : routesInterface W
}.
Arguments scope {W} s.
Arguments networks {W} s.
Arguments subnetworks {W} s.
Arguments routers {W} s.
Arguments routes {W} s.

Definition k8sNodeRouteTag : string := "k8s-node-route".

Section Reconciler.
Context {W : Type}.

(** [infrav1.ClusterTagKey]: the ownership tag of a cluster, a fixed
    string keyed by the cluster name.  It is declared in the API
    package; the reconciler only compares against it. *)
Variable ClusterTagKey : string -> string.

Variable s : Service W.

Definition networks_Get (k : Key) : M W (Network.t + error) :=
  invoke NetworksAPI DoGet k NoPayload errorOf (client_Get (networks s) k).
Definition networks_Insert (k : Key) (obj : Network.t) : M W (option error) :=
  invoke NetworksAPI DoInsert k (NetworkObj obj) id (client_Insert (networks s) k obj).
Definition networks_Delete (k : Key) : M W (option error) :=
  invoke NetworksAPI DoDelete k NoPayload id (client_Delete (networks s) k).

Definition subnetworks_Get (k : Key) : M W (Subnetwork.t + error) :=
  invoke SubnetworksAPI DoGet k NoPayload errorOf (client_Get (subnetworks s) k).
Definition subnetworks_Insert (k : Key) (obj : Subnetwork.t) : M W (option error) :=
  invoke SubnetworksAPI DoInsert k (SubnetworkObj obj) id (client_Insert (subnetworks s) k obj).
Definition subnetworks_Delete (k : Key) : M W (option error) :=
  invoke SubnetworksAPI DoDelete k NoPayload id (client_Delete (subnetworks s) k).

Definition routers_Get (k : Key) : M W (Router.t + error) :=
  invoke RoutersAPI DoGet k NoPayload errorOf (client_Get (routers s) k).
Definition routers_Insert (k : Key) (obj : Router.t) : M W (option error) :=
  invoke RoutersAPI DoInsert k (RouterObj obj) id (client_Insert (routers s) k obj).
Definition routers_Delete (k : Key) : M W (option error) :=
  invoke RoutersAPI DoDelete k NoPayload id (client_Delete (routers s) k).

Definition routes_List_ (fl : Filter) : M W (list Route.t + error) :=
  invoke RoutesAPI DoList (GlobalKey "") (FilterExpr fl) errorOf (routes_List (routes s) fl).
Definition routes_Delete_ (k : Key) : M W (option error) :=
  invoke RoutesAPI DoDelete k NoPayload id (routes_Delete (routes s) k).

(** [createOrGetNetwork]. *)
Definition createOrGetNetwork : M W (Network.t + error) :=
  let networkKey := GlobalKey (NetworkName (scope s)) in
  r <- networks_Get networkKey ;;
  match r with
  | inl network => ret (inl network)
  | inr err =>
      if negb (gcperrors.IsNotFound (Some err)) then ret (inr err)
      else if IsSharedVpc (scope s) then ret (inr err)
      else
        e <- networks_Insert networkKey (NetworkSpec (scope s)) ;;
        match e with
        | Some err => ret (inr err)
        | None => networks_Get networkKey
        end
  end.

(** [createOrGetSubNetwork]. *)
Definition createOrGetSubNetwork (subnet : Subnetwork.t)
  : M W (Subnetwork.t + error) :=
  let subnetKey := RegionalKey (Subnetwork.Name subnet) (Subnetwork.Region subnet) in
  r <- subnetworks_Get subnetKey ;;
  match r with
  | inl subnetwork => ret (inl subnetwork)
  | inr err =>
      if negb (gcperrors.IsNotFound (Some err)) then ret (inr err)
      else
        e <- subnetworks_Insert subnetKey subnet ;;
        match e with
        | Some err => ret (inr err)
        | None => subnetworks_Get subnetKey
        end
  end.

(** [createOrGetRouter]. *)
Definition createOrGetRouter (network : Network.t) : M W (Router.t + error) :=
  let spec := NatRouterSpec (scope s) in
  let routerKey := RegionalKey (Router.Name spec) (Region (scope s)) in
  r <- routers_Get routerKey ;;
  match r with
  | inl router => ret (inl router)
  | inr err =>
      if negb (gcperrors.IsNotFound (Some err)) then ret (inr err)
      else if IsSharedVpc (scope s) then ret (inr err)
      else
        let spec :=
          Router.mk (Router.Name spec)
            (ClusterTagKey (Name (scope s)))
            (Network.SelfLink network)
            (Router.SelfLink spec) (Router.Nats spec) in
        e <- routers_Insert routerKey spec ;;
        match e with
        | Some err => ret (inr err)
        | None => routers_Get routerKey
        end
  end.

(** The subnetwork loop of [Reconcile]. *)
Definition Reconcile_subnetworks (network : Network.t) : M W (option error) :=
  if negb (Network.AutoCreateSubnetworks network) then
    forEach (fun subnet => r <- createOrGetSubNetwork subnet ;; ret (errorOf r))
      (SubnetworkSpec (scope s))
  else ret None.

(** The router step of [Reconcile]. *)
Definition Reconcile_router (network : Network.t) : M W (option error) :=
  if String.eqb (Network.Description network) (ClusterTagKey (Name (scope s))) then
    r <- createOrGetRouter network ;;
    match r with
    | inr err => ret (Some err)
    | inl router =>
        do assign (set_Router (Some (Router.SelfLink router))) ;;
        ret None
    end
  else ret None.

(** [Reconcile]. *)
Definition Reconcile : M W (option error) :=
  r <- createOrGetNetwork ;;
  match r with
  | inr err => ret (Some err)
  | inl network =>
      do assign (set_SelfLink (Some (Network.SelfLink network))) ;;
      check Reconcile_subnetworks network ;;
      check Reconcile_router network ;;
      do assign (set_SelfLink (Some (Network.SelfLink network))) ;;
      ret None
  end.

(** The router step of [Delete]: the router is deleted only when it
    carries the ownership tag; NotFound is tolerated on both calls. *)
Definition Delete_router : M W (option error) :=
  let routerSpec := NatRouterSpec (scope s) in
  let routerKey := RegionalKey (Router.Name routerSpec) (Region (scope s)) in
  r <- routers_Get routerKey ;;
  match r with
  | inr err =>
      if negb (gcperrors.IsNotFound (Some err)) then ret (Some err)
      else ret None
  | inl router =>
      if String.eqb (Router.Description router) (ClusterTagKey (Name (scope s)))
      then
        e <- routers_Delete routerKey ;;
        if notNil e && negb (gcperrors.IsNotFound e) then ret e
        else ret None
      else ret None
  end.

(** The subnetwork loop of [Delete]. *)
Definition Delete_subnetwork (subnet : Subnetwork.t) : M W (option error) :=
  let subnetKey := RegionalKey (Subnetwork.Name subnet) (Subnetwork.Region subnet) in
  r <- subnetworks_Get subnetKey ;;
  match r with
  | inr err =>
      if negb (gcperrors.IsNotFound (Some err)) then ret (Some err)
      else ret None
  | inl subnetwork => subnetworks_Delete subnetKey
  end.

Definition Delete_subnetworks (network : Network.t) : M W (option error) :=
  if negb (Network.AutoCreateSubnetworks network) then
    forEach Delete_subnetwork (SubnetworkSpec (scope s))
  else ret None.

(** The route loop of [Delete]. *)
Definition Delete_route (route : Route.t) : M W (option error) :=
  if GoStrings.HasSuffix (Route.Network route) (NetworkName (scope s)) then
    routes_Delete_ (GlobalKey (Route.Name route))
  else ret None.

Definition Delete_routes : M W (option error) :=
  let fl := FilterRegexp "description" k8sNodeRouteTag in
  r <- routes_List_ fl ;;
  match r with
  | inr err => ret (Some err)
  | inl routeList => forEach Delete_route routeList
  end.

(** [Delete]. *)
Definition Delete : M W (option error) :=
  if IsSharedVpc (scope s) then
    do assign (set_Router None) ;;
    do assign (set_SelfLink None) ;;
    ret None
  else
    let networkKey := GlobalKey (NetworkName (scope s)) in
    r <- networks_Get networkKey ;;
    match r with
    | inr err => ret (gcperrors.IgnoreNotFound (Some err))
    | inl network =>
        if negb (String.eqb (Network.Description network)
                   (ClusterTagKey (Name (scope s))))
        then ret None
        else
          check Delete_router ;;
          check Delete_subnetworks network ;;
          check Delete_routes ;;
          check networks_Delete networkKey ;;
          do assign (set_Router None) ;;
          do assign (set_SelfLink None) ;;
          ret None
    end.

End Reconciler.

End Networks.

(** ** Package [compute]: networks, firewalls and bastion of the older service *)

Module Compute.

(** A service of the generated API client ([NetworksService],
    [RoutersService], ...).  A mutating call answers with the operation it
    started or with an error; [Get] and [List] answer with the resource,
    or the list, or with an error. *)
Record apiService (W T : Type) : Type := {
  api_Get : Key -> W -> (T + error) * W;
  api_Insert : Key -> T -> W -> (Operation.t + error) * W;
  api_Delete : Key -> W -> (Operation.t + error) * W;
  api_Patch : Key -> T -> W -> (Operation.t + error) * W;
  api_List : option Filter -> W -> (list T + error) * W
}.
Arguments api_Get {W T} a k w.
Arguments api_Insert {W T} a k obj w.
Arguments api_Delete {W T} a k w.
Arguments api_Patch {W T} a k obj w.
Arguments api_List {W T} a f w.

(** [infrav1.SubnetSpec]; [EnableFlowLogs] is a pointer. *)
Record SubnetSpec : Type := {
  subnet_Name : string;
  subnet_Region : string;
  subnet_CidrBlock : string;
  subnet_EnableFlowLogs : option bool
}.

(** The cluster scope.  [NetworkName] and [NetworkSelfLink] are read from
    the cluster object, which the reconcilers assign to. *)
Record Scope : Type := {
  Name : string;
  Cluster_Name : string;
  Project : string;
  Region : string;
  Subnets : list SubnetSpec;
  LoadBalancerBackendPort : Z;
  NetworkName : GCPCluster -> string;
  NetworkSelfLink : GCPCluster -> string
}.

Record Service (W : Type) : Type := {
  scope : Scope;
  networks : apiService W Network.t;
  subnetworks : apiService W Subnetwork.t;
  routers : apiService W Router.t;
  routes : apiService W Route.t;
  firewalls : apiService W Firewall.t;
  instances : apiService W Instance.t;
  (** Modelled from the spec: [wait.ForComputeOperation], the operation
      waiter, which is not part of the sources at hand.  It blocks until
      the operation is terminal and answers nil on success, the
      operation's error on failure and a timeout error otherwise; what it
      answers is up to the provider. *)
  ForComputeOperation : Operation.t -> W -> option error * W
}.
Arguments scope {W} s.
Arguments networks {W} s.
Arguments subnetworks {W} s.
Arguments routers {W} s.
Arguments routes {W} s.
Arguments firewalls {W} s.
Arguments instances {W} s.
Arguments ForComputeOperation {W} s op w.

Definition k8sNodeRouteTag : string := "k8s-node-route".

Definition getRouterName (network : string) : string := network +:+ "-" +:+ "router".
Definition getRouterNatName (network : string) : string := network +:+ "-" +:+ "nat".

(** [getSubnetNameFromUrl]: the text after the last slash. *)
Definition getSubnetNameFromUrl (subnetUrl : string) : string :=
  let splitSlice := GoStrings.SplitByte subnetUrl "/" in
  if (0 <? length splitSlice)%nat then List.last splitSlice "" else "".

Section Reconciler.
Context {W : Type}.

(** [infrav1.ClusterTagKey] and [infrav1.APIServerRoleTagValue], declared
    in the API package. *)
Variable ClusterTagKey : string -> string.
Variable APIServerRoleTagValue : string.

(** The order in which [range] visits the keys of a map is not
    specified; [rangeKeys] is the order taken. *)
Variable rangeKeys : gmap string string -> list string.

Variable s : Service W.

Definition networks_Get (k : Key) : M W (Network.t + error) :=
  invoke NetworksAPI DoGet k NoPayload errorOf (api_Get (networks s) k).
Definition networks_Insert (obj : Network.t) : M W (Operation.t + error) :=
  let k := GlobalKey (Network.Name obj) in
  invoke NetworksAPI DoInsert k (NetworkObj obj) errorOf (api_Insert (networks s) k obj).
Definition networks_Delete (k : Key) : M W (Operation.t + error) :=
  invoke NetworksAPI DoDelete k NoPayload errorOf (api_Delete (networks s) k).

Definition subnetworks_Get (k : Key) : M W (Subnetwork.t + error) :=
  invoke SubnetworksAPI DoGet k NoPayload errorOf (api_Get (subnetworks s) k).
Definition subnetworks_Insert (region : string) (obj : Subnetwork.t)
  : M W (Operation.t + error) :=
  let k := RegionalKey (Subnetwork.Name obj) region in
  invoke SubnetworksAPI DoInsert k (SubnetworkObj obj) errorOf
    (api_Insert (subnetworks s) k obj).
Definition subnetworks_Delete (k : Key) : M W (Operation.t + error) :=
  invoke SubnetworksAPI DoDelete k NoPayload errorOf (api_Delete (subnetworks s) k).

Definition routers_Get (k : Key) : M W (Router.t + error) :=
  invoke RoutersAPI DoGet k NoPayload errorOf (api_Get (routers s) k).
Definition routers_Insert (region : string) (obj : Router.t)
  : M W (Operation.t + error) :=
  let k := RegionalKey (Router.Name obj) region in
  invoke RoutersAPI DoInsert k (RouterObj obj) errorOf (api_Insert (routers s) k obj).
Definition routers_Delete (k : Key) : M W (Operation.t + error) :=
  invoke RoutersAPI DoDelete k NoPayload errorOf (api_Delete (routers s) k).
Definition routers_Patch (k : Key) (obj : Router.t) : M W (Operation.t + error) :=
  invoke RoutersAPI DoPatch k (RouterObj obj) errorOf (api_Patch (routers s) k obj).

Definition routes_List (fl : string) : M W (list Route.t + error) :=
  invoke RoutesAPI DoList (GlobalKey "") (FilterExpr (FilterString fl)) errorOf
    (api_List (routes s) (Some (FilterString fl))).
Definition routes_Delete (k : Key) : M W (Operation.t + error) :=
  invoke RoutesAPI DoDelete k NoPayload errorOf (api_Delete (routes s) k).

Definition firewalls_Get (k : Key) : M W (Firewall.t + error) :=
  invoke FirewallsAPI DoGet k NoPayload errorOf (api_Get (firewalls s) k).
Definition firewalls_Insert (obj : Firewall.t) : M W (Operation.t + error) :=
  let k := GlobalKey (Firewall.Name obj) in
  invoke FirewallsAPI DoInsert k (FirewallObj obj) errorOf (api_Insert (firewalls s) k obj).
Definition firewalls_Delete (k : Key) : M W (Operation.t + error) :=
  invoke FirewallsAPI DoDelete k NoPayload errorOf (api_Delete (firewalls s) k).
Definition firewalls_List : M W (list Firewall.t + error) :=
  invoke FirewallsAPI DoList (GlobalKey "") NoPayload errorOf
    (api_List (firewalls s) None).

Definition instances_Get (k : Key) : M W (Instance.t + error) :=
  invoke InstancesAPI DoGet k NoPayload errorOf (api_Get (instances s) k).
Definition instances_Insert (zone : string) (obj : Instance.t)
  : M W (Operation.t + error) :=
  let k := ZonalKey (Instance.Name obj) zone in
  invoke InstancesAPI DoInsert k (InstanceObj obj) errorOf (api_Insert (instances s) k obj).
Definition instances_Delete (k : Key) : M W (Operation.t + error) :=
  invoke InstancesAPI DoDelete k NoPayload errorOf (api_Delete (instances s) k).

Definition wait_ForComputeOperation (op : Operation.t) : M W (option error) :=
  invoke OperationsAPI DoWait (GlobalKey (Operation.Name op)) (OperationObj op) id
    (ForComputeOperation s op).

(** Modelled from the spec: [checkOrWaitForDeleteOp], which is not part
    of the sources at hand.  A delete tolerates "already absent": a
    NotFound answer of the call is a success.  Any other error of the
    call is propagated as it is and waiting is skipped; otherwise the
    operation is waited on. *)
Definition checkOrWaitForDeleteOp (r : Operation.t + error) : M W (option error) :=
  match r with
  | inr err => if gcperrors.IsNotFound (Some err) then ret None else ret (Some err)
  | inl op => wait_ForComputeOperation op
  end.

(** [errors.Wrapf] on a result: a nil error stays nil. *)
Definition wrapf (e : option error) (message : string) : option error :=
  match e with Some err => Some (Wrapf err message) | None => None end.

(** *** networks.go *)

(** [getNetworkSpec]. *)
Definition getNetworkSpec (c : GCPCluster) : Network.t :=
  let name := NetworkName (scope s) c in
  let description := ClusterTagKey (Name (scope s)) in
  match Spec_Network_AutoCreateSubnetworks c with
  | Some auto =>
      Network.mk name description "" auto []
        (if negb auto then ["AutoCreateSubnetworks"] else [])
  | None => Network.mk name description "" true [] []
  end.

(** [getRouterNatSpec]. *)
Definition getRouterNatSpec (c : GCPCluster) : RouterNat.t :=
  RouterNat.mk (getRouterNatName (NetworkName (scope s) c))
    "AUTO_ONLY" "ALL_SUBNETWORKS_ALL_IP_RANGES".

(** [getRouterSpec]. *)
Definition getRouterSpec (c : GCPCluster) (network : Network.t) : Router.t :=
  Router.mk (getRouterName (Network.Name network)) ""
    (Network.SelfLink network) "" [getRouterNatSpec c].

(** The tail of [createCloudNat], once the router is at hand. *)
Definition createCloudNat_nat (router : Router.t) : M W (option error) :=
  c <- readCluster ;;
  check (match Router.Nats router with
         | [] =>
             let router :=
               Router.mk (Router.Name router) (Router.Description router)
                 (Router.Network router) (Router.SelfLink router)
                 [getRouterNatSpec c] in
             r <- routers_Patch
                    (RegionalKey (Router.Name router) (Region (scope s))) router ;;
             match r with
             | inr err => ret (Some (Wrapf err "failed to patch router to create nat"))
             | inl op =>
                 e <- wait_ForComputeOperation op ;;
                 ret (wrapf e "failed to wait for patch router operation")
             end
         | _ :: _ => ret None
         end) ;;
  do assign (set_Router (Some (Router.SelfLink router))) ;;
  ret None.

(** [createCloudNat]. *)
Definition createCloudNat (network : Network.t) : M W (option error) :=
  c <- readCluster ;;
  r <- routers_Get
         (RegionalKey (getRouterName (NetworkName (scope s) c)) (Region (scope s))) ;;
  if gcperrors.IsNotFound (errorOf r) then
    let router := getRouterSpec c network in
    r <- routers_Insert (Region (scope s)) router ;;
    match r with
    | inr err => ret (Some (Wrapf err "failed to create router"))
    | inl op =>
        e <- wait_ForComputeOperation op ;;
        match e with
        | Some err => ret (Some (Wrapf err "failed to wait for create router operation"))
        | None =>
            r <- routers_Get (RegionalKey (Router.Name router) (Region (scope s))) ;;
            match r with
            | inr err => ret (Some (Wrapf err "failed to get router after create"))
            | inl router => createCloudNat_nat router
            end
        end
    end
  else
    match r with
    | inr err => ret (Some (Wrapf err "failed to get routers"))
    | inl router => createCloudNat_nat router
    end.

(** [getSubnetworkSpec]; [None] when [EnableFlowLogs] is nil, which the
    function dereferences. *)
Definition getSubnetworkSpec (c : GCPCluster) (subnet : SubnetSpec)
  : option Subnetwork.t :=
  match subnet_EnableFlowLogs subnet with
  | Some flowLogs =>
      Some (Subnetwork.mk (subnet_Name subnet) "" (subnet_Region subnet)
              (subnet_CidrBlock subnet) flowLogs
              (NetworkSelfLink (scope s) c) "")
  | None => None
  end.

(** The body of the loop of [createSubnetworks]. *)
Definition createSubnetwork (subnet : SubnetSpec) : M W (option error) :=
  r <- subnetworks_Get (RegionalKey (subnet_Name subnet) (Region (scope s))) ;;
  if gcperrors.IsNotFound (errorOf r) then
    c <- readCluster ;;
    match getSubnetworkSpec c subnet with
    | None => panic
    | Some subnetSpec =>
        r <- subnetworks_Insert (Region (scope s)) subnetSpec ;;
        match r with
        | inr err => ret (Some (Wrapf err "failed to create subnetwork"))
        | inl op =>
            e <- wait_ForComputeOperation op ;;
            match e with
            | Some err => ret (Some (Wrapf err "failed to wait create subnetwork"))
            | None =>
                r <- subnetworks_Get
                       (RegionalKey (Subnetwork.Name subnetSpec) (Region (scope s))) ;;
                ret (wrapf (errorOf r) "failed to describe subnetwork")
            end
        end
    end
  else ret (wrapf (errorOf r) "failed to describe subnetwork").

(** [createSubnetworks]. *)
Definition createSubnetworks : M W (option error) :=
  forEach createSubnetwork (Subnets (scope s)).

(** The tail of [ReconcileNetwork], once the network is at hand. *)
Definition ReconcileNetwork_network (network : Network.t) (autoCreateCloudNat : bool)
  : M W (option error) :=
  check (if autoCreateCloudNat then
           e <- createCloudNat network ;;
           ret (wrapf e "failed to create cloudnat gateway")
         else ret None) ;;
  do assign (set_Spec_Network_Name (Some (Network.Name network))) ;;
  do assign (set_Spec_Network_AutoCreateSubnetworks
               (Some (Network.AutoCreateSubnetworks network))) ;;
  do assign (set_SelfLink (Some (Network.SelfLink network))) ;;
  if negb (Network.AutoCreateSubnetworks network) then createSubnetworks
  else ret None.

(** [ReconcileNetwork]. *)
Definition ReconcileNetwork : M W (option error) :=
  c <- readCluster ;;
  let spec := getNetworkSpec c in
  r <- networks_Get (GlobalKey (Network.Name spec)) ;;
  if gcperrors.IsNotFound (errorOf r) then
    r <- networks_Insert spec ;;
    match r with
    | inr err => ret (Some (Wrapf err "failed to create network"))
    | inl op =>
        e <- wait_ForComputeOperation op ;;
        match e with
        | Some err => ret (Some (Wrapf err "failed to create network"))
        | None =>
            r <- networks_Get (GlobalKey (Network.Name spec)) ;;
            match r with
            | inr err => ret (Some (Wrapf err "failed to describe network"))
            | inl network => ReconcileNetwork_network network true
            end
        end
    end
  else
    match r with
    | inr err => ret (Some (Wrapf err "failed to describe network"))
    | inl network => ReconcileNetwork_network network false
    end.

(** The body of the loop of [deleteSubnetworks]. *)
Definition deleteSubnetwork (subnet : string) : M W (option error) :=
  let subnetName := getSubnetNameFromUrl subnet in
  if negb (String.eqb subnetName "") then
    r <- subnetworks_Delete (RegionalKey subnetName (Region (scope s))) ;;
    match r with
    | inr err => ret (Some (Wrapf err ("failed to delete subnetwork " +:+ subnet)))
    | inl op =>
        e <- wait_ForComputeOperation op ;;
        ret (wrapf e ("failed to wait delete subnetwork " +:+ subnet))
    end
  else ret None.

(** [deleteSubnetworks]. *)
Definition deleteSubnetworks (subnetworks : list string) : M W (option error) :=
  forEach deleteSubnetwork subnetworks.

(** The router step of [DeleteNetwork]. *)
Definition DeleteNetwork_router : M W (option error) :=
  c <- readCluster ;;
  r <- routers_Get
         (RegionalKey (getRouterName (NetworkName (scope s) c)) (Region (scope s))) ;;
  match r with
  | inl router =>
      r <- routers_Delete (RegionalKey (Router.Name router) (Region (scope s))) ;;
      opErr <- checkOrWaitForDeleteOp r ;;
      ret (wrapf opErr "failed to delete router")
  | inr err =>
      if negb (gcperrors.IsNotFound (Some err))
      then ret (Some (Wrapf err "failed to get router to delete"))
      else ret None
  end.

(** The route loop of [DeleteNetwork]. *)
Definition DeleteNetwork_route (network : Network.t) (route : Route.t)
  : M W (option error) :=
  if GoStrings.HasSuffix (Route.Network route) (Network.Name network) then
    r <- routes_Delete (GlobalKey (Route.Name route)) ;;
    opErr <- checkOrWaitForDeleteOp r ;;
    ret (wrapf opErr "failed to delete route")
  else ret None.

Definition DeleteNetwork_routes (network : Network.t) : M W (option error) :=
  let filterString :=
    "description=" +:+ k8sNodeRouteTag +:+ " name=" +:+ Name (scope s) +:+ "-*" in
  r <- routes_List filterString ;;
  match r with
  | inr err => ret (Some (Wrapf err "failed to list routes for the cluster"))
  | inl routeList => forEach (DeleteNetwork_route network) routeList
  end.

(** [DeleteNetwork].  When [Get] fails with an error other than
    NotFound, the network is nil and reading its description panics. *)
Definition DeleteNetwork : M W (option error) :=
  c <- readCluster ;;
  r <- networks_Get (GlobalKey (NetworkName (scope s) c)) ;;
  if gcperrors.IsNotFound (errorOf r) then ret None
  else
    match r with
    | inr _ => panic
    | inl network =>
        if negb (String.eqb (Network.Description network)
                   (ClusterTagKey (Name (scope s))))
        then ret None
        else
          check DeleteNetwork_router ;;
          check DeleteNetwork_routes network ;;
          check (if negb (Network.AutoCreateSubnetworks network)
                 then deleteSubnetworks (Network.Subnetworks network)
                 else ret None) ;;
          check (r <- networks_Delete (GlobalKey (Network.Name network)) ;;
                 opErr <- checkOrWaitForDeleteOp r ;;
                 ret (wrapf opErr "failed to delete network")) ;;
          do assign (set_Spec_Network_Name None) ;;
          ret None
    end.

(** *** firewalls.go *)

(** The authority check of [url.Parse], see [url.Parse]. *)
Variable parseAuthority : string -> option error.

(** [getFirewallNetworkName]: the name of the network of a firewall. *)
Definition getFirewallNetworkName (firewall : Firewall.t) : string + error :=
  let fireNetUrl := Firewall.Network firewall in
  if (String.length fireNetUrl =? 0)%nat then inl ""
  else
    match url.Parse parseAuthority fireNetUrl with
    | inr err =>
        inr (Wrapf err ("failed to parse network url '" +:+ Firewall.Network firewall
                        +:+ "' for firewall " +:+ Firewall.Name firewall))
    | inl u => inl (GoStrings.Base (url.Path u))
    end.

(** [getFirewallSpecs]. *)
Definition getFirewallSpecs (c : GCPCluster) : list Firewall.t :=
  [ Firewall.mk
      ("allow-" +:+ Name (scope s) +:+ "-" +:+ APIServerRoleTagValue +:+ "-healthchecks")
      (NetworkSelfLink (scope s) c) ""
      [FirewallAllowed.mk "TCP" [pretty (LoadBalancerBackendPort (scope s))]]
      "INGRESS"
      ["35.191.0.0/16"; "130.211.0.0/22"]
      []
      [Name (scope s) +:+ "-control-plane"];
    Firewall.mk
      ("allow-" +:+ Name (scope s) +:+ "-" +:+ APIServerRoleTagValue +:+ "-cluster")
      (NetworkSelfLink (scope s) c) ""
      [FirewallAllowed.mk "all" []]
      "INGRESS"
      []
      [Name (scope s) +:+ "-control-plane"; Name (scope s) +:+ "-node"]
      [Name (scope s) +:+ "-control-plane"; Name (scope s) +:+ "-node"] ].

(** "Store in the Cluster Status". *)
Definition storeFirewall (firewall : Firewall.t) : M W (option error) :=
  do assign (fun c =>
               set_FirewallRules
                 (<[Firewall.Name firewall := Firewall.SelfLink firewall]>
                    (Status_Network_FirewallRules c)) c) ;;
  ret None.

(** The body of the loop of [ReconcileFirewalls]. *)
Definition ReconcileFirewall (firewallSpec : Firewall.t) : M W (option error) :=
  r <- firewalls_Get (GlobalKey (Firewall.Name firewallSpec)) ;;
  if gcperrors.IsNotFound (errorOf r) then
    r <- firewalls_Insert firewallSpec ;;
    match r with
    | inr err => ret (Some (Wrapf err "failed to create firewall rule"))
    | inl op =>
        e <- wait_ForComputeOperation op ;;
        match e with
        | Some err => ret (Some (Wrapf err "failed to create firewall rule"))
        | None =>
            r <- firewalls_Get (GlobalKey (Firewall.Name firewallSpec)) ;;
            match r with
            | inr err => ret (Some (Wrapf err "failed to describe firewall rule"))
            | inl firewall => storeFirewall firewall
            end
        end
    end
  else
    match r with
    | inr err => ret (Some (Wrapf err "failed to describe firewall rule"))
    | inl firewall => storeFirewall firewall
    end.

(** [ReconcileFirewalls]. *)
Definition ReconcileFirewalls : M W (option error) :=
  c <- readCluster ;;
  forEach ReconcileFirewall (getFirewallSpecs c).

(** The body of the first loop of [DeleteFirewalls], over the recorded
    rules. *)
Definition DeleteFirewalls_recorded (name : string) : M W (option error) :=
  r <- firewalls_Delete (GlobalKey name) ;;
  opErr <- checkOrWaitForDeleteOp r ;;
  match opErr with
  | Some err => ret (Some (Wrapf err "failed to delete firewalls"))
  | None =>
      do assign (fun c =>
                   set_FirewallRules
                     (delete name (Status_Network_FirewallRules c)) c) ;;
      ret None
  end.

(** The innermost loop of the sweep, over the target tags of a rule. *)
Definition DeleteFirewalls_tag (clusterName : string) (firewall : Firewall.t)
    (tt : string) : M W (option error) :=
  if String.eqb tt clusterName then
    r <- firewalls_Delete (GlobalKey (Firewall.Name firewall)) ;;
    opErr <- checkOrWaitForDeleteOp r ;;
    ret (wrapf opErr ("failed to delete firewall " +:+ Firewall.Name firewall))
  else ret None.

(** The body of the sweep, over the rules of the project. *)
Definition DeleteFirewalls_rule (clusterName : string) (firewall : Firewall.t)
  : M W (option error) :=
  match getFirewallNetworkName firewall with
  | inr err =>
      ret (Some (Wrapf err ("failed to get network name for firewall "
                            +:+ Firewall.Name firewall)))
  | inl networkName =>
      c <- readCluster ;;
      if String.eqb networkName (NetworkName (scope s) c) then
        forEach (DeleteFirewalls_tag clusterName firewall) (Firewall.TargetTags firewall)
      else ret None
  end.

(** The sweep of [DeleteFirewalls], over the rules of the project. *)
Definition DeleteFirewalls_sweep (firewallRules : list Firewall.t) : M W (option error) :=
  let clusterName := Name (scope s) in
  forEach (DeleteFirewalls_rule clusterName) firewallRules.

(** [DeleteFirewalls]. *)
Definition DeleteFirewalls : M W (option error) :=
  c <- readCluster ;;
  check forEach DeleteFirewalls_recorded (rangeKeys (Status_Network_FirewallRules c)) ;;
  r <- firewalls_List ;;
  match r with
  | inr err =>
      ret (Some (Wrapf err ("failed to list firewall rules for project "
                            +:+ Project (scope s))))
  | inl firewallRules => DeleteFirewalls_sweep firewallRules
  end.

(** *** The bastion host *)

Definition getDefaultBastionName : string := Name (scope s) +:+ "-bastion".
Definition getDefaultBastionZone : string := Region (scope s) +:+ "-a".
Definition getDefaultBastionImage : string :=
  "projects/ubuntu-os-cloud/global/images/family/ubuntu-minimal-1804-lts".
Definition getDefaultBastionMachineType : string := "f1-micro".
Definition CloudPlatformScope : string :=
  "https://www.googleapis.com/auth/cloud-platform".

(** [getDefaultBastion]; the one network interface, with its
    one-to-one NAT access configuration, is kept as its network. *)
Definition getDefaultBastion (c : GCPCluster) : Instance.t :=
  let name := getDefaultBastionName in
  let zone := getDefaultBastionZone in
  Instance.mk name zone
    ("zones/" +:+ zone +:+ "/machineTypes/" +:+ getDefaultBastionMachineType)
    true
    (NetworkSelfLink (scope s) c)
    [Cluster_Name (scope s) +:+ "-bastion"]
    10
    ("zones/" +:+ zone +:+ "/diskTypes/" +:+ "pd-standard")
    getDefaultBastionImage
    [CloudPlatformScope]
    "" "".

(** [describeBastionInstance]: a NotFound error is returned as it is,
    any other error is wrapped. *)
Definition describeBastionInstance : M W (Instance.t + error) :=
  let name := getDefaultBastionName in
  let zone := getDefaultBastionZone in
  r <- instances_Get (ZonalKey name zone) ;;
  match r with
  | inr err =>
      if gcperrors.IsNotFound (Some err) then ret (inr err)
      else ret (inr (Wrapf err ("failed to describe bastion instance: " +:+ name
                                +:+ " in zone " +:+ zone)))
  | inl res => ret (inl res)
  end.

(** Modelled from the spec: [runInstance], which is not part of the
    sources at hand.  The instance is constructed and created: inserted,
    the operation waited on, and the instance read back. *)
Definition runInstance (spec : Instance.t) : M W (Instance.t + error) :=
  r <- instances_Insert (Instance.Zone spec) spec ;;
  match r with
  | inr err => ret (inr err)
  | inl op =>
      e <- wait_ForComputeOperation op ;;
      match e with
      | Some err => ret (inr err)
      | None => instances_Get (ZonalKey (Instance.Name spec) (Instance.Zone spec))
      end
  end.

Definition recordBastion (instance : Instance.t) : M W (option error) :=
  do assign (set_Bastion (Some (Instance.SelfLink instance))
               (Some (Instance.Status instance))) ;;
  ret None.

(** [ReconcileBastion].  As in [DeleteNetwork], an error of [Get] other
    than NotFound leaves the network nil. *)
Definition ReconcileBastion : M W (option error) :=
  c <- readCluster ;;
  r <- networks_Get (GlobalKey (NetworkName (scope s) c)) ;;
  if gcperrors.IsNotFound (errorOf r) then ret None
  else
    match r with
    | inr _ => panic
    | inl network =>
        if negb (String.eqb (Network.Description network)
                   (ClusterTagKey (Name (scope s))))
        then ret None
        else
          r <- describeBastionInstance ;;
          if gcperrors.IsNotFound (errorOf r) then
            let spec := getDefaultBastion c in
            r <- runInstance spec ;;
            match r with
            | inr err => ret (Some err)
            | inl instance => recordBastion instance
            end
          else
            match r with
            | inr err => ret (Some err)
            | inl instance => recordBastion instance
            end
    end.

(** [DeleteBastion]. *)
Definition DeleteBastion : M W (option error) :=
  c <- readCluster ;;
  r <- networks_Get (GlobalKey (NetworkName (scope s) c)) ;;
  if gcperrors.IsNotFound (errorOf r) then ret None
  else
    match r with
    | inr _ => panic
    | inl network =>
        if negb (String.eqb (Network.Description network)
                   (ClusterTagKey (Name (scope s))))
        then ret None
        else
          r <- describeBastionInstance ;;
          match r with
          | inr err =>
              if gcperrors.IsNotFound (Some err) then ret None
              else ret (Some (Wrapf err "unable to describe bastion instance"))
          | inl instance =>
              let zone := getDefaultBastionZone in
              r <- instances_Delete (ZonalKey (Instance.Name instance) zone) ;;
              match r with
              | inr err => ret (Some (Wrapf err "failed to terminate gcp instance"))
              | inl op =>
                  e <- wait_ForComputeOperation op ;;
                  ret (wrapf e "failed to terminate gcp instance")
              end
          end
    end.

End Reconciler.

End Compute.

(** ** An in-memory provider

    One table per resource kind, keyed as the provider keys them.  [Get]
    fails with NotFound when the key is absent, [Insert] adds the resource
    and assigns its self-link, [Delete] removes it and fails with NotFound
    when it is already absent.  Operations are terminal as soon as they are
    started, so waiting on one succeeds at once. *)

Global Instance Key_eq_dec : EqDecision Key.
Proof. solve_decision. Defined.

Global Instance Key_countable : Countable Key :=
  inj_countable'
    (fun k => (key_Name k, key_Zone k, key_Region k))
    (fun t => mkKey t.1.1 t.1.2 t.2)
    (fun k => match k with mkKey _ _ _ => eq_refl end).

Module Fake.

Record World : Type := mkWorld {
  networksT : gmap Key Network.t;
  subnetworksT : gmap Key Subnetwork.t;
  routersT : gmap Key Router.t;
  routesT : gmap Key Route.t;
  firewallsT : gmap Key Firewall.t;
  instancesT : gmap Key Instance.t
}.

Definition emptyWorld : World := mkWorld ∅ ∅ ∅ ∅ ∅ ∅.

Definition set_networksT (t : gmap Key Network.t) (w : World) : World :=
  mkWorld t (subnetworksT w) (routersT w) (routesT w) (firewallsT w) (instancesT w).
Definition set_subnetworksT (t : gmap Key Subnetwork.t) (w : World) : World :=
  mkWorld (networksT w) t (routersT w) (routesT w) (firewallsT w) (instancesT w).
Definition set_routersT (t : gmap Key Router.t) (w : World) : World :=
  mkWorld (networksT w) (subnetworksT w) t (routesT w) (firewallsT w) (instancesT w).
Definition set_routesT (t : gmap Key Route.t) (w : World) : World :=
  mkWorld (networksT w) (subnetworksT w) (routersT w) t (firewallsT w) (instancesT w).
Definition set_firewallsT (t : gmap Key Firewall.t) (w : World) : World :=
  mkWorld (networksT w) (subnetworksT w) (routersT w) (routesT w) t (instancesT w).
Definition set_instancesT (t : gmap Key Instance.t) (w : World) : World :=
  mkWorld (networksT w) (subnetworksT w) (routersT w) (routesT w) (firewallsT w) t.

Definition notFound : error := GoogleApiError 404 "notFound".
Definition alreadyExists : error := GoogleApiError 409 "alreadyExists".

Definition selfLinkOf (kind : string) (k : Key) : string :=
  "https://www.googleapis.com/compute/v1/projects/fake/" +:+ kind +:+ "/" +:+ key_Name k.

Definition linkNetwork (k : Key) (n : Network.t) : Network.t :=
  Network.mk (Network.Name n) (Network.Description n) (selfLinkOf "networks" k)
    (Network.AutoCreateSubnetworks n) (Network.Subnetworks n) (Network.ForceSendFields n).
Definition linkSubnetwork (k : Key) (n : Subnetwork.t) : Subnetwork.t :=
  Subnetwork.mk (Subnetwork.Name n) (Subnetwork.Description n)
    (Subnetwork.Region n) (Subnetwork.IpCidrRange n)
    (Subnetwork.EnableFlowLogs n) (Subnetwork.Network n) (selfLinkOf "subnetworks" k).
Definition linkRouter (k : Key) (r : Router.t) : Router.t :=
  Router.mk (Router.Name r) (Router.Description r) (Router.Network r)
    (selfLinkOf "routers" k) (Router.Nats r).
Definition linkRoute (k : Key) (r : Route.t) : Route.t := r.
Definition linkFirewall (k : Key) (f : Firewall.t) : Firewall.t :=
  Firewall.mk (Firewall.Name f) (Firewall.Network f) (selfLinkOf "firewalls" k)
    (Firewall.Allowed f) (Firewall.Direction f) (Firewall.SourceRanges f)
    (Firewall.SourceTags f) (Firewall.TargetTags f).
Definition linkInstance (k : Key) (i : Instance.t) : Instance.t :=
  Instance.mk (Instance.Name i) (Instance.Zone i) (Instance.MachineType i)
    (Instance.CanIpForward i) (Instance.Network i) (Instance.Tags i)
    (Instance.DiskSizeGb i) (Instance.DiskType i) (Instance.SourceImage i)
    (Instance.ServiceAccountScopes i) (selfLinkOf "instances" k) "RUNNING".

Section Table.
Context {T : Type}.
Variable table : World -> gmap Key T.
Variable update : gmap Key T -> World -> World.
Variable link : Key -> T -> T.

Definition tableGet (k : Key) (w : World) : (T + error) * World :=
  match table w !! k with
  | Some x => (inl x, w)
  | None => (inr notFound, w)
  end.

Definition tableInsert (k : Key) (obj : T) (w : World) : option error * World :=
  match table w !! k with
  | Some _ => (Some alreadyExists, w)
  | None => (None, update (<[k := link k obj]> (table w)) w)
  end.

Definition tableDelete (k : Key) (w : World) : option error * World :=
  match table w !! k with
  | Some _ => (None, update (delete k (table w)) w)
  | None => (Some notFound, w)
  end.

Definition tablePatch (k : Key) (obj : T) (w : World) : option error * World :=
  match table w !! k with
  | Some _ => (None, update (<[k := link k obj]> (table w)) w)
  | None => (Some notFound, w)
  end.

Definition tableList (keep : T -> bool) (w : World) : (list T + error) * World :=
  (inl (List.filter keep (map_to_list (table w)).*2), w).

(** The started operation of the generated client. *)
Definition started (k : Key) (r : option error * World)
  : (Operation.t + error) * World :=
  match r with
  | (None, w) => (inl (Operation.mk ("operation-" +:+ key_Name k)), w)
  | (Some err, w) => (inr err, w)
  end.

Definition api : Compute.apiService World T := {|
  Compute.api_Get := tableGet;
  Compute.api_Insert := fun k obj w => started k (tableInsert k obj w);
  Compute.api_Delete := fun k w => started k (tableDelete k w);
  Compute.api_Patch := fun k obj w => started k (tablePatch k obj w);
  Compute.api_List := fun _ w => tableList (fun _ => true) w
|}.

Definition synchronous : Networks.resourceInterface World T := {|
  Networks.client_Get := tableGet;
  Networks.client_Insert := tableInsert;
  Networks.client_Delete := tableDelete
|}.

End Table.

(** The routes whose description is the pattern of the filter. *)
Definition routesClient : Networks.routesInterface World := {|
  Networks.routes_Delete := tableDelete routesT set_routesT;
  Networks.routes_List := fun fl w =>
    tableList routesT
      (fun r => match fl with
                | FilterRegexp "description" p => String.eqb (Route.Description r) p
                | _ => true
                end) w
|}.

(** The service of package [networks] over the in-memory provider. *)
Definition networksService (sc : Networks.Scope) : Networks.Service World := {|
  Networks.scope := sc;
  Networks.networks := synchronous networksT set_networksT linkNetwork;
  Networks.subnetworks := synchronous subnetworksT set_subnetworksT linkSubnetwork;
  Networks.routers := synchronous routersT set_routersT linkRouter;
  Networks.routes := routesClient
|}.

(** The service of package [compute] over the in-memory provider. *)
Definition computeService (sc : Compute.Scope) : Compute.Service World := {|
  Compute.scope := sc;
  Compute.networks := api networksT set_networksT linkNetwork;
  Compute.subnetworks := api subnetworksT set_subnetworksT linkSubnetwork;
  Compute.routers := api routersT set_routersT linkRouter;
  Compute.routes := api routesT set_routesT linkRoute;
  Compute.firewalls := api firewallsT set_firewallsT linkFirewall;
  Compute.instances := api instancesT set_instancesT linkInstance;
  Compute.ForComputeOperation := fun _ w => (None, w)
|}.

Definition emptyCluster : GCPCluster := mkCluster None None None None ∅ None None.

End Fake.

(** ** A sample cluster, for the concrete runs below *)

Module Sample.

(** The ownership tag in the concrete runs. *)
Definition ClusterTagKey (name : string) : string := "capg-cluster-" +:+ name.

Definition parseAuthority (authority : string) : option error := None.

Definition natRouter : Router.t :=
  Router.mk "my-network-router" "" "" ""
    [RouterNat.mk "my-network-nat" "AUTO_ONLY" "ALL_SUBNETWORKS_ALL_IP_RANGES"].

Definition subnet : Subnetwork.t :=
  Subnetwork.mk "my-subnet" "" "us-east1" "10.0.0.0/24" false "" "".

Definition scope (shared : bool) : Networks.Scope := {|
  Networks.Name := "my-cluster";
  Networks.NetworkName := "my-network";
  Networks.Region := "us-east1";
  Networks.IsSharedVpc := shared;
  Networks.NetworkSpec :=
    Network.mk "my-network" (ClusterTagKey "my-cluster") "" false [] [];
  Networks.SubnetworkSpec := [subnet];
  Networks.NatRouterSpec := natRouter
|}.

Definition network (description : string) (auto : bool) : Network.t :=
  Network.mk "my-network" description "projects/p/global/networks/my-network" auto [] [].

Definition router (description : string) : Router.t :=
  Router.mk "my-network-router" description
    "projects/p/global/networks/my-network"
    "projects/p/regions/us-east1/routers/my-network-router" [].

Definition route : Route.t :=
  Route.mk "my-cluster-node-1" "projects/p/global/networks/my-network" "k8s-node-route".

(** A provider that holds a custom-mode network with the given
    description, the declared subnetwork, a router with the given
    description and one node route. *)
Definition world (networkTag routerTag : string) : Fake.World :=
  Fake.mkWorld
    {[ GlobalKey "my-network" := network networkTag false ]}
    {[ RegionalKey "my-subnet" "us-east1" := subnet ]}
    {[ RegionalKey "my-network-router" "us-east1" := router routerTag ]}
    {[ GlobalKey "my-cluster-node-1" := route ]}
    ∅ ∅.


(** The scope of the older service for the same cluster.  The name of the
    network is the declared one, "default" when none is declared; the
    self-link of the network is the recorded one. *)
Definition computeScope : Compute.Scope := {|
  Compute.Name := "my-cluster";
  Compute.Cluster_Name := "my-cluster";
  Compute.Project := "p";
  Compute.Region := "us-east1";
  Compute.Subnets := [ {| Compute.subnet_Name := "my-subnet";
                          Compute.subnet_Region := "us-east1";
                          Compute.subnet_CidrBlock := "10.0.0.0/24";
                          Compute.subnet_EnableFlowLogs := Some false |} ];
  Compute.LoadBalancerBackendPort := 6443;
  Compute.NetworkName := fun c => default "default" (Spec_Network_Name c);
  Compute.NetworkSelfLink := fun c => default "" (Status_Network_SelfLink c)
|}.

(** A rule of the cluster, created outside the declared set, and a rule of
    someone else on another network. *)
Definition clusterRule : Firewall.t :=
  Firewall.mk "my-cluster-extra" "projects/p/global/networks/my-network" ""
    [FirewallAllowed.mk "TCP" ["22"]] "INGRESS" ["0.0.0.0/0"] [] ["my-cluster"].

Definition foreignRule : Firewall.t :=
  Firewall.mk "other-rule" "projects/p/global/networks/other-network" ""
    [FirewallAllowed.mk "TCP" ["22"]] "INGRESS" ["0.0.0.0/0"] [] ["my-cluster"].

Definition untaggedRule : Firewall.t :=
  Firewall.mk "untagged-rule" "projects/p/global/networks/my-network" ""
    [FirewallAllowed.mk "TCP" ["22"]] "INGRESS" ["0.0.0.0/0"] [] ["other-cluster"].

Definition firewallRules : list Firewall.t := [foreignRule; clusterRule; untaggedRule].

Definition firewallWorld : Fake.World :=
  Fake.mkWorld ∅ ∅ ∅ ∅
    {[ GlobalKey "other-rule" := foreignRule;
       GlobalKey "my-cluster-extra" := clusterRule;
       GlobalKey "untagged-rule" := untaggedRule ]}
    ∅.


(** A provider that holds a custom-mode network of another owner, a host
    project's network, and none of the declared subnetworks. *)
Definition sharedWorld : Fake.World :=
  Fake.mkWorld
    {[ GlobalKey "my-network" := network "host project network" false ]}
    ∅ ∅ ∅ ∅ ∅.

(** The same provider as the older service sees it: the network lists the
    URLs of its subnetworks.  [subnetUrls] is that list. *)
Definition legacyWorld (networkTag routerTag : string) (subnetUrls : list string)
  : Fake.World :=
  Fake.mkWorld
    {[ GlobalKey "my-network" :=
         Network.mk "my-network" networkTag "projects/p/global/networks/my-network"
           false subnetUrls [] ]}
    {[ RegionalKey "my-subnet" "us-east1" := subnet ]}
    {[ RegionalKey "my-network-router" "us-east1" := router routerTag ]}
    {[ GlobalKey "my-cluster-node-1" := route ]}
    ∅ ∅.

Definition subnetUrl (name : string) : string :=
  "https://www.googleapis.com/compute/v1/projects/p/regions/us-east1/subnetworks/"
  +:+ name.

Definition recorded : GCPCluster :=
  mkCluster (Some "my-network") (Some false)
    (Some "projects/p/global/networks/my-network")
    (Some "projects/p/regions/us-east1/routers/my-network-router")
    ∅ None None.

(** A provider whose networks client is out of order: every lookup of a
    network is answered with a server error. *)
Definition backendError : error := GoogleApiError 503 "backendError".

Definition unavailable : Compute.Service Fake.World := {|
  Compute.scope := computeScope;
  Compute.networks := {|
    Compute.api_Get := fun _ w => (inr backendError, w);
    Compute.api_Insert :=
      Compute.api_Insert (Compute.networks (Fake.computeService computeScope));
    Compute.api_Delete :=
      Compute.api_Delete (Compute.networks (Fake.computeService computeScope));
    Compute.api_Patch :=
      Compute.api_Patch (Compute.networks (Fake.computeService computeScope));
    Compute.api_List :=
      Compute.api_List (Compute.networks (Fake.computeService computeScope))
  |};
  Compute.subnetworks := Compute.subnetworks (Fake.computeService computeScope);
  Compute.routers := Compute.routers (Fake.computeService computeScope);
  Compute.routes := Compute.routes (Fake.computeService computeScope);
  Compute.firewalls := Compute.firewalls (Fake.computeService computeScope);
  Compute.instances := Compute.instances (Fake.computeService computeScope);
  Compute.ForComputeOperation :=
    Compute.ForComputeOperation (Fake.computeService computeScope)
|}.

(** The scope of a cluster that declares a subnetwork without saying
    whether flow logs are wanted. *)
Definition bareSubnetScope : Compute.Scope := {|
  Compute.Name := "my-cluster";
  Compute.Cluster_Name := "my-cluster";
  Compute.Project := "p";
  Compute.Region := "us-east1";
  Compute.Subnets := [ {| Compute.subnet_Name := "my-subnet";
                          Compute.subnet_Region := "us-east1";
                          Compute.subnet_CidrBlock := "10.0.0.0/24";
                          Compute.subnet_EnableFlowLogs := None |} ];
  Compute.LoadBalancerBackendPort := 6443;
  Compute.NetworkName := fun c => default "default" (Spec_Network_Name c);
  Compute.NetworkSelfLink := fun c => default "" (Status_Network_SelfLink c)
|}.

(** A provider that holds the network of the cluster, with the ownership
    tag, and the bastion host of the cluster. *)
Definition bastion : Instance.t :=
  Instance.mk "my-cluster-bastion" "us-east1-a" "zones/us-east1-a/machineTypes/f1-micro"
    true "projects/p/global/networks/my-network" ["my-cluster-bastion"] 10
    "zones/us-east1-a/diskTypes/pd-standard"
    "projects/ubuntu-os-cloud/global/images/family/ubuntu-minimal-1804-lts"
    ["https://www.googleapis.com/auth/cloud-platform"]
    "projects/p/zones/us-east1-a/instances/my-cluster-bastion" "RUNNING".

Definition bastionWorld (instances : gmap Key Instance.t) : Fake.World :=
  Fake.mkWorld
    {[ GlobalKey "my-network" := network (ClusterTagKey "my-cluster") true ]}
    ∅ ∅ ∅ ∅ instances.

End Sample.

(** ** Vocabulary of the properties *)

Section Vocabulary.
Context {W : Type}.

(** Every call [m] makes satisfies [P], whatever the provider answers. *)
Definition emits {A} (P : Call -> Prop) (m : M W A) : Prop :=
  forall st, Forall P (journal (m st)).

(** [m] leaves the cluster object as it found it. *)
Definition preserves {A} (m : M W A) : Prop :=
  forall st, cluster (final (m st)) = cluster st.

End Vocabulary.

(** The calls of a journal are made in the order of their ranks: no call is
    followed, however late, by a call of a smaller rank. *)
Fixpoint in_order (rank : Call -> nat) (j : list Call) : bool :=
  match j with
  | [] => true
  | c :: rest => forallb (fun d => (rank c <=? rank d)%nat) rest && in_order rank rest
  end.

(** The ranks of a journal lie between [lo] and [hi]. *)
Definition within (rank : Call -> nat) (lo hi : nat) (j : list Call) : bool :=
  forallb (fun c => (lo <=? rank c)%nat && (rank c <=? hi)%nat) j.



(** The calls of [m] are made in the order of their ranks, which lie
    between [lo] and [hi], whatever the provider answers. *)
Definition phases {W A} (rank : Call -> nat) (lo hi : nat) (m : M W A) : Prop :=
  forall st,
    within rank lo hi (journal (m st)) = true
    /\ in_order rank (journal (m st)) = true.






(** What [ReconcileFirewalls] has recorded once it has gone through the
    rules [l] over a provider whose firewall table is [T]: for every rule,
    in turn, the self-link of the firewall found under its name. *)
Definition recordedRules (T : gmap Key Firewall.t) (l : list Firewall.t)
    (rules : gmap string string) : gmap string string :=
  foldl (fun m p => <[p.1 := p.2]> m) rules
    (omap (fun x => match T !! GlobalKey (Firewall.Name x) with
                    | Some f => Some (Firewall.Name f, Firewall.SelfLink f)
                    | None => None
                    end) l).

(** Running [m] again, from the state its run from [st] left, gives the
    same result, makes no mutating call and leaves the provider and the
    cluster object, with the recorded status, as they were. *)
Definition settled_after {W} (m : M W (option error)) (st : State W) : Prop :=
  result (m (final (m st))) = result (m st)
  /\ final (m (final (m st))) = final (m st)
  /\ Forall (fun c => mutating c = false) (journal (m (final (m st)))).

(** The provider files every network and every router under its own
    name, as a real provider does. *)
Definition filedByName (w : Fake.World) : Prop :=
  (forall k n, Fake.networksT w !! k = Some n -> Network.Name n = key_Name k)
  /\ (forall k r, Fake.routersT w !! k = Some r -> Router.Name r = key_Name k).

(** The name of the network is the declared one once a name is declared:
    when the cluster object declares the name the scope gave before, the
    scope gives that name again. *)
Definition declaredNetworkName (sc : Compute.Scope) : Prop :=
  forall c c',
    Spec_Network_Name c' = Some (Compute.NetworkName sc c) ->
    Compute.NetworkName sc c' = Compute.NetworkName sc c.

(** The run [run], after the calls [j0]. *)
Definition prepend {W A} (j0 : list Call) (run : Result A * State W * list Call)
  : Result A * State W * list Call :=
  (result run, final run, j0 ++ journal run).

(** The answers [Networks.Reconcile] goes on after: nil, and NotFound when
    it answers a lookup. *)
Definition passed (c : Call) : bool :=
  match answer c with
  | None => true
  | Some _ => gcperrors.IsNotFound (answer c) && Verb_eqb (verb c) DoGet
  end.

(** The result of a run is what the last call was answered: the run does
    not panic; when it returns nil every answer was nil or a NotFound to a
    lookup; when it returns an error, that error is the answer of the last
    call, as it was given, and every answer before it was nil or a NotFound
    to a lookup. *)
Definition reports_last (r : Result (option error)) (j : list Call) : Prop :=
  match r with
  | Panicked => False
  | Returned None => Forall (fun c => passed c = true) j
  | Returned (Some err) =>
      exists j0 c,
        j = j0 ++ [c]
        /\ Forall (fun c => passed c = true) j0
        /\ answer c = Some err
  end.

(** The same for a computation that returns a [(value, err)] pair, whose
    error [err] picks. *)
Definition ReportsLast {W A} (err : A -> option error) (m : M W A) : Prop :=
  forall st,
    reports_last
      (match result (m st) with
       | Returned a => Returned (err a)
       | Panicked => Panicked
       end)
      (journal (m st)).

(** The order in which [Networks.Reconcile] works: the network, then the
    subnetworks, then the router. *)
Definition Reconcile_order (c : Call) : nat :=
  match client c with
  | NetworksAPI => 0
  | SubnetworksAPI => 1
  | RoutersAPI => 2
  | _ => 3
  end.

(** [m] does not panic, whatever the provider answers. *)
Definition returns {W A} (m : M W A) : Prop :=
  forall st, result (m st) <> Panicked.

(** Every error [m] returns is one that [errors.Wrapf] made. *)
Definition wraps {W} (m : M W (option error)) : Prop :=
  forall st e,
    result (m st) = Returned (Some e) -> exists cause message, e = Wrapf cause message.

(** Every call [m] makes from a state whose cluster object is [c0]
    satisfies [P], whatever the provider answers. *)
Definition emitsFrom {W A} (c0 : GCPCluster) (P : Call -> Prop) (m : M W A) : Prop :=
  forall st, cluster st = c0 -> Forall P (journal (m st)).

(** * Properties *)

(** ** What a computation leaves in the journal and in the cluster object *)

Section Laws.
Context {W : Type}.

Lemma journal_bind {A B} (m : M W A) (k : A -> M W B) st :
  journal (bind m k st) =
  journal (m st) ++
  match result (m st) with
  | Returned a => journal (k a (final (m st)))
  | Panicked => []
  end.
Proof.
  unfold bind, journal, result, final.
  destruct (m st) as [[[a|] s1] j1]; simpl.
  - destruct (k a s1) as [[r s2] j2]; reflexivity.
  - symmetry; apply app_nil_r.
Qed.

Lemma final_bind {A B} (m : M W A) (k : A -> M W B) st :
  final (bind m k st) =
  match result (m st) with
  | Returned a => final (k a (final (m st)))
  | Panicked => final (m st)
  end.
Proof.
  unfold bind, journal, result, final.
  destruct (m st) as [[[a|] s1] j1]; simpl; [|reflexivity].
  destruct (k a s1) as [[r s2] j2]; reflexivity.
Qed.

Lemma result_bind {A B} (m : M W A) (k : A -> M W B) st :
  result (bind m k st) =
  match result (m st) with
  | Returned a => result (k a (final (m st)))
  | Panicked => Panicked
  end.
Proof.
  unfold bind, journal, result, final.
  destruct (m st) as [[[a|] s1] j1]; simpl; [|reflexivity].
  destruct (k a s1) as [[r s2] j2]; reflexivity.
Qed.

Lemma invoke_eq {A} cl v k p (err : A -> option error) (f : W -> A * W) st a w :
  f (provider st) = (a, w) ->
  invoke cl v k p err f st
  = (Returned a, mkState w (cluster st), [mkCall cl v k p (err a)]).
Proof. intros H. unfold invoke. rewrite H. reflexivity. Qed.

Lemma journal_bind_invoke {A B} cl v k p (err : A -> option error)
    (f : W -> A * W) (g : A -> M W B) st a w :
  f (provider st) = (a, w) ->
  journal (bind (invoke cl v k p err f) g st)
  = mkCall cl v k p (err a) :: journal (g a (mkState w (cluster st))).
Proof.
  intros H. rewrite journal_bind, (invoke_eq _ _ _ _ _ _ _ _ _ H). reflexivity.
Qed.

Lemma result_bind_invoke {A B} cl v k p (err : A -> option error)
    (f : W -> A * W) (g : A -> M W B) st a w :
  f (provider st) = (a, w) ->
  result (bind (invoke cl v k p err f) g st)
  = result (g a (mkState w (cluster st))).
Proof.
  intros H. rewrite result_bind, (invoke_eq _ _ _ _ _ _ _ _ _ H). reflexivity.
Qed.

Lemma final_bind_invoke {A B} cl v k p (err : A -> option error)
    (f : W -> A * W) (g : A -> M W B) st a w :
  f (provider st) = (a, w) ->
  final (bind (invoke cl v k p err f) g st)
  = final (g a (mkState w (cluster st))).
Proof.
  intros H. rewrite final_bind, (invoke_eq _ _ _ _ _ _ _ _ _ H). reflexivity.
Qed.

Lemma bind_invoke_eq {A B} cl v k p (err : A -> option error)
    (f : W -> A * W) (g : A -> M W B) st a w :
  f (provider st) = (a, w) ->
  bind (invoke cl v k p err f) g st
  = prepend [mkCall cl v k p (err a)] (g a (mkState w (cluster st))).
Proof.
  intros H. unfold bind, prepend. rewrite (invoke_eq _ _ _ _ _ _ _ _ _ H).
  destruct (g a _) as [[r s2] j2]. reflexivity.
Qed.

Lemma prepend_prepend {A} j1 j2 (run : Result A * State W * list Call) :
  prepend j1 (prepend j2 run) = prepend (j1 ++ j2) run.
Proof. destruct run as [[r s2] j]. unfold prepend. simpl. rewrite app_assoc. reflexivity. Qed.

Lemma bind_readCluster_eq {B} (g : GCPCluster -> M W B) st :
  bind readCluster g st = g (cluster st) st.
Proof.
  unfold bind, readCluster. destruct (g (cluster st) st) as [[r s2] j2]. reflexivity.
Qed.

Lemma journal_assign {B} f (g : unit -> M W B) st :
  journal (bind (assign f) g st)
  = journal (g tt (mkState (provider st) (f (cluster st)))).
Proof.
  unfold bind, assign, journal. simpl. destruct (g tt _) as [[r s2] j2]. reflexivity.
Qed.

Lemma final_assign {B} f (g : unit -> M W B) st :
  final (bind (assign f) g st)
  = final (g tt (mkState (provider st) (f (cluster st)))).
Proof.
  unfold bind, assign, final. simpl. destruct (g tt _) as [[r s2] j2]. reflexivity.
Qed.

Lemma result_assign {B} f (g : unit -> M W B) st :
  result (bind (assign f) g st)
  = result (g tt (mkState (provider st) (f (cluster st)))).
Proof.
  unfold bind, assign, result. simpl. destruct (g tt _) as [[r s2] j2]. reflexivity.
Qed.

Lemma journal_readCluster {B} (g : GCPCluster -> M W B) st :
  journal (bind readCluster g st) = journal (g (cluster st) st).
Proof.
  unfold bind, readCluster, journal. simpl. destruct (g _ st) as [[r s2] j2]. reflexivity.
Qed.

Lemma result_readCluster {B} (g : GCPCluster -> M W B) st :
  result (bind readCluster g st) = result (g (cluster st) st).
Proof.
  unfold bind, readCluster, result. simpl. destruct (g _ st) as [[r s2] j2]. reflexivity.
Qed.

Lemma final_readCluster {B} (g : GCPCluster -> M W B) st :
  final (bind readCluster g st) = final (g (cluster st) st).
Proof.
  unfold bind, readCluster, final. simpl. destruct (g _ st) as [[r s2] j2]. reflexivity.
Qed.

Lemma emits_ret {A} P (a : A) : emits P (@ret W A a).
Proof. intros st; constructor. Qed.

Lemma emits_panic {A} P : emits P (@panic W A).
Proof. intros st; constructor. Qed.

Lemma emits_readCluster P : emits P (@readCluster W).
Proof. intros st; constructor. Qed.

Lemma emits_assign P f : emits P (@assign W f).
Proof. intros st; constructor. Qed.

Lemma emits_invoke {A} (P : Call -> Prop) cl v k p err (f : W -> A * W) :
  (forall e, P (mkCall cl v k p e)) -> emits P (invoke cl v k p err f).
Proof.
  intros Hc st. unfold invoke, journal.
  destruct (f (provider st)); simpl. repeat constructor; apply Hc.
Qed.

Lemma emits_bind {A B} P (m : M W A) (k : A -> M W B) :
  emits P m -> (forall a, emits P (k a)) -> emits P (bind m k).
Proof.
  intros Hm Hk st. rewrite journal_bind. apply Forall_app. split; [apply Hm|].
  destruct (result (m st)); [apply Hk | constructor].
Qed.

Lemma emits_orReturn P (m k : M W (option error)) :
  emits P m -> emits P k -> emits P (orReturn m k).
Proof.
  intros Hm Hk. apply emits_bind; [assumption|].
  intros [err|]; [apply emits_ret | assumption].
Qed.

Lemma emits_forEach {A} P (body : A -> M W (option error)) l :
  (forall x, emits P (body x)) -> emits P (forEach body l).
Proof.
  intros Hb. induction l as [|x l IH]; simpl.
  - apply emits_ret.
  - apply emits_orReturn; [apply Hb | exact IH].
Qed.

Lemma emits_forEach_In {A} (P : A -> Call -> Prop)
    (body : A -> M W (option error)) l :
  (forall x, In x l -> emits (P x) (body x)) ->
  emits (fun c => exists x, In x l /\ P x c) (forEach body l).
Proof.
  induction l as [|x l IH]; intros Hb; simpl.
  - apply emits_ret.
  - apply emits_orReturn.
    + intros st. eapply Forall_impl; [apply (Hb x); left; reflexivity|].
      intros c Hc. exists x. split; [left; reflexivity | exact Hc].
    + intros st. eapply Forall_impl; [apply IH; intros y Hy; apply Hb; right; exact Hy|].
      intros c (y & Hy & Hc). exists y. split; [right; exact Hy | exact Hc].
Qed.

Lemma emits_weaken {A} (P Q : Call -> Prop) (m : M W A) :
  (forall c, P c -> Q c) -> emits P m -> emits Q m.
Proof. intros HPQ Hm st. eapply Forall_impl; [apply Hm | exact HPQ]. Qed.

Lemma preserves_ret {A} (a : A) : preserves (@ret W A a).
Proof. intros st; reflexivity. Qed.

Lemma preserves_panic {A} : preserves (@panic W A).
Proof. intros st; reflexivity. Qed.

Lemma preserves_readCluster : preserves (@readCluster W).
Proof. intros st; reflexivity. Qed.

Lemma preserves_invoke {A} cl v k p err (f : W -> A * W) :
  preserves (invoke cl v k p err f).
Proof. intros st. unfold invoke, final. destruct (f (provider st)); reflexivity. Qed.

Lemma preserves_bind {A B} (m : M W A) (k : A -> M W B) :
  preserves m -> (forall a, preserves (k a)) -> preserves (bind m k).
Proof.
  intros Hm Hk st. rewrite final_bind.
  destruct (result (m st)); [rewrite Hk|]; apply Hm.
Qed.

Lemma preserves_orReturn (m k : M W (option error)) :
  preserves m -> preserves k -> preserves (orReturn m k).
Proof.
  intros Hm Hk. apply preserves_bind; [assumption|].
  intros [err|]; [apply preserves_ret | assumption].
Qed.

Lemma preserves_forEach {A} (body : A -> M W (option error)) l :
  (forall x, preserves (body x)) -> preserves (forEach body l).
Proof.
  intros Hb. induction l as [|x l IH]; simpl.
  - apply preserves_ret.
  - apply preserves_orReturn; [apply Hb | exact IH].
Qed.

End Laws.

Create HintDb journal discriminated.
#[export] Hint Resolve emits_ret emits_panic emits_readCluster emits_assign
  emits_bind emits_orReturn emits_forEach emits_invoke
  preserves_ret preserves_panic preserves_readCluster preserves_invoke
  preserves_bind preserves_orReturn preserves_forEach : journal.

Ltac journal_rules :=
  repeat first
    [ apply emits_ret | apply emits_panic | apply emits_readCluster
    | apply emits_assign | apply emits_bind | apply emits_orReturn
    | apply emits_forEach
    | apply preserves_ret | apply preserves_panic | apply preserves_readCluster
    | apply preserves_invoke | apply preserves_bind | apply preserves_orReturn
    | apply preserves_forEach
    | progress intros
    | match goal with
      | |- emits _ (match ?x with _ => _ end) => destruct x
      | |- preserves (match ?x with _ => _ end) => destruct x
      end ].

Section OrReturn.
Context {W : Type}.

(** The three ways [check m ;; k] can go. *)
Lemma orReturn_cases (m k : M W (option error)) st :
  (exists err, result (m st) = Returned (Some err)
     /\ result (orReturn m k st) = Returned (Some err)
     /\ final (orReturn m k st) = final (m st)
     /\ journal (orReturn m k st) = journal (m st))
  \/ (result (m st) = Panicked
     /\ result (orReturn m k st) = Panicked
     /\ final (orReturn m k st) = final (m st)
     /\ journal (orReturn m k st) = journal (m st))
  \/ (result (m st) = Returned None
     /\ result (orReturn m k st) = result (k (final (m st)))
     /\ final (orReturn m k st) = final (k (final (m st)))
     /\ journal (orReturn m k st) = journal (m st) ++ journal (k (final (m st)))).
Proof.
  unfold orReturn.
  rewrite result_bind, final_bind, journal_bind.
  destruct (result (m st)) as [[err|]|].
  - left. exists err. simpl. rewrite app_nil_r. auto.
  - right; right. auto.
  - right; left. rewrite app_nil_r. auto.
Qed.

End OrReturn.

(** ** Reference parsing *)

(** C8.  For a firewall whose network is
    [projects/myproject/global/networks/my-network] the network name is
    [my-network], and for a firewall without network it is the empty
    string; neither is an error.  The other fields of the firewall and the
    authority check of [url.Parse] play no part. *)
Theorem getFirewallNetworkName_reference
    (parseAuthority : string -> option error)
    (name selfLink direction : string) (allowed : list FirewallAllowed.t)
    (sourceRanges sourceTags targetTags : list string) :
  Compute.getFirewallNetworkName parseAuthority
    (Firewall.mk name "projects/myproject/global/networks/my-network" selfLink
       allowed direction sourceRanges sourceTags targetTags)
  = inl "my-network"
  /\
  Compute.getFirewallNetworkName parseAuthority
    (Firewall.mk name "" selfLink allowed direction sourceRanges sourceTags targetTags)
  = inl "".
Proof. split; reflexivity. Qed.

(** ** Deleting a network that belongs to someone else *)

Section NetworksDelete.
Context {W : Type}.
Variable ClusterTagKey : string -> string.
Variable s : Networks.Service W.

Local Abbreviation networkKey := (GlobalKey (Networks.NetworkName (Networks.scope s))).
Local Abbreviation tag := (ClusterTagKey (Networks.Name (Networks.scope s))).

(** C4.  When the network that [Delete] fetches carries a description
    other than the ownership tag of the cluster, [Delete] returns nil and
    none of its calls is an Insert, a Delete or a Patch. *)
Theorem Delete_foreign_network (st : State W) (network : Network.t) (w' : W) :
  Networks.client_Get (Networks.networks s) networkKey (provider st) = (inl network, w') ->
  String.eqb (Network.Description network) tag = false ->
  result (Networks.Delete ClusterTagKey s st) = Returned None
  /\ Forall (fun c => mutating c = false) (journal (Networks.Delete ClusterTagKey s st)).
Proof.
  intros Hget Htag. unfold Networks.Delete.
  destruct (Networks.IsSharedVpc (Networks.scope s)).
  - split; [reflexivity | constructor].
  - unfold bind, Networks.networks_Get, invoke. rewrite Hget.
    rewrite Htag. simpl. split; [reflexivity|].
    repeat constructor.
Qed.

End NetworksDelete.

Lemma Delete_foreign_network_witness :
  let st := mkState (Sample.world "capg-cluster-other" "") Sample.recorded in
  let run := Networks.Delete Sample.ClusterTagKey (Fake.networksService (Sample.scope false)) st in
  result run = Returned None /\ Forall (fun c => mutating c = false) (journal run).
Proof.
  apply (Delete_foreign_network Sample.ClusterTagKey
           (Fake.networksService (Sample.scope false))
           (mkState (Sample.world "capg-cluster-other" "") Sample.recorded)
           (Sample.network "capg-cluster-other" false)
           (Sample.world "capg-cluster-other" "")).
  - reflexivity.
  - reflexivity.
Defined.

(** ** Orders and answers, compositionally *)

Section Phases.
Context {W : Type}.
Variable rank : Call -> nat.

Lemma within_app lo hi j1 j2 :
  within rank lo hi (j1 ++ j2) = within rank lo hi j1 && within rank lo hi j2.
Proof. unfold within. apply forallb_app. Qed.

Lemma within_weaken lo hi lo' hi' j :
  (lo' <= lo)%nat -> (hi <= hi')%nat ->
  within rank lo hi j = true -> within rank lo' hi' j = true.
Proof.
  intros Hlo Hhi. unfold within. rewrite !forallb_forall.
  intros H c Hc. specialize (H c Hc).
  apply andb_true_iff in H as [H1 H2].
  apply Nat.leb_le in H1. apply Nat.leb_le in H2.
  apply andb_true_iff. split; apply Nat.leb_le; lia.
Qed.

Lemma in_order_app lo mid hi j1 j2 :
  within rank lo mid j1 = true -> in_order rank j1 = true ->
  within rank mid hi j2 = true -> in_order rank j2 = true ->
  in_order rank (j1 ++ j2) = true.
Proof.
  intros Hw1 Ho1 Hw2 Ho2. induction j1 as [|c j1 IH]; simpl in *; [assumption|].
  apply andb_true_iff in Hw1 as [Hc Hw1].
  apply andb_true_iff in Ho1 as [Hall Ho1].
  apply andb_true_iff. split; [|auto].
  rewrite forallb_app. apply andb_true_iff. split; [assumption|].
  apply andb_true_iff in Hc as [_ Hc]. apply Nat.leb_le in Hc.
  unfold within in Hw2. rewrite forallb_forall in Hw2.
  apply forallb_forall. intros d Hd. specialize (Hw2 d Hd).
  apply andb_true_iff in Hw2 as [Hd1 _]. apply Nat.leb_le in Hd1.
  apply Nat.leb_le. lia.
Qed.

Lemma phases_weaken {A} lo hi lo' hi' (m : M W A) :
  (lo' <= lo)%nat -> (hi <= hi')%nat ->
  phases rank lo hi m -> phases rank lo' hi' m.
Proof.
  intros Hlo Hhi Hm st. destruct (Hm st) as [Hw Ho].
  split; [|assumption]. eapply within_weaken; eassumption.
Qed.

Lemma phases_silent {A} lo hi (m : M W A) :
  (forall st, journal (m st) = []) -> phases rank lo hi m.
Proof. intros H st. rewrite H. split; reflexivity. Qed.

Lemma phases_ret {A} lo hi (a : A) : phases rank lo hi (@ret W A a).
Proof. apply phases_silent. reflexivity. Qed.

Lemma phases_assign lo hi f : phases rank lo hi (@assign W f).
Proof. apply phases_silent. reflexivity. Qed.

Lemma phases_invoke {A} lo hi cl v k p err (f : W -> A * W) :
  (forall e, (lo <= rank (mkCall cl v k p e) <= hi)%nat) ->
  phases rank lo hi (invoke cl v k p err f).
Proof.
  intros Hc st. unfold invoke, journal. destruct (f (provider st)) as [a w]; simpl.
  destruct (Hc (err a)) as [H1 H2].
  apply Nat.leb_le in H1. apply Nat.leb_le in H2.
  rewrite H1, H2. split; reflexivity.
Qed.

Lemma phases_bind {A B} lo mid hi (m : M W A) (k : A -> M W B) :
  (lo <= mid <= hi)%nat ->
  phases rank lo mid m -> (forall a, phases rank mid hi (k a)) ->
  phases rank lo hi (bind m k).
Proof.
  intros Hb Hm Hk st. rewrite journal_bind.
  destruct (Hm st) as [Hw1 Ho1].
  assert (Hk' : within rank mid hi
                  match result (m st) with
                  | Returned a => journal (k a (final (m st)))
                  | Panicked => []
                  end = true
                /\ in_order rank
                     match result (m st) with
                     | Returned a => journal (k a (final (m st)))
                     | Panicked => []
                     end = true).
  { destruct (result (m st)); [apply Hk | split; reflexivity]. }
  destruct Hk' as [Hw2 Ho2]. split.
  - rewrite within_app. apply andb_true_iff. split.
    + eapply within_weaken; [| |exact Hw1]; lia.
    + eapply within_weaken; [| |exact Hw2]; lia.
  - eapply in_order_app; eassumption.
Qed.

Lemma phases_orReturn lo mid hi (m k : M W (option error)) :
  (lo <= mid <= hi)%nat ->
  phases rank lo mid m -> phases rank mid hi k ->
  phases rank lo hi (orReturn m k).
Proof.
  intros Hb Hm Hk. eapply phases_bind; [exact Hb | exact Hm |].
  intros [err|]; [apply phases_ret | exact Hk].
Qed.

Lemma phases_forEach {A} p (body : A -> M W (option error)) l :
  (forall x, phases rank p p (body x)) -> phases rank p p (forEach body l).
Proof.
  intros Hb. induction l as [|x l IH]; simpl.
  - apply phases_ret.
  - apply (phases_orReturn p p p); [lia | apply Hb | exact IH].
Qed.

End Phases.

Section Answers.
Context {W : Type}.





End Answers.

(** ** The teardown of package [networks] *)

Section NetworksTeardown.
Context {W : Type}.
Variable ClusterTagKey : string -> string.
Variable s : Networks.Service W.

Local Abbreviation networkKey := (GlobalKey (Networks.NetworkName (Networks.scope s))).
Local Abbreviation tag := (ClusterTagKey (Networks.Name (Networks.scope s))).
Local Abbreviation Delete := (Networks.Delete ClusterTagKey s).






End NetworksTeardown.


Section NetworksAnswers.
Context {W : Type}.
Variable ClusterTagKey : string -> string.
Variable s : Networks.Service W.

Local Abbreviation networkKey := (GlobalKey (Networks.NetworkName (Networks.scope s))).








End NetworksAnswers.



(** ** What [Delete] leaves in the recorded status *)

Section NetworksStatus.
Context {W : Type}.
Variable ClusterTagKey : string -> string.
Variable s : Networks.Service W.

Local Abbreviation networkKey := (GlobalKey (Networks.NetworkName (Networks.scope s))).
Local Abbreviation tag := (ClusterTagKey (Networks.Name (Networks.scope s))).
Local Abbreviation networkDeleted :=
  (mkCall NetworksAPI DoDelete networkKey NoPayload None).
Local Abbreviation cleared c := (set_SelfLink None (set_Router None c)).

(** The status is as it was, or it was cleared by a successful run that
    ended with the deletion of the network. *)
Local Abbreviation untouched_or_cleared k st :=
  (cluster (final (k st)) = cluster st
   \/ (cluster (final (k st)) = cleared (cluster st)
       /\ result (k st) = Returned None
       /\ exists j, journal (k st) = j ++ [networkDeleted])).

Lemma Delete_router_preserves :
  preserves (Networks.Delete_router ClusterTagKey s).
Proof.
  unfold Networks.Delete_router, Networks.routers_Get, Networks.routers_Delete.
  journal_rules.
Qed.

Lemma Delete_subnetworks_preserves network :
  preserves (Networks.Delete_subnetworks s network).
Proof.
  unfold Networks.Delete_subnetworks, Networks.Delete_subnetwork,
    Networks.subnetworks_Get, Networks.subnetworks_Delete.
  journal_rules.
Qed.

Lemma Delete_routes_preserves : preserves (Networks.Delete_routes s).
Proof.
  unfold Networks.Delete_routes, Networks.Delete_route,
    Networks.routes_List_, Networks.routes_Delete_.
  journal_rules.
Qed.

Lemma orReturn_status (m k : M W (option error)) :
  preserves m ->
  (forall st, untouched_or_cleared k st) ->
  forall st, untouched_or_cleared (orReturn m k) st.
Proof.
  intros Hm Hk st.
  destruct (orReturn_cases m k st)
    as [(err & _ & _ & -> & _) | [(_ & _ & -> & _) | (_ & -> & -> & ->)]].
  - left. apply Hm.
  - left. apply Hm.
  - destruct (Hk (final (m st))) as [H | (H & Hr & j & Hj)].
    + left. rewrite H. apply Hm.
    + right. rewrite H, Hm, Hj. repeat split; [assumption|].
      exists (journal (m st) ++ j). apply app_assoc.
Qed.

(** C10.  When [Delete] is not on the shared-VPC path and the lookup of
    the network answers NotFound, or answers with a network that carries
    another description than the ownership tag, [Delete] returns nil,
    makes no mutating call and leaves the recorded status as it was.  In
    every run the status either stays as it was or has its self-links
    (network and router) cleared by a run that returned nil, and then the
    run was on the shared-VPC path or ended with a deletion of the
    network that was answered with nil. *)
Theorem Delete_status (st : State W) :
  (Networks.IsSharedVpc (Networks.scope s) = false ->
   forall r w',
     Networks.client_Get (Networks.networks s) networkKey (provider st) = (r, w') ->
     match r with
     | inr err => gcperrors.IsNotFound (Some err) = true
     | inl network => String.eqb (Network.Description network) tag = false
     end ->
     result (Networks.Delete ClusterTagKey s st) = Returned None
     /\ cluster (final (Networks.Delete ClusterTagKey s st)) = cluster st
     /\ Forall (fun c => mutating c = false)
          (journal (Networks.Delete ClusterTagKey s st)))
  /\ (cluster (final (Networks.Delete ClusterTagKey s st)) = cluster st
      \/ (cluster (final (Networks.Delete ClusterTagKey s st)) = cleared (cluster st)
          /\ result (Networks.Delete ClusterTagKey s st) = Returned None
          /\ (Networks.IsSharedVpc (Networks.scope s) = true
              \/ exists j,
                  journal (Networks.Delete ClusterTagKey s st)
                  = j ++ [networkDeleted]))).
Proof.
  split.
  - intros Hshared r w' Hget Hr. unfold Networks.Delete. rewrite Hshared.
    unfold bind, Networks.networks_Get, invoke, result, final, journal.
    rewrite Hget. destruct r as [network|err]; simpl.
    + rewrite Hr. simpl. repeat split. repeat constructor.
    + unfold gcperrors.IgnoreNotFound. rewrite Hr. simpl.
      repeat split. repeat constructor.
  - unfold Networks.Delete.
    destruct (Networks.IsSharedVpc _) eqn:Hshared.
    { right. repeat split. left. reflexivity. }
    assert (Hchain : forall network st1,
               untouched_or_cleared
                 (orReturn (Networks.Delete_router ClusterTagKey s)
                    (orReturn (Networks.Delete_subnetworks s network)
                       (orReturn (Networks.Delete_routes s)
                          (orReturn (Networks.networks_Delete s networkKey)
                             (bind (assign (set_Router None))
                                (fun _ => bind (assign (set_SelfLink None))
                                            (fun _ => ret None))))))) st1).
    { intros network.
      apply orReturn_status; [apply Delete_router_preserves|].
      apply orReturn_status; [apply Delete_subnetworks_preserves|].
      apply orReturn_status; [apply Delete_routes_preserves|].
      intros st1. unfold orReturn, bind, Networks.networks_Delete, invoke, assign,
        ret, result, final, journal. simpl.
      destruct (Networks.client_Delete _ _ _) as [[err|] w]; simpl.
      - left. reflexivity.
      - right. repeat split. exists []. reflexivity. }
    rewrite final_bind, result_bind, journal_bind.
    unfold Networks.networks_Get, invoke, result, final, journal. simpl.
    destruct (Networks.client_Get _ _ _) as [[network|err] w]; simpl.
    + destruct (negb _); simpl; [left; reflexivity|].
      destruct (Hchain network (mkState w (cluster st))) as [H | (H & Hr & j & Hj)].
      * left. exact H.
      * right. repeat split; [exact H | exact Hr |]. right.
        unfold journal in Hj. rewrite Hj.
        eexists (_ :: j). reflexivity.
    + left. reflexivity.
Qed.

End NetworksStatus.

Lemma Delete_status_witness :
  let st := mkState (Sample.world "capg-cluster-other" "") Sample.recorded in
  let run := Networks.Delete Sample.ClusterTagKey (Fake.networksService (Sample.scope false)) st in
  result run = Returned None
  /\ cluster (final run) = Sample.recorded
  /\ Forall (fun c => mutating c = false) (journal run).
Proof.
  intros st run.
  destruct (Delete_status Sample.ClusterTagKey
              (Fake.networksService (Sample.scope false)) st) as [Huntouched _].
  apply (Huntouched eq_refl (inl (Sample.network "capg-cluster-other" false))
           (Sample.world "capg-cluster-other" "")); reflexivity.
Defined.

(** ** The sweep of the firewall rules *)

Section FirewallSweep.
Context {W : Type}.
Variable parseAuthority : string -> option error.
Variable cs : Compute.Service W.

Local Abbreviation clusterName := (Compute.Name (Compute.scope cs)).
Local Abbreviation networkName st := (Compute.NetworkName (Compute.scope cs) (cluster st)).
Local Abbreviation sweep := (Compute.DeleteFirewalls_sweep cs parseAuthority).
Local Abbreviation rule := (Compute.DeleteFirewalls_rule cs parseAuthority clusterName).
Local Abbreviation tagged := (Compute.DeleteFirewalls_tag cs clusterName).












End FirewallSweep.


(** The sweep on the sample: of a rule on another network, a rule of the
    cluster and a rule without the tag, only the second is deleted. *)
Example DeleteFirewalls_sweep_sample :
  let st := mkState Sample.firewallWorld Sample.recorded in
  let run :=
    Compute.DeleteFirewalls (fun m => (map_to_list m).*1)
      (Fake.computeService Sample.computeScope) Sample.parseAuthority st in
  result run = Returned None
  /\ List.map key (List.filter mutating (journal run)) = [GlobalKey "my-cluster-extra"].
Proof. vm_compute. split; reflexivity. Qed.

(** ** Attaching the NAT configuration *)

Section CloudNat.
Context {W : Type}.
Variable cs : Compute.Service W.

Local Abbreviation region := (Compute.Region (Compute.scope cs)).
Local Abbreviation routerKey st :=
  (RegionalKey (Compute.getRouterName
                  (Compute.NetworkName (Compute.scope cs) (cluster st))) region).
Local Abbreviation natConfig st :=
  (RouterNat.mk
     (Compute.getRouterNatName (Compute.NetworkName (Compute.scope cs) (cluster st)))
     "AUTO_ONLY" "ALL_SUBNETWORKS_ALL_IP_RANGES").
Local Abbreviation withNat st router :=
  (Router.mk (Router.Name router) (Router.Description router)
     (Router.Network router) (Router.SelfLink router) [natConfig st]).
Local Abbreviation looked st :=
  (mkCall RoutersAPI DoGet (routerKey st) NoPayload None).
Local Abbreviation patched st router e :=
  (mkCall RoutersAPI DoPatch (RegionalKey (Router.Name router) region)
     (RouterObj (withNat st router)) e).
Local Abbreviation waited op e :=
  (mkCall OperationsAPI DoWait (GlobalKey (Operation.Name op)) (OperationObj op) e).


End CloudNat.


(** ** The shared-VPC path *)

Section SharedVpc.
Context {W : Type}.
Variable ClusterTagKey : string -> string.
Variable s : Networks.Service W.
Hypothesis shared : Networks.IsSharedVpc (Networks.scope s) = true.

(** On the shared-VPC path [Delete] makes no call at all, clears the
    recorded self-links and returns nil. *)
Lemma Delete_shared_vpc (st : State W) :
  journal (Networks.Delete ClusterTagKey s st) = []
  /\ result (Networks.Delete ClusterTagKey s st) = Returned None
  /\ Status_Network_SelfLink (cluster (final (Networks.Delete ClusterTagKey s st))) = None
  /\ Status_Network_Router (cluster (final (Networks.Delete ClusterTagKey s st))) = None.
Proof. unfold Networks.Delete. rewrite shared. repeat split. Qed.

(** On the shared-VPC path the only mutating call [Reconcile] can make is
    the insertion of a subnetwork: neither the network nor the router is
    ever inserted. *)
Lemma Reconcile_shared_vpc :
  emits (fun c => mutating c = true -> client c = SubnetworksAPI /\ verb c = DoInsert)
    (Networks.Reconcile ClusterTagKey s).
Proof.
  unfold Networks.Reconcile, Networks.Reconcile_router, Networks.Reconcile_subnetworks,
    Networks.createOrGetNetwork, Networks.createOrGetRouter,
    Networks.createOrGetSubNetwork,
    Networks.networks_Get, Networks.networks_Insert,
    Networks.subnetworks_Get, Networks.subnetworks_Insert,
    Networks.routers_Get, Networks.routers_Insert.
  rewrite shared.
  repeat first
    [ apply emits_ret | apply emits_assign | apply emits_bind | apply emits_orReturn
    | apply emits_forEach
    | apply emits_invoke; intros ?; unfold mutating; simpl;
      let Hm := fresh "Hm" in intros Hm; first [discriminate Hm | auto]
    | progress intros
    | match goal with
      | |- emits _ (match ?x with _ => _ end) => destruct x
      end ].
Qed.

(** On the shared-VPC path a network that does not exist is an error, and
    nothing is inserted. *)
Lemma Reconcile_shared_vpc_absent (st : State W) err w1 :
  Networks.client_Get (Networks.networks s)
    (GlobalKey (Networks.NetworkName (Networks.scope s))) (provider st) = (inr err, w1) ->
  result (Networks.Reconcile ClusterTagKey s st) = Returned (Some err)
  /\ List.filter mutating (journal (Networks.Reconcile ClusterTagKey s st)) = [].
Proof.
  intros Hget.
  unfold Networks.Reconcile, Networks.createOrGetNetwork, Networks.networks_Get,
    bind, invoke, ret, result, journal.
  simpl. rewrite Hget, shared. simpl.
  destruct (negb _); simpl; auto.
Qed.

End SharedVpc.

(** C6 fails on [Reconcile]: with shared VPC declared, on a custom-mode
    network that exists and a declared subnetwork that does not,
    [Reconcile] inserts the subnetwork.  (What holds of the shared-VPC path
    is in [Delete_shared_vpc], [Reconcile_shared_vpc] and
    [Reconcile_shared_vpc_absent].) *)
Theorem Reconcile_shared_vpc_inserts_subnetwork :
  let st := mkState Sample.sharedWorld Fake.emptyCluster in
  let run :=
    Networks.Reconcile Sample.ClusterTagKey (Fake.networksService (Sample.scope true)) st in
  result run = Returned None
  /\ List.filter mutating (journal run)
     = [mkCall SubnetworksAPI DoInsert (RegionalKey "my-subnet" "us-east1")
          (SubnetworkObj Sample.subnet) None].
Proof. vm_compute. split; reflexivity. Qed.

(** ** The ownership guard *)


Section NetworksGuard.
Context {W : Type}.
Variable ClusterTagKey : string -> string.
Variable s : Networks.Service W.

Local Abbreviation networkKey := (GlobalKey (Networks.NetworkName (Networks.scope s))).
Local Abbreviation routerKey :=
  (RegionalKey (Router.Name (Networks.NatRouterSpec (Networks.scope s)))
     (Networks.Region (Networks.scope s))).
Local Abbreviation tag := (ClusterTagKey (Networks.Name (Networks.scope s))).











End NetworksGuard.

Section BastionGuard.
Context {W : Type}.
Variable ClusterTagKey : string -> string.
Variable cs : Compute.Service W.

Local Abbreviation networkKey st :=
  (GlobalKey (Compute.NetworkName (Compute.scope cs) (cluster st))).
Local Abbreviation tag := (ClusterTagKey (Compute.Name (Compute.scope cs))).



End BastionGuard.

(** ** Reconciling twice, over the in-memory provider *)

Section FakeNetworks.
Variable ClusterTagKey : string -> string.
Variable sc : Networks.Scope.

Local Abbreviation s := (Fake.networksService sc).
Local Abbreviation nk := (GlobalKey (Networks.NetworkName sc)).
Local Abbreviation rk :=
  (RegionalKey (Router.Name (Networks.NatRouterSpec sc)) (Networks.Region sc)).
Local Abbreviation sk subnet :=
  (RegionalKey (Subnetwork.Name subnet) (Subnetwork.Region subnet)).
Local Abbreviation got cl k := (mkCall cl DoGet k NoPayload None).
Local Abbreviation missed cl k := (mkCall cl DoGet k NoPayload (Some Fake.notFound)).

Lemma createOrGetNetwork_fake (st : State Fake.World) :
  match Fake.networksT (provider st) !! nk with
  | Some n =>
      Networks.createOrGetNetwork s st = (Returned (inl n), st, [got NetworksAPI nk])
  | None =>
      if Networks.IsSharedVpc sc then
        Networks.createOrGetNetwork s st
        = (Returned (inr Fake.notFound), st, [missed NetworksAPI nk])
      else
        Networks.createOrGetNetwork s st
        = (Returned (inl (Fake.linkNetwork nk (Networks.NetworkSpec sc))),
           mkState
             (Fake.set_networksT
                (<[nk := Fake.linkNetwork nk (Networks.NetworkSpec sc)]>
                   (Fake.networksT (provider st))) (provider st))
             (cluster st),
           [missed NetworksAPI nk;
            mkCall NetworksAPI DoInsert nk (NetworkObj (Networks.NetworkSpec sc)) None;
            got NetworksAPI nk])
  end.
Proof.
  destruct st as [w c].
  unfold Networks.createOrGetNetwork, bind, Networks.networks_Get,
    Networks.networks_Insert, invoke, ret. simpl.
  unfold Fake.tableGet, Fake.tableInsert.
  destruct (Fake.networksT w !! nk) as [n|] eqn:Hn; simpl; [reflexivity|].
  unfold gcperrors.IsNotFound. simpl.
  destruct (Networks.IsSharedVpc sc); simpl; [reflexivity|].
  rewrite Hn. simpl. rewrite lookup_insert_eq. reflexivity.
Qed.

Lemma createOrGetSubNetwork_fake (subnet : Subnetwork.t) (st : State Fake.World) :
  match Fake.subnetworksT (provider st) !! sk subnet with
  | Some x =>
      Networks.createOrGetSubNetwork s subnet st
      = (Returned (inl x), st, [got SubnetworksAPI (sk subnet)])
  | None =>
      Networks.createOrGetSubNetwork s subnet st
      = (Returned (inl (Fake.linkSubnetwork (sk subnet) subnet)),
         mkState
           (Fake.set_subnetworksT
              (<[sk subnet := Fake.linkSubnetwork (sk subnet) subnet]>
                 (Fake.subnetworksT (provider st))) (provider st))
           (cluster st),
         [missed SubnetworksAPI (sk subnet);
          mkCall SubnetworksAPI DoInsert (sk subnet) (SubnetworkObj subnet) None;
          got SubnetworksAPI (sk subnet)])
  end.
Proof.
  destruct st as [w c].
  unfold Networks.createOrGetSubNetwork, bind, Networks.subnetworks_Get,
    Networks.subnetworks_Insert, invoke, ret. simpl.
  unfold Fake.tableGet, Fake.tableInsert.
  destruct (Fake.subnetworksT w !! sk subnet) as [x|] eqn:Hx; simpl; [reflexivity|].
  unfold gcperrors.IsNotFound. simpl.
  rewrite Hx. simpl. rewrite lookup_insert_eq. reflexivity.
Qed.

Local Abbreviation subnetBody :=
  (fun subnet => bind (Networks.createOrGetSubNetwork s subnet)
                   (fun r => ret (errorOf r))).

(** The subnetwork loop never fails over the in-memory provider; it only
    adds subnetworks, and all the subnetworks it went through are there
    when it is done. *)
Lemma subnetworks_loop_fake (l : list Subnetwork.t) (st : State Fake.World) :
  exists T' j,
    forEach subnetBody l st
    = (Returned None,
       mkState (Fake.set_subnetworksT T' (provider st)) (cluster st), j)
    /\ Fake.subnetworksT (provider st) ⊆ T'
    /\ (forall x, In x l -> is_Some (T' !! sk x)).
Proof.
  revert st. induction l as [|x l IH]; intros [w c].
  - exists (Fake.subnetworksT w), []. simpl. destruct w. simpl.
    repeat split; [reflexivity | intros y []].
  - simpl. unfold orReturn, bind at 1 2.
    pose proof (createOrGetSubNetwork_fake x (mkState w c)) as Hx. simpl in Hx.
    destruct (Fake.subnetworksT w !! sk x) as [y|] eqn:Hy; rewrite Hx; simpl.
    + destruct (IH (mkState w c)) as (T' & j & -> & Hsub & Hall). simpl in *.
      exists T', (got SubnetworksAPI (sk x) :: j). repeat split; [assumption|].
      intros z [<-|Hz]; [|auto].
      exists y. eapply lookup_weaken; eassumption.
    + set (T1 := <[sk x := Fake.linkSubnetwork (sk x) x]> (Fake.subnetworksT w)).
      destruct (IH (mkState (Fake.set_subnetworksT T1 w) c))
        as (T' & j & -> & Hsub & Hall). simpl in *.
      exists T'. eexists. split; [destruct w; reflexivity|]. split.
      * etransitivity; [|exact Hsub]. apply insert_subseteq. exact Hy.
      * intros z [<-|Hz]; [|auto].
        eexists. eapply lookup_weaken; [|exact Hsub]. apply lookup_insert_eq.
Qed.

(** When the subnetworks are there already, the loop only looks them up. *)
Lemma subnetworks_loop_again (l : list Subnetwork.t) (st : State Fake.World) :
  (forall x, In x l -> is_Some (Fake.subnetworksT (provider st) !! sk x)) ->
  exists j,
    forEach subnetBody l st = (Returned None, st, j)
    /\ Forall (fun c => mutating c = false) j.
Proof.
  induction l as [|x l IH]; intros Hall.
  - exists []. split; [reflexivity | constructor].
  - simpl. unfold orReturn, bind at 1 2.
    pose proof (createOrGetSubNetwork_fake x st) as Hx.
    destruct (Hall x (or_introl eq_refl)) as [y Hy]. rewrite Hy in Hx.
    rewrite Hx. simpl.
    destruct IH as (j & -> & Hj); [intros z Hz; apply Hall; right; exact Hz|].
    exists (got SubnetworksAPI (sk x) :: j). split; [reflexivity|].
    constructor; [reflexivity | exact Hj].
Qed.

Lemma createOrGetRouter_fake (network : Network.t) (st : State Fake.World) :
  let spec :=
    Router.mk (Router.Name (Networks.NatRouterSpec sc))
      (ClusterTagKey (Networks.Name sc)) (Network.SelfLink network)
      (Router.SelfLink (Networks.NatRouterSpec sc))
      (Router.Nats (Networks.NatRouterSpec sc)) in
  match Fake.routersT (provider st) !! rk with
  | Some r =>
      Networks.createOrGetRouter ClusterTagKey s network st
      = (Returned (inl r), st, [got RoutersAPI rk])
  | None =>
      if Networks.IsSharedVpc sc then
        Networks.createOrGetRouter ClusterTagKey s network st
        = (Returned (inr Fake.notFound), st, [missed RoutersAPI rk])
      else
        Networks.createOrGetRouter ClusterTagKey s network st
        = (Returned (inl (Fake.linkRouter rk spec)),
           mkState
             (Fake.set_routersT
                (<[rk := Fake.linkRouter rk spec]> (Fake.routersT (provider st)))
                (provider st))
             (cluster st),
           [missed RoutersAPI rk;
            mkCall RoutersAPI DoInsert rk (RouterObj spec) None;
            got RoutersAPI rk])
  end.
Proof.
  destruct st as [w c].
  unfold Networks.createOrGetRouter, bind, Networks.routers_Get,
    Networks.routers_Insert, invoke, ret. simpl.
  unfold Fake.tableGet, Fake.tableInsert.
  destruct (Fake.routersT w !! rk) as [r|] eqn:Hr; simpl; [reflexivity|].
  unfold gcperrors.IsNotFound. simpl.
  destruct (Networks.IsSharedVpc sc); simpl; [reflexivity|].
  rewrite Hr. simpl. rewrite lookup_insert_eq. reflexivity.
Qed.

(** Each step of [Reconcile], run over the in-memory provider, changes one
    table only, and run again over any provider that has this table as the
    step left it, it gives the same result without a mutating call. *)
Lemma network_step_fake (st : State Fake.World) :
  exists r T' j,
    Networks.createOrGetNetwork s st
    = (Returned r, mkState (Fake.set_networksT T' (provider st)) (cluster st), j)
    /\ forall w' c',
        Fake.networksT w' = T' ->
        exists j',
          Networks.createOrGetNetwork s (mkState w' c') = (Returned r, mkState w' c', j')
          /\ Forall (fun c => mutating c = false) j'.
Proof.
  pose proof (createOrGetNetwork_fake st) as H.
  destruct st as [w c]. simpl in *.
  destruct (Fake.networksT w !! nk) as [n|] eqn:Hn;
    [|destruct (Networks.IsSharedVpc sc) eqn:Hshared].
  - exists (inl n), (Fake.networksT w). eexists. split; [rewrite H; destruct w; reflexivity|].
    intros w' c' Hw'. pose proof (createOrGetNetwork_fake (mkState w' c')) as H'.
    simpl in H'. rewrite Hw', Hn in H'. eexists. split; [exact H'|].
    repeat constructor.
  - exists (inr Fake.notFound), (Fake.networksT w). eexists.
    split; [rewrite H; destruct w; reflexivity|].
    intros w' c' Hw'. pose proof (createOrGetNetwork_fake (mkState w' c')) as H'.
    simpl in H'. rewrite Hw', Hn, Hshared in H'. eexists. split; [exact H'|].
    repeat constructor.
  - eexists _, _, _. split; [exact H|].
    intros w' c' Hw'. pose proof (createOrGetNetwork_fake (mkState w' c')) as H'.
    simpl in H'. rewrite Hw', lookup_insert_eq in H'. eexists. split; [exact H'|].
    repeat constructor.
Qed.

Lemma subnetworks_step_fake (network : Network.t) (st : State Fake.World) :
  exists T' j,
    Networks.Reconcile_subnetworks s network st
    = (Returned None, mkState (Fake.set_subnetworksT T' (provider st)) (cluster st), j)
    /\ forall w' c',
        Fake.subnetworksT w' = T' ->
        exists j',
          Networks.Reconcile_subnetworks s network (mkState w' c')
          = (Returned None, mkState w' c', j')
          /\ Forall (fun c => mutating c = false) j'.
Proof.
  unfold Networks.Reconcile_subnetworks.
  destruct (negb (Network.AutoCreateSubnetworks network)).
  - destruct (subnetworks_loop_fake (Networks.SubnetworkSpec sc) st)
      as (T' & j & Hrun & _ & Hall).
    exists T', j. split; [exact Hrun|].
    intros w' c' Hw'. apply subnetworks_loop_again. simpl. rewrite Hw'. exact Hall.
  - exists (Fake.subnetworksT (provider st)), [].
    split; [destruct st as [[] c]; reflexivity|].
    intros w' c' _. exists []. split; [reflexivity | constructor].
Qed.

Lemma router_step_fake (network : Network.t) (st : State Fake.World) :
  exists r T' f j,
    Networks.Reconcile_router ClusterTagKey s network st
    = (Returned r, mkState (Fake.set_routersT T' (provider st)) (f (cluster st)), j)
    /\ (f = (fun c => c) \/ exists link, f = set_Router link)
    /\ forall w' c',
        Fake.routersT w' = T' ->
        exists j',
          Networks.Reconcile_router ClusterTagKey s network (mkState w' c')
          = (Returned r, mkState w' (f c'), j')
          /\ Forall (fun c => mutating c = false) j'.
Proof.
  unfold Networks.Reconcile_router.
  destruct (String.eqb _ _).
  2: { exists None, (Fake.routersT (provider st)), (fun c => c), [].
       split; [destruct st as [[] c]; reflexivity|]. split; [auto|].
       intros w' c' _. exists []. split; [reflexivity | constructor]. }
  pose proof (createOrGetRouter_fake network st) as H.
  destruct st as [w c]. simpl in *.
  destruct (Fake.routersT w !! rk) as [r|] eqn:Hr;
    [|destruct (Networks.IsSharedVpc sc) eqn:Hshared].
  - exists None, (Fake.routersT w), (set_Router (Some (Router.SelfLink r))). eexists.
    split; [unfold bind; rewrite H; destruct w; reflexivity|]. split; [eauto|].
    intros w' c' Hw'. pose proof (createOrGetRouter_fake network (mkState w' c')) as H'.
    simpl in H'. rewrite Hw', Hr in H'. unfold bind. rewrite H'. simpl.
    eexists. split; [reflexivity|]. repeat constructor.
  - exists (Some Fake.notFound), (Fake.routersT w), (fun c => c). eexists.
    split; [unfold bind; rewrite H; destruct w; reflexivity|]. split; [auto|].
    intros w' c' Hw'. pose proof (createOrGetRouter_fake network (mkState w' c')) as H'.
    simpl in H'. rewrite Hw', Hr, Hshared in H'. unfold bind. rewrite H'. simpl.
    eexists. split; [reflexivity|]. repeat constructor.
  - eexists None, _, (set_Router (Some _)), _.
    split; [unfold bind; rewrite H; reflexivity|]. split; [eauto|].
    intros w' c' Hw'. pose proof (createOrGetRouter_fake network (mkState w' c')) as H'.
    simpl in H'. rewrite Hw', lookup_insert_eq in H'. unfold bind. rewrite H'. simpl.
    eexists. split; [reflexivity|]. repeat constructor.
Qed.

Local Abbreviation linked network := (set_SelfLink (Some (Network.SelfLink network))).

Lemma Reconcile_run_error {W} (sv : Networks.Service W) st err st1 j1 :
  Networks.createOrGetNetwork sv st = (Returned (inr err), st1, j1) ->
  Networks.Reconcile ClusterTagKey sv st = (Returned (Some err), st1, j1).
Proof.
  intros H. unfold Networks.Reconcile, bind. rewrite H. simpl.
  rewrite app_nil_r. reflexivity.
Qed.

Lemma Reconcile_run {W} (sv : Networks.Service W) st network st1 j1 st2 j2 r3 st3 j3 :
  Networks.createOrGetNetwork sv st = (Returned (inl network), st1, j1) ->
  Networks.Reconcile_subnetworks sv network
    (mkState (provider st1) (linked network (cluster st1)))
  = (Returned None, st2, j2) ->
  Networks.Reconcile_router ClusterTagKey sv network st2 = (Returned r3, st3, j3) ->
  Networks.Reconcile ClusterTagKey sv st
  = (Returned r3,
     match r3 with
     | None => mkState (provider st3) (linked network (cluster st3))
     | Some _ => st3
     end,
     j1 ++ j2 ++ j3).
Proof.
  intros H1 H2 H3. unfold Networks.Reconcile, orReturn, bind. rewrite H1. simpl.
  rewrite H2. rewrite H3. destruct r3; simpl; rewrite ?app_nil_r; reflexivity.
Qed.

(** Running [Reconcile] a second time over the in-memory provider, from
    the state its first run left, gives the same result, makes no mutating
    call and leaves the provider and the cluster object as they were. *)
Lemma Reconcile_twice_fake (st : State Fake.World) :
  result (Networks.Reconcile ClusterTagKey s (final (Networks.Reconcile ClusterTagKey s st)))
  = result (Networks.Reconcile ClusterTagKey s st)
  /\ final (Networks.Reconcile ClusterTagKey s
              (final (Networks.Reconcile ClusterTagKey s st)))
     = final (Networks.Reconcile ClusterTagKey s st)
  /\ Forall (fun c => mutating c = false)
       (journal (Networks.Reconcile ClusterTagKey s
                   (final (Networks.Reconcile ClusterTagKey s st)))).
Proof.
  destruct (network_step_fake st) as (r1 & T1 & j1 & H1 & Hagain1).
  destruct r1 as [network|err].
  2: { rewrite (Reconcile_run_error _ _ _ _ _ H1).
       unfold result, final, journal. cbn [fst snd].
       destruct (Hagain1 (Fake.set_networksT T1 (provider st)) (cluster st))
         as (j1' & H1' & Hj1'); [destruct st as [[] ?]; reflexivity|].
       rewrite (Reconcile_run_error _ _ _ _ _ H1'). auto. }
  set (st1 := mkState (Fake.set_networksT T1 (provider st)) (cluster st)) in *.
  destruct (subnetworks_step_fake network
              (mkState (provider st1) (linked network (cluster st1))))
    as (T2 & j2 & H2 & Hagain2).
  set (st2 := mkState (Fake.set_subnetworksT T2 _) _) in *.
  destruct (router_step_fake network st2) as (r3 & T3 & f & j3 & H3 & Hf & Hagain3).
  set (st3 := mkState (Fake.set_routersT T3 _) _) in *.
  rewrite (Reconcile_run _ _ _ _ _ _ _ _ _ _ H1 H2 H3).
  unfold result, final, journal. cbn [fst snd].
  set (stF := match r3 with
              | None => mkState (provider st3) (linked network (cluster st3))
              | Some _ => st3
              end).
  assert (HwF : provider stF = provider st3) by (subst stF; destruct r3; reflexivity).
  destruct (Hagain1 (provider stF) (cluster stF)) as (j1' & H1' & Hj1').
  { rewrite HwF. destruct st as [[] ?]. reflexivity. }
  destruct (Hagain2 (provider stF) (linked network (cluster stF))) as (j2' & H2' & Hj2').
  { rewrite HwF. destruct st as [[] ?]. reflexivity. }
  destruct (Hagain3 (provider stF) (linked network (cluster stF))) as (j3' & H3' & Hj3').
  { rewrite HwF. destruct st as [[] ?]. reflexivity. }
  assert (HstF : stF = mkState (provider stF) (cluster stF)) by (destruct stF; reflexivity).
  pose proof (Reconcile_run _ _ _ _ _ _ _ _ _ _ H1' H2' H3') as Hsecond.
  rewrite <- HstF in Hsecond. rewrite Hsecond.
  cbn [fst snd]. split; [reflexivity|]. split.
  - subst stF st3 st2 st1. destruct st as [w c]. destruct c.
    destruct Hf as [->|[link ->]]; destruct r3; reflexivity.
  - repeat (apply Forall_app; split); assumption.
Qed.

End FakeNetworks.

Section FakeFirewalls.
Variable APIServerRoleTagValue : string.
Variable csc : Compute.Scope.

Local Abbreviation cs := (Fake.computeService csc).
Local Abbreviation fk spec := (GlobalKey (Firewall.Name spec)).
Local Abbreviation got k := (mkCall FirewallsAPI DoGet k NoPayload None).
Local Abbreviation missed k := (mkCall FirewallsAPI DoGet k NoPayload (Some Fake.notFound)).
Local Abbreviation record f c :=
  (set_FirewallRules
     (<[Firewall.Name f := Firewall.SelfLink f]> (Status_Network_FirewallRules c)) c).

Lemma ReconcileFirewall_fake (spec : Firewall.t) (st : State Fake.World) :
  match Fake.firewallsT (provider st) !! fk spec with
  | Some f =>
      Compute.ReconcileFirewall cs spec st
      = (Returned None, mkState (provider st) (record f (cluster st)), [got (fk spec)])
  | None =>
      Compute.ReconcileFirewall cs spec st
      = (Returned None,
         mkState
           (Fake.set_firewallsT
              (<[fk spec := Fake.linkFirewall (fk spec) spec]>
                 (Fake.firewallsT (provider st))) (provider st))
           (record (Fake.linkFirewall (fk spec) spec) (cluster st)),
         [missed (fk spec);
          mkCall FirewallsAPI DoInsert (fk spec) (FirewallObj spec) None;
          mkCall OperationsAPI DoWait
            (GlobalKey ("operation-" +:+ Firewall.Name spec))
            (OperationObj (Operation.mk ("operation-" +:+ Firewall.Name spec))) None;
          got (fk spec)])
  end.
Proof.
  destruct st as [w c].
  unfold Compute.ReconcileFirewall, Compute.storeFirewall, bind,
    Compute.firewalls_Get, Compute.firewalls_Insert,
    Compute.wait_ForComputeOperation, invoke, assign, ret. simpl.
  unfold Fake.tableGet, Fake.tableInsert.
  destruct (Fake.firewallsT w !! fk spec) as [f|] eqn:Hf; simpl.
  - unfold gcperrors.IsNotFound. simpl. reflexivity.
  - unfold gcperrors.IsNotFound. simpl.
    rewrite Hf. simpl. rewrite lookup_insert_eq. reflexivity.
Qed.

Lemma recordedRules_cons T x l rules f :
  T !! fk x = Some f ->
  recordedRules T (x :: l) rules
  = recordedRules T l (<[Firewall.Name f := Firewall.SelfLink f]> rules).
Proof. intros H. unfold recordedRules. simpl. rewrite H. reflexivity. Qed.

Lemma recordedRules_names T l l' rules :
  List.map Firewall.Name l = List.map Firewall.Name l' ->
  recordedRules T l rules = recordedRules T l' rules.
Proof.
  intros H. unfold recordedRules. f_equal.
  assert (Hcons : forall (F : Firewall.t -> option (string * string)) a k,
             omap F (a :: k)
             = match F a with Some y => y :: omap F k | None => omap F k end)
    by reflexivity.
  revert l' H. induction l as [|x l IH]; intros [|x' l'] H; try discriminate.
  - reflexivity.
  - injection H as Hx Hl. rewrite !Hcons, Hx, (IH _ Hl). reflexivity.
Qed.

Lemma insert_after_inserts (ps : list (string * string)) k v (m : gmap string string) :
  <[k := v]> (foldl (fun m p => <[p.1 := p.2]> m) (<[k := v]> m) ps)
  = <[k := v]> (foldl (fun m p => <[p.1 := p.2]> m) m ps).
Proof.
  revert m. induction ps as [|[k' v'] ps IH]; intros m; simpl.
  - apply insert_insert_eq.
  - destruct (decide (k = k')) as [->|Hne].
    + rewrite insert_insert_eq. reflexivity.
    + rewrite (insert_insert_ne m k' k) by congruence. apply IH.
Qed.

Lemma inserts_twice (ps : list (string * string)) (m : gmap string string) :
  foldl (fun m p => <[p.1 := p.2]> m) (foldl (fun m p => <[p.1 := p.2]> m) m ps) ps
  = foldl (fun m p => <[p.1 := p.2]> m) m ps.
Proof.
  induction ps as [|[k v] ps IH] using rev_ind; [reflexivity|].
  rewrite !foldl_app. simpl. rewrite insert_after_inserts. rewrite IH. reflexivity.
Qed.

Lemma recordedRules_twice T l rules :
  recordedRules T l (recordedRules T l rules) = recordedRules T l rules.
Proof. unfold recordedRules. apply inserts_twice. Qed.

(** The loop of [ReconcileFirewalls] never fails over the in-memory
    provider; it only adds firewall rules, and all the rules it went
    through are there when it is done. *)
Lemma firewalls_loop_fake (l : list Firewall.t) (st : State Fake.World) :
  exists T' j,
    forEach (Compute.ReconcileFirewall cs) l st
    = (Returned None,
       mkState (Fake.set_firewallsT T' (provider st))
         (set_FirewallRules
            (recordedRules T' l (Status_Network_FirewallRules (cluster st)))
            (cluster st)), j)
    /\ Fake.firewallsT (provider st) ⊆ T'
    /\ (forall x, In x l -> is_Some (T' !! fk x)).
Proof.
  revert st. induction l as [|x l IH]; intros [w c].
  - exists (Fake.firewallsT w), []. simpl. destruct w, c. simpl.
    repeat split; [reflexivity | intros y []].
  - simpl. unfold orReturn, bind at 1.
    pose proof (ReconcileFirewall_fake x (mkState w c)) as Hx.
    cbn [provider cluster] in Hx.
    destruct (Fake.firewallsT w !! fk x) as [f|] eqn:Hf; rewrite Hx; cbv beta iota.
    + destruct (IH (mkState w (record f c))) as (T' & j & -> & Hsub & Hall).
      simpl in *.
      exists T', (got (fk x) :: j). split; [|split; [assumption|]].
      * rewrite (recordedRules_cons T' x l _ f)
          by (eapply lookup_weaken; eassumption).
        destruct c. reflexivity.
      * intros z [<-|Hz]; [|auto]. exists f. eapply lookup_weaken; eassumption.
    + set (f := Fake.linkFirewall (fk x) x) in *.
      set (T1 := <[fk x := f]> (Fake.firewallsT w)).
      destruct (IH (mkState (Fake.set_firewallsT T1 w) (record f c)))
        as (T' & j & -> & Hsub & Hall). simpl in *.
      assert (HT' : T' !! fk x = Some f).
      { eapply lookup_weaken; [|exact Hsub]. apply lookup_insert_eq. }
      exists T'. eexists. split; [|split].
      * rewrite (recordedRules_cons T' x l _ f HT').
        destruct w, c. reflexivity.
      * etransitivity; [|exact Hsub]. apply insert_subseteq. exact Hf.
      * intros z [<-|Hz]; [|auto]. exists f. exact HT'.
Qed.

(** When the rules are there already, the loop only looks them up. *)
Lemma firewalls_loop_again (l : list Firewall.t) (st : State Fake.World) :
  (forall x, In x l -> is_Some (Fake.firewallsT (provider st) !! fk x)) ->
  exists j,
    forEach (Compute.ReconcileFirewall cs) l st
    = (Returned None,
       mkState (provider st)
         (set_FirewallRules
            (recordedRules (Fake.firewallsT (provider st)) l
               (Status_Network_FirewallRules (cluster st)))
            (cluster st)), j)
    /\ Forall (fun c => mutating c = false) j.
Proof.
  revert st. induction l as [|x l IH]; intros [w c] Hall.
  - exists []. split; [destruct c; reflexivity | constructor].
  - simpl. unfold orReturn, bind at 1.
    pose proof (ReconcileFirewall_fake x (mkState w c)) as Hx. simpl in *.
    destruct (Hall x (or_introl eq_refl)) as [f Hf]. rewrite Hf in Hx.
    rewrite Hx. simpl.
    destruct (IH (mkState w (record f c))) as (j & -> & Hj);
      [intros z Hz; apply Hall; right; exact Hz|].
    exists (got (fk x) :: j). split.
    + simpl. rewrite (recordedRules_cons _ x l _ f Hf). destruct c. reflexivity.
    + constructor; [reflexivity | exact Hj].
Qed.

(** Running [ReconcileFirewalls] a second time over the in-memory provider,
    from the state its first run left, gives the same result, makes no
    mutating call and leaves the provider and the cluster object, with the
    recorded rules, as they were. *)
Lemma ReconcileFirewalls_twice_fake (st : State Fake.World) :
  result (Compute.ReconcileFirewalls APIServerRoleTagValue cs
            (final (Compute.ReconcileFirewalls APIServerRoleTagValue cs st)))
  = result (Compute.ReconcileFirewalls APIServerRoleTagValue cs st)
  /\ final (Compute.ReconcileFirewalls APIServerRoleTagValue cs
              (final (Compute.ReconcileFirewalls APIServerRoleTagValue cs st)))
     = final (Compute.ReconcileFirewalls APIServerRoleTagValue cs st)
  /\ Forall (fun c => mutating c = false)
       (journal (Compute.ReconcileFirewalls APIServerRoleTagValue cs
                   (final (Compute.ReconcileFirewalls APIServerRoleTagValue cs st)))).
Proof.
  unfold Compute.ReconcileFirewalls.
  rewrite !result_readCluster, !final_readCluster, !journal_readCluster.
  set (l := Compute.getFirewallSpecs APIServerRoleTagValue cs (cluster st)).
  destruct (firewalls_loop_fake l st) as (T' & j & Hfirst & _ & Hall).
  rewrite Hfirst. unfold result, final, journal. cbn [fst snd cluster].
  set (stF := mkState _ _).
  set (l' := Compute.getFirewallSpecs APIServerRoleTagValue cs _).
  assert (Hnames : List.map Firewall.Name l' = List.map Firewall.Name l) by reflexivity.
  destruct (firewalls_loop_again l' stF) as (j' & Hsecond & Hj').
  { intros x Hx. subst stF. simpl.
    assert (Hin : In (Firewall.Name x) (List.map Firewall.Name l))
      by (rewrite <- Hnames; apply in_map; exact Hx).
    apply in_map_iff in Hin as (y & Hy & Hyl). rewrite <- Hy.
    destruct st as [[] ?]. apply Hall. exact Hyl. }
  rewrite Hsecond. cbn [fst snd]. split; [reflexivity|]. split; [|exact Hj'].
  subst stF. simpl. f_equal.
  replace (Fake.firewallsT (Fake.set_firewallsT T' (provider st))) with T'
    by (destruct st as [[] ?]; reflexivity).
  rewrite (recordedRules_names T' l' l _ Hnames), recordedRules_twice.
  destruct st as [w []]. reflexivity.
Qed.

End FakeFirewalls.

(** ** The older [DeleteNetwork]: the same guard *)

Section LegacyDelete.
Context {W : Type}.
Variable ClusterTagKey : string -> string.
Variable cs : Compute.Service W.

Local Abbreviation networkKey st :=
  (GlobalKey (Compute.NetworkName (Compute.scope cs) (cluster st))).
Local Abbreviation tag := (ClusterTagKey (Compute.Name (Compute.scope cs))).


(** On a network that carries another description, and on a network that
    is absent, [DeleteNetwork] returns nil after the lookup. *)
Lemma DeleteNetwork_foreign_or_absent (st : State W) r w1 :
  Compute.api_Get (Compute.networks cs) (networkKey st) (provider st) = (r, w1) ->
  match r with
  | inl network => String.eqb (Network.Description network) tag = false
  | inr err => gcperrors.IsNotFound (Some err) = true
  end ->
  result (Compute.DeleteNetwork ClusterTagKey cs st) = Returned None
  /\ journal (Compute.DeleteNetwork ClusterTagKey cs st)
     = [mkCall NetworksAPI DoGet (networkKey st) NoPayload (errorOf r)]
  /\ final (Compute.DeleteNetwork ClusterTagKey cs st) = mkState w1 (cluster st).
Proof.
  intros Hget Hr. unfold Compute.DeleteNetwork.
  rewrite result_readCluster, journal_readCluster, final_readCluster.
  unfold Compute.networks_Get.
  rewrite (result_bind_invoke _ _ _ _ _ _ _ _ _ _ Hget),
    (journal_bind_invoke _ _ _ _ _ _ _ _ _ _ Hget),
    (final_bind_invoke _ _ _ _ _ _ _ _ _ _ Hget).
  destruct r as [network|err]; simpl.
  - unfold gcperrors.IsNotFound. simpl. rewrite Hr. auto.
  - rewrite Hr. auto.
Qed.

End LegacyDelete.

(** ** The older [ReconcileNetwork], twice *)

Section FakeLegacyNetwork.
Variable ClusterTagKey : string -> string.
Variable csc : Compute.Scope.

Local Abbreviation cs := (Fake.computeService csc).
Local Abbreviation region := (Compute.Region csc).
Local Abbreviation ks x := (RegionalKey (Compute.subnet_Name x) region).
Local Abbreviation assigned n c :=
  (set_SelfLink (Some (Network.SelfLink n))
     (set_Spec_Network_AutoCreateSubnetworks (Some (Network.AutoCreateSubnetworks n))
        (set_Spec_Network_Name (Some (Network.Name n)) c))).

Lemma createSubnetwork_fake (x : Compute.SubnetSpec) (st : State Fake.World) :
  match Fake.subnetworksT (provider st) !! ks x with
  | Some y =>
      Compute.createSubnetwork cs x st
      = (Returned None, st, [mkCall SubnetworksAPI DoGet (ks x) NoPayload None])
  | None =>
      match Compute.getSubnetworkSpec cs (cluster st) x with
      | None =>
          Compute.createSubnetwork cs x st
          = (Panicked, st,
             [mkCall SubnetworksAPI DoGet (ks x) NoPayload (Some Fake.notFound)])
      | Some spec =>
          exists j,
            Compute.createSubnetwork cs x st
            = (Returned None,
               mkState
                 (Fake.set_subnetworksT
                    (<[ks x := Fake.linkSubnetwork (ks x) spec]>
                       (Fake.subnetworksT (provider st))) (provider st))
                 (cluster st), j)
      end
  end.
Proof.
  destruct st as [w c].
  unfold Compute.createSubnetwork, bind, Compute.subnetworks_Get,
    Compute.subnetworks_Insert, Compute.wait_ForComputeOperation,
    readCluster, invoke, ret, panic. simpl.
  unfold Fake.tableGet.
  destruct (Fake.subnetworksT w !! ks x) as [y|] eqn:Hy; simpl.
  - unfold gcperrors.IsNotFound. simpl. reflexivity.
  - unfold gcperrors.IsNotFound. simpl.
    unfold Compute.getSubnetworkSpec.
    destruct (Compute.subnet_EnableFlowLogs x) as [flowLogs|]; simpl; [|reflexivity].
    unfold Fake.tableInsert. simpl. rewrite Hy. simpl.
    rewrite lookup_insert_eq. simpl. eexists. reflexivity.
Qed.

(** The loop of [createSubnetworks] over the in-memory provider returns nil
    or panics; it only adds subnetworks; run again over a provider that has
    the subnetworks as it left them, it ends the same way without a
    mutating call. *)
Lemma createSubnetworks_loop_fake (l : list Compute.SubnetSpec) (st : State Fake.World) :
  exists r T' j,
    forEach (Compute.createSubnetwork cs) l st
    = (r, mkState (Fake.set_subnetworksT T' (provider st)) (cluster st), j)
    /\ Fake.subnetworksT (provider st) ⊆ T'
    /\ forall w' c',
        Fake.subnetworksT w' = T' ->
        exists j',
          forEach (Compute.createSubnetwork cs) l (mkState w' c') = (r, mkState w' c', j')
          /\ Forall (fun c => mutating c = false) j'.
Proof.
  revert st. induction l as [|x l IH]; intros [w c].
  - exists (Returned None), (Fake.subnetworksT w), []. simpl.
    split; [destruct w; reflexivity|]. split; [reflexivity|].
    intros w' c' _. exists []. split; [reflexivity | constructor].
  - simpl. unfold orReturn, bind at 1.
    pose proof (createSubnetwork_fake x (mkState w c)) as Hx.
    cbn [provider cluster] in Hx.
    destruct (Fake.subnetworksT w !! ks x) as [y|] eqn:Hy.
    + rewrite Hx. cbv beta iota.
      destruct (IH (mkState w c)) as (r & T' & j & -> & Hsub & Hagain).
      cbn [provider cluster] in *.
      exists r, T'. eexists. split; [reflexivity|]. split; [exact Hsub|].
      intros w' c' Hw'.
      pose proof (createSubnetwork_fake x (mkState w' c')) as Hx'.
      cbn [provider cluster] in Hx'.
      rewrite Hw', (lookup_weaken _ _ _ _ Hy Hsub) in Hx'.
      unfold bind at 1. rewrite Hx'. cbv beta iota.
      destruct (Hagain w' c' Hw') as (j' & -> & Hj').
      eexists. split; [reflexivity|]. constructor; [reflexivity | exact Hj'].
    + destruct (Compute.getSubnetworkSpec cs c x) as [spec|] eqn:Hspec.
      * destruct Hx as [j0 Hx]. rewrite Hx. cbv beta iota.
        set (T1 := <[ks x := Fake.linkSubnetwork (ks x) spec]> (Fake.subnetworksT w)).
        destruct (IH (mkState (Fake.set_subnetworksT T1 w) c))
          as (r & T' & j & -> & Hsub & Hagain).
        cbn [provider cluster] in *.
        assert (HT1 : Fake.subnetworksT (Fake.set_subnetworksT T1 w) = T1)
          by (destruct w; reflexivity).
        rewrite HT1 in Hsub.
        exists r, T'. eexists. split; [destruct w; reflexivity|]. split.
        { etransitivity; [|exact Hsub]. apply insert_subseteq. exact Hy. }
        intros w' c' Hw'.
        pose proof (createSubnetwork_fake x (mkState w' c')) as Hx'.
        cbn [provider cluster] in Hx'.
        rewrite Hw', (lookup_weaken T1 T' (ks x) _ (lookup_insert_eq _ _ _) Hsub) in Hx'.
        unfold bind at 1. rewrite Hx'. cbv beta iota.
        destruct (Hagain w' c' Hw') as (j' & -> & Hj').
        eexists. split; [reflexivity|]. constructor; [reflexivity | exact Hj'].
      * rewrite Hx.
        exists Panicked, (Fake.subnetworksT w). eexists.
        split; [destruct w; reflexivity|]. split; [reflexivity|].
        intros w' c' Hw'.
        pose proof (createSubnetwork_fake x (mkState w' c')) as Hx'.
        cbn [provider cluster] in Hx'. rewrite Hw', Hy in Hx'.
        assert (Hspec' : Compute.getSubnetworkSpec cs c' x = None).
        { unfold Compute.getSubnetworkSpec in *.
          destruct (Compute.subnet_EnableFlowLogs x); [discriminate | reflexivity]. }
        rewrite Hspec' in Hx'. unfold bind at 1. rewrite Hx'.
        eexists. split; [reflexivity|]. repeat constructor.
Qed.

Local Abbreviation rk c :=
  (RegionalKey (Compute.getRouterName (Compute.NetworkName csc c)) region).

(** Over a provider that files its routers by name, [createCloudNat], for
    the network of the cluster, returns nil, touches the routers only and
    records a router. *)
Lemma createCloudNat_fake (network : Network.t) (st : State Fake.World) :
  (forall k r, Fake.routersT (provider st) !! k = Some r -> Router.Name r = key_Name k) ->
  Network.Name network = Compute.NetworkName csc (cluster st) ->
  exists T' link j,
    Compute.createCloudNat cs network st
    = (Returned None,
       mkState (Fake.set_routersT T' (provider st))
         (set_Router (Some link) (cluster st)), j).
Proof.
  destruct st as [w c]. cbn [provider cluster]. intros Hfiled Hname.
  unfold Compute.createCloudNat, Compute.createCloudNat_nat, orReturn, bind,
    readCluster, Compute.routers_Get, Compute.routers_Insert, Compute.routers_Patch,
    Compute.wait_ForComputeOperation, Compute.getRouterSpec, Compute.getRouterNatSpec,
    invoke, assign, ret.
  cbn [provider cluster Compute.scope Compute.routers Fake.computeService
       Compute.api_Get Compute.api_Insert Compute.api_Patch Fake.api
       Compute.ForComputeOperation Router.Name Router.Nats].
  unfold Fake.tableGet.
  destruct (Fake.routersT w !! rk c) as [r|] eqn:Hr.
  - unfold gcperrors.IsNotFound. cbn [errorOf].
    assert (Hkey : RegionalKey (Router.Name r) region = rk c).
    { rewrite (Hfiled _ _ Hr). reflexivity. }
    destruct (Router.Nats r) eqn:Hnats.
    + cbn [Router.Name]. rewrite Hkey. unfold Fake.tablePatch.
      cbn [provider cluster]. rewrite Hr. simpl.
      eexists _, _, _. reflexivity.
    + eexists (Fake.routersT w), _, _. destruct w. reflexivity.
  - unfold gcperrors.IsNotFound. cbn [errorOf Fake.notFound].
    rewrite Hname. unfold Fake.tableInsert, Fake.tableGet.
    cbn [provider cluster]. rewrite Hr. simpl.
    rewrite lookup_insert_eq. simpl.
    eexists _, _, _. reflexivity.
Qed.

Local Abbreviation subnetworksOf network :=
  (if negb (Network.AutoCreateSubnetworks network)
   then Compute.createSubnetworks cs else ret None).

Lemma prepend_nil {A} (run : Result A * State Fake.World * list Call) :
  prepend [] run = run.
Proof. destruct run as [[r st] j]. reflexivity. Qed.

Lemma createSubnetworks_step_fake (network : Network.t) (st : State Fake.World) :
  exists r T' j,
    subnetworksOf network st
    = (r, mkState (Fake.set_subnetworksT T' (provider st)) (cluster st), j)
    /\ forall w' c',
        Fake.subnetworksT w' = T' ->
        exists j',
          subnetworksOf network (mkState w' c') = (r, mkState w' c', j')
          /\ Forall (fun c => mutating c = false) j'.
Proof.
  destruct (negb (Network.AutoCreateSubnetworks network)).
  - unfold Compute.createSubnetworks.
    destruct (createSubnetworks_loop_fake (Compute.Subnets csc) st)
      as (r & T' & j & Hrun & _ & Hagain).
    exists r, T', j. split; [exact Hrun | exact Hagain].
  - exists (Returned None), (Fake.subnetworksT (provider st)), [].
    split; [destruct st as [[] ?]; reflexivity|].
    intros w' c' _. exists []. split; [reflexivity | constructor].
Qed.

Ltac destruct_subnetworks network :=
  match goal with
  | |- context [(if negb (Network.AutoCreateSubnetworks network) then ?a else ?b) ?st'] =>
      destruct ((if negb (Network.AutoCreateSubnetworks network) then a else b) st')
        as [[? ?] ?]
  end.

(** The tail of [ReconcileNetwork]: the NAT router, when the network was
    just created, then the assignments, then the subnetworks. *)
Lemma ReconcileNetwork_network_fake (network : Network.t) (auto : bool)
    (st : State Fake.World) :
  (auto = true ->
   (forall k r, Fake.routersT (provider st) !! k = Some r -> Router.Name r = key_Name k)
   /\ Network.Name network = Compute.NetworkName csc (cluster st)) ->
  exists cX T2 j0,
    (cX = cluster st \/ exists link, cX = set_Router (Some link) (cluster st))
    /\ Compute.ReconcileNetwork_network cs network auto st
       = prepend j0
           (subnetworksOf network
              (mkState (Fake.set_routersT T2 (provider st)) (assigned network cX))).
Proof.
  intros Hauto. unfold Compute.ReconcileNetwork_network, orReturn.
  destruct auto.
  - destruct (Hauto eq_refl) as [Hfiled Hname].
    destruct (createCloudNat_fake network st Hfiled Hname) as (T2 & link & j0 & Hnat).
    exists (set_Router (Some link) (cluster st)), T2, (j0 ++ []).
    split; [eauto|].
    unfold bind at 1 2. rewrite Hnat. cbn [Compute.wrapf]. unfold ret at 1.
    cbv beta iota. unfold bind, assign, ret, result, final, journal. simpl.
    destruct_subnetworks network. simpl.
    rewrite !app_nil_r. reflexivity.
  - exists (cluster st), (Fake.routersT (provider st)), []. split; [auto|].
    unfold bind, assign, ret, result, final, journal. simpl.
    replace (Fake.set_routersT (Fake.routersT (provider st)) (provider st))
      with (provider st) by (destruct st as [[] ?]; reflexivity).
    destruct_subnetworks network. reflexivity.
Qed.

Local Abbreviation nk c := (GlobalKey (Compute.NetworkName csc c)).

Lemma getNetworkSpec_Name c :
  Network.Name (Compute.getNetworkSpec ClusterTagKey cs c) = Compute.NetworkName csc c.
Proof.
  unfold Compute.getNetworkSpec.
  destruct (Spec_Network_AutoCreateSubnetworks c); reflexivity.
Qed.

(** The head of [ReconcileNetwork]: the network is found, or it is
    inserted and found. *)
Lemma ReconcileNetwork_fake (st : State Fake.World) :
  match Fake.networksT (provider st) !! nk (cluster st) with
  | Some network =>
      Compute.ReconcileNetwork ClusterTagKey cs st
      = prepend [mkCall NetworksAPI DoGet (nk (cluster st)) NoPayload None]
          (Compute.ReconcileNetwork_network cs network false st)
  | None =>
      exists network j0,
        Network.Name network = Compute.NetworkName csc (cluster st)
        /\ Compute.ReconcileNetwork ClusterTagKey cs st
           = prepend j0
               (Compute.ReconcileNetwork_network cs network true
                  (mkState
                     (Fake.set_networksT
                        (<[nk (cluster st) := network]> (Fake.networksT (provider st)))
                        (provider st))
                     (cluster st)))
  end.
Proof.
  destruct st as [w c]. cbn [provider cluster].
  unfold Compute.ReconcileNetwork.
  rewrite bind_readCluster_eq. cbv zeta. cbn [cluster].
  rewrite !getNetworkSpec_Name.
  unfold Compute.networks_Get at 1.
  destruct (Fake.networksT w !! nk c) as [network|] eqn:Hn.
  - erewrite bind_invoke_eq
      by (cbn [provider Compute.networks Fake.computeService Compute.api_Get Fake.api];
          unfold Fake.tableGet; rewrite Hn; reflexivity).
    reflexivity.
  - exists (Fake.linkNetwork (nk c) (Compute.getNetworkSpec ClusterTagKey cs c)).
    eexists. split.
    { unfold Fake.linkNetwork. cbn [Network.Name]. apply getNetworkSpec_Name. }
    unfold Compute.networks_Get at 1.
    erewrite bind_invoke_eq
      by (cbn [provider Compute.networks Fake.computeService Compute.api_Get Fake.api];
          unfold Fake.tableGet; rewrite Hn; reflexivity).
    unfold gcperrors.IsNotFound at 1. cbn [errorOf Fake.notFound provider cluster].
    unfold Compute.networks_Insert at 1. cbv zeta. rewrite !getNetworkSpec_Name.
    erewrite bind_invoke_eq
      by (cbn [provider Compute.networks Fake.computeService Compute.api_Insert Fake.api];
          unfold Fake.tableInsert; rewrite Hn; reflexivity).
    cbn [provider cluster].
    unfold Compute.wait_ForComputeOperation at 1.
    erewrite bind_invoke_eq
      by (cbn [provider Compute.ForComputeOperation Fake.computeService]; reflexivity).
    cbn [provider cluster].
    unfold Compute.networks_Get at 1.
    erewrite bind_invoke_eq
      by (cbn [provider Compute.networks Fake.computeService Compute.api_Get Fake.api];
          unfold Fake.tableGet;
          replace (Fake.networksT (Fake.set_networksT _ w)) with
            (<[nk c := Fake.linkNetwork (nk c)
                         (Compute.getNetworkSpec ClusterTagKey cs c)]> (Fake.networksT w))
            by (destruct w; reflexivity);
          rewrite lookup_insert_eq; reflexivity).
    cbn [provider cluster]. rewrite !prepend_prepend.
    reflexivity.
Qed.

(** When the network was found, no NAT router is made: the tail assigns
    and goes on to the subnetworks. *)
Lemma ReconcileNetwork_network_found (network : Network.t) (st : State Fake.World) :
  Compute.ReconcileNetwork_network cs network false st
  = subnetworksOf network (mkState (provider st) (assigned network (cluster st))).
Proof.
  unfold Compute.ReconcileNetwork_network, orReturn.
  unfold bind, assign, ret. simpl.
  destruct_subnetworks network. reflexivity.
Qed.

Lemma assigned_twice (network : Network.t) (c : GCPCluster) :
  assigned network (assigned network c) = assigned network c.
Proof. destruct c; reflexivity. Qed.

Lemma Spec_Network_Name_assigned (network : Network.t) (c : GCPCluster) :
  Spec_Network_Name (assigned network c) = Some (Network.Name network).
Proof. destruct c; reflexivity. Qed.

(** Once a run of [ReconcileNetwork] has come to the subnetworks, with the
    network of the cluster on file at the provider, the next run finds the
    network, assigns what is assigned already and finds every subnetwork. *)
Lemma ReconcileNetwork_settles (st : State Fake.World) network jA wA cX :
  declaredNetworkName csc ->
  Compute.ReconcileNetwork ClusterTagKey cs st
  = prepend jA (subnetworksOf network (mkState wA (assigned network cX))) ->
  Fake.networksT wA !! nk (cluster st) = Some network ->
  Network.Name network = Compute.NetworkName csc (cluster st) ->
  settled_after (Compute.ReconcileNetwork ClusterTagKey cs) st.
Proof.
  intros Hdeclared Hrun Hfound Hname.
  destruct (createSubnetworks_step_fake network (mkState wA (assigned network cX)))
    as (r & T' & j & Hsub & Hagain).
  cbn [provider cluster] in Hsub.
  set (w1 := Fake.set_subnetworksT T' wA) in *.
  set (c1 := assigned network cX) in *.
  assert (Hfirst : Compute.ReconcileNetwork ClusterTagKey cs st
                   = (r, mkState w1 c1, jA ++ j)).
  { rewrite Hrun, Hsub. reflexivity. }
  assert (Hkey : nk c1 = nk (cluster st)).
  { f_equal. apply Hdeclared. subst c1.
    rewrite Spec_Network_Name_assigned, Hname. reflexivity. }
  assert (Hfound1 : Fake.networksT w1 !! nk c1 = Some network).
  { rewrite Hkey. subst w1. destruct wA. exact Hfound. }
  assert (Hsecond : exists j',
             Compute.ReconcileNetwork ClusterTagKey cs (mkState w1 c1)
             = (r, mkState w1 c1, mkCall NetworksAPI DoGet (nk c1) NoPayload None :: j')
             /\ Forall (fun c => mutating c = false) j').
  { pose proof (ReconcileNetwork_fake (mkState w1 c1)) as H2.
    cbn [provider cluster] in H2. rewrite Hfound1 in H2.
    rewrite ReconcileNetwork_network_found in H2. cbn [provider cluster] in H2.
    subst c1. rewrite assigned_twice in H2.
    destruct (Hagain w1 (assigned network cX)) as (j' & Hrun' & Hj').
    { subst w1. destruct wA. reflexivity. }
    exists j'. split; [|exact Hj'].
    rewrite H2, Hrun'. reflexivity. }
  destruct Hsecond as (j' & Hsecond & Hj').
  unfold settled_after. rewrite Hfirst.
  change (final (r, mkState w1 c1, jA ++ j)) with (mkState w1 c1).
  rewrite Hsecond.
  split; [reflexivity|]. split; [reflexivity|].
  constructor; [reflexivity | exact Hj'].
Qed.

(** Over the in-memory provider, a second run of the older
    [ReconcileNetwork] right after the first returns what the first
    returned, makes no mutating call and leaves the provider and the
    cluster object as the first run left them. *)
Lemma ReconcileNetwork_twice_fake (st : State Fake.World) :
  filedByName (provider st) ->
  declaredNetworkName csc ->
  settled_after (Compute.ReconcileNetwork ClusterTagKey cs) st.
Proof.
  intros [Hnetworks Hrouters] Hdeclared.
  pose proof (ReconcileNetwork_fake st) as Hhead.
  destruct (Fake.networksT (provider st) !! nk (cluster st)) as [network|] eqn:Hn.
  - rewrite ReconcileNetwork_network_found in Hhead.
    eapply ReconcileNetwork_settles; [exact Hdeclared | exact Hhead | exact Hn |].
    apply (Hnetworks _ _ Hn).
  - destruct Hhead as (network & j0 & Hname & Hhead).
    set (st' := mkState _ (cluster st)) in Hhead.
    destruct (ReconcileNetwork_network_fake network true st') as (cX & T2 & j1 & _ & Htail).
    { intros _. split; [|exact Hname].
      intros k r Hr. apply (Hrouters k r).
      subst st'. cbn [provider] in Hr. destruct (provider st). exact Hr. }
    rewrite Htail, prepend_prepend in Hhead.
    eapply ReconcileNetwork_settles; [exact Hdeclared | exact Hhead | | exact Hname].
    subst st'. cbn [provider]. destruct (provider st). cbn.
    apply lookup_insert_eq.
Qed.

End FakeLegacyNetwork.

(** C2.  Over the in-memory provider, from every state of the provider and
    of the cluster object: a second run of the network [Reconcile], and a
    second run of [ReconcileFirewalls], right after the first, makes no
    Insert and no Patch (no mutating call at all), returns what the first
    run returned and leaves the provider and the recorded status, the
    self-links and the mapping of the firewall rules, as the first run left
    them.  So does a second run of the older [ReconcileNetwork], over a
    provider that files networks and routers under their names and a scope
    that names the network as the cluster object declares it. *)
Theorem Reconcile_idempotent
    (ClusterTagKey : string -> string) (APIServerRoleTagValue : string)
    (sc : Networks.Scope) (csc : Compute.Scope) (st : State Fake.World) :
  settled_after (Networks.Reconcile ClusterTagKey (Fake.networksService sc)) st
  /\ settled_after
       (Compute.ReconcileFirewalls APIServerRoleTagValue (Fake.computeService csc)) st
  /\ (filedByName (provider st) ->
      declaredNetworkName csc ->
      settled_after (Compute.ReconcileNetwork ClusterTagKey (Fake.computeService csc)) st).
Proof.
  split; [|split].
  - apply Reconcile_twice_fake.
  - apply ReconcileFirewalls_twice_fake.
  - apply ReconcileNetwork_twice_fake.
Qed.

Lemma Reconcile_idempotent_witness :
  filedByName Fake.emptyWorld
  /\ declaredNetworkName Sample.computeScope
  /\ settled_after
       (Compute.ReconcileNetwork Sample.ClusterTagKey
          (Fake.computeService Sample.computeScope))
       (mkState Fake.emptyWorld Fake.emptyCluster).
Proof.
  assert (Hfiled : filedByName Fake.emptyWorld).
  { split; intros k x H; simpl in H; rewrite lookup_empty in H; discriminate. }
  assert (Hdeclared : declaredNetworkName Sample.computeScope).
  { intros c c' H. simpl. rewrite H. reflexivity. }
  split; [exact Hfiled|]. split; [exact Hdeclared|].
  exact (proj2 (proj2 (Reconcile_idempotent Sample.ClusterTagKey "apiserver"
                         (Sample.scope false) Sample.computeScope
                         (mkState Fake.emptyWorld Fake.emptyCluster)))
           Hfiled Hdeclared).
Defined.

(** The first run is not idle on the sample: from an empty provider the
    network [Reconcile] inserts the network, the subnetwork and the router,
    [ReconcileFirewalls] inserts the two declared rules, and the older
    [ReconcileNetwork] inserts the network and the router. *)
Example Reconcile_first_run_sample :
  let st := mkState Fake.emptyWorld Fake.emptyCluster in
  List.map (fun c => (client c, verb c))
    (List.filter mutating
       (journal (Networks.Reconcile Sample.ClusterTagKey
                   (Fake.networksService (Sample.scope false)) st)))
  = [(NetworksAPI, DoInsert); (SubnetworksAPI, DoInsert); (RoutersAPI, DoInsert)]
  /\ List.map (fun c => (client c, verb c))
       (List.filter mutating
          (journal (Compute.ReconcileFirewalls "apiserver"
                      (Fake.computeService Sample.computeScope) st)))
     = [(FirewallsAPI, DoInsert); (FirewallsAPI, DoInsert)]
  /\ List.map (fun c => (client c, verb c))
       (List.filter mutating
          (journal (Compute.ReconcileNetwork Sample.ClusterTagKey
                      (Fake.computeService Sample.computeScope) st)))
     = [(NetworksAPI, DoInsert); (RoutersAPI, DoInsert)].
Proof. vm_compute. repeat split; reflexivity. Qed.

(** ** The ownership guard, component by component *)

Section OwnershipGuard.
Context {W : Type}.
Variable ClusterTagKey : string -> string.
Variable parseAuthority : string -> option error.
Variable s : Networks.Service W.
Variable cs : Compute.Service W.

Local Abbreviation tag := (ClusterTagKey (Networks.Name (Networks.scope s))).
Local Abbreviation networkKey := (GlobalKey (Networks.NetworkName (Networks.scope s))).
Local Abbreviation routerKey :=
  (RegionalKey (Router.Name (Networks.NatRouterSpec (Networks.scope s)))
     (Networks.Region (Networks.scope s))).
Local Abbreviation legacyTag := (ClusterTagKey (Compute.Name (Compute.scope cs))).
Local Abbreviation legacyKey st :=
  (GlobalKey (Compute.NetworkName (Compute.scope cs) (cluster st))).


End OwnershipGuard.



(** * Further properties of the reconcilers *)

(** ** [Reconcile] of package [networks]: errors, status, calls *)

Section ReportsLastRules.
Context {W : Type}.

Lemma reports_last_after c r j :
  passed c = true -> reports_last r j -> reports_last r (c :: j).
Proof.
  intros Hc. destruct r as [[err|]|]; simpl; [|auto|auto].
  intros (j0 & d & -> & Hj0 & Hd). exists (c :: j0), d. auto.
Qed.

Lemma reports_last_app r j1 j2 :
  Forall (fun c => passed c = true) j1 -> reports_last r j2 -> reports_last r (j1 ++ j2).
Proof.
  intros H1. induction H1 as [|c j1 Hc _ IH]; simpl; [auto|].
  intros H2. apply reports_last_after; auto.
Qed.

Lemma ReportsLast_ret {A} (err : A -> option error) (a : A) :
  err a = None -> ReportsLast err (@ret W A a).
Proof. intros Ha st. simpl. rewrite Ha. constructor. Qed.

(** A call in the middle of a step: either the step goes on after an answer
    that is nil or a NotFound to a lookup, or it returns the answer at
    once. *)
Lemma ReportsLast_invoke {A B} cl v k p (e : A -> option error)
    (err : B -> option error) (f : W -> A * W) (g : A -> M W B) :
  (forall a,
      (passed (mkCall cl v k p (e a)) = true /\ ReportsLast err (g a))
      \/ (exists x b, e a = Some x /\ g a = ret b /\ err b = Some x)) ->
  ReportsLast err (bind (invoke cl v k p e f) g).
Proof.
  intros Hg st. unfold bind, invoke, result, journal. simpl.
  destruct (f (provider st)) as [a w]. simpl.
  destruct (Hg a) as [[Ht Hk] | (x & b & He & Hk & Hb)].
  - specialize (Hk (mkState w (cluster st))).
    unfold result, journal in Hk.
    destruct (g a _) as [[r s2] j2]. simpl in *.
    apply reports_last_after; assumption.
  - rewrite Hk. simpl. rewrite Hb.
    exists [], (mkCall cl v k p (e a)). simpl. repeat split; auto.
Qed.

(** A call whose answer is the result of the step. *)
Lemma ReportsLast_last {A} cl v k p (e : A -> option error) (f : W -> A * W) :
  ReportsLast e (invoke cl v k p e f).
Proof.
  intros st. unfold invoke, result, journal.
  destruct (f (provider st)) as [a w]. simpl.
  destruct (e a) as [x|] eqn:He.
  - exists [], (mkCall cl v k p (Some x)). simpl. repeat split; auto.
  - repeat constructor.
Qed.

(** A step that goes on after nil and returns the error otherwise. *)
Lemma ReportsLast_bind {A B} (e : A -> option error) (err : B -> option error)
    (m : M W A) (k : A -> M W B) :
  ReportsLast e m ->
  (forall a,
      (e a = None /\ ReportsLast err (k a))
      \/ (exists x b, e a = Some x /\ k a = ret b /\ err b = Some x)) ->
  ReportsLast err (bind m k).
Proof.
  intros Hm Hk st. specialize (Hm st).
  rewrite result_bind, journal_bind.
  destruct (result (m st)) as [a|]; [|contradiction].
  destruct (Hk a) as [[Ha Hka] | (x & b & Ha & Hka & Hb)].
  - rewrite Ha in Hm. simpl in Hm.
    apply reports_last_app; [exact Hm | apply Hka].
  - rewrite Ha in Hm. rewrite Hka. simpl. rewrite Hb, app_nil_r. exact Hm.
Qed.

Lemma ReportsLast_orReturn (m k : M W (option error)) :
  ReportsLast id m -> ReportsLast id k -> ReportsLast id (orReturn m k).
Proof.
  intros Hm Hk. unfold orReturn. apply (ReportsLast_bind id id); [exact Hm|].
  intros [x|]; [right; exists x, (Some x); auto | left; auto].
Qed.

Lemma ReportsLast_forEach {A} (body : A -> M W (option error)) l :
  (forall x, ReportsLast id (body x)) -> ReportsLast id (forEach body l).
Proof.
  intros Hb. induction l as [|x l IH]; simpl.
  - apply ReportsLast_ret. reflexivity.
  - apply ReportsLast_orReturn; [apply Hb | exact IH].
Qed.

Lemma ReportsLast_assign {B} (err : B -> option error) f (k : M W B) :
  ReportsLast err k -> ReportsLast err (bind (assign f) (fun _ => k)).
Proof.
  intros Hk st. specialize (Hk (mkState (provider st) (f (cluster st)))).
  unfold bind, assign, result, journal in *. simpl.
  destruct (k _) as [[r s2] j2]. exact Hk.
Qed.

End ReportsLastRules.


Section NetworksReconcile.
Context {W : Type}.
Variable ClusterTagKey : string -> string.
Variable s : Networks.Service W.

Local Abbreviation sc := (Networks.scope s).
Local Abbreviation networkKey := (GlobalKey (Networks.NetworkName sc)).
Local Abbreviation routerKey :=
  (RegionalKey (Router.Name (Networks.NatRouterSpec sc)) (Networks.Region sc)).
Local Abbreviation subnetKey x :=
  (RegionalKey (Subnetwork.Name x) (Subnetwork.Region x)).
Local Abbreviation tag := (ClusterTagKey (Networks.Name sc)).
Local Abbreviation Reconcile := (Networks.Reconcile ClusterTagKey s).

Lemma createOrGetNetwork_reports : ReportsLast errorOf (Networks.createOrGetNetwork s).
Proof.
  unfold Networks.createOrGetNetwork, Networks.networks_Get, Networks.networks_Insert.
  apply ReportsLast_invoke. intros [network|err]; unfold passed; simpl.
  - left. split; [reflexivity | apply ReportsLast_ret; reflexivity].
  - destruct (gcperrors.IsNotFound (Some err)) eqn:Hnf; simpl.
    + destruct (Networks.IsSharedVpc sc).
      * right. exists err, (inr err). auto.
      * left. split; [reflexivity|].
        apply ReportsLast_invoke. intros [x|]; unfold passed; simpl.
        -- right. exists x, (inr x). auto.
        -- left. split; [reflexivity | apply ReportsLast_last].
    + right. exists err, (inr err). auto.
Qed.

Lemma createOrGetSubNetwork_reports subnet :
  ReportsLast errorOf (Networks.createOrGetSubNetwork s subnet).
Proof.
  unfold Networks.createOrGetSubNetwork, Networks.subnetworks_Get,
    Networks.subnetworks_Insert.
  apply ReportsLast_invoke. intros [subnetwork|err]; unfold passed; simpl.
  - left. split; [reflexivity | apply ReportsLast_ret; reflexivity].
  - destruct (gcperrors.IsNotFound (Some err)) eqn:Hnf; simpl.
    + left. split; [reflexivity|].
      apply ReportsLast_invoke. intros [x|]; unfold passed; simpl.
      * right. exists x, (inr x). auto.
      * left. split; [reflexivity | apply ReportsLast_last].
    + right. exists err, (inr err). auto.
Qed.

Lemma createOrGetRouter_reports network :
  ReportsLast errorOf (Networks.createOrGetRouter ClusterTagKey s network).
Proof.
  unfold Networks.createOrGetRouter, Networks.routers_Get, Networks.routers_Insert.
  apply ReportsLast_invoke. intros [router|err]; unfold passed; simpl.
  - left. split; [reflexivity | apply ReportsLast_ret; reflexivity].
  - destruct (gcperrors.IsNotFound (Some err)) eqn:Hnf; simpl.
    + destruct (Networks.IsSharedVpc sc).
      * right. exists err, (inr err). auto.
      * left. split; [reflexivity|].
        apply ReportsLast_invoke. intros [x|]; unfold passed; simpl.
        -- right. exists x, (inr x). auto.
        -- left. split; [reflexivity | apply ReportsLast_last].
    + right. exists err, (inr err). auto.
Qed.

Lemma Reconcile_subnetworks_reports network :
  ReportsLast id (Networks.Reconcile_subnetworks s network).
Proof.
  unfold Networks.Reconcile_subnetworks.
  destruct (negb _); [|apply ReportsLast_ret; reflexivity].
  apply ReportsLast_forEach. intros subnet.
  apply (ReportsLast_bind errorOf id); [apply createOrGetSubNetwork_reports|].
  intros [subnetwork|err]; simpl.
  - left. split; [reflexivity | apply ReportsLast_ret; reflexivity].
  - right. exists err, (Some err). auto.
Qed.

Lemma Reconcile_router_reports network :
  ReportsLast id (Networks.Reconcile_router ClusterTagKey s network).
Proof.
  unfold Networks.Reconcile_router.
  destruct (String.eqb _ _); [|apply ReportsLast_ret; reflexivity].
  apply (ReportsLast_bind errorOf id); [apply createOrGetRouter_reports|].
  intros [router|err]; simpl.
  - left. split; [reflexivity|].
    apply ReportsLast_assign. apply ReportsLast_ret. reflexivity.
  - right. exists err, (Some err). auto.
Qed.

(** X1.  Whatever the provider answers, [Reconcile] does not panic and its
    result is what its last call was answered.  When it returns an error,
    that error is the answer of the last call it made, as the provider
    gave it, not wrapped, and every answer before it was nil or a NotFound
    to a lookup.  When it returns nil, every answer was nil or a NotFound
    to a lookup. *)
Theorem Reconcile_reports_last_answer (st : State W) :
  reports_last (result (Reconcile st)) (journal (Reconcile st)).
Proof.
  assert (H : ReportsLast id Reconcile).
  { unfold Networks.Reconcile.
    apply (ReportsLast_bind errorOf id); [apply createOrGetNetwork_reports|].
    intros [network|err]; simpl.
    - left. split; [reflexivity|].
      apply ReportsLast_assign.
      apply ReportsLast_orReturn; [apply Reconcile_subnetworks_reports|].
      apply ReportsLast_orReturn; [apply Reconcile_router_reports|].
      apply ReportsLast_assign. apply ReportsLast_ret. reflexivity.
    - right. exists err, (Some err). auto. }
  specialize (H st). destruct (result (Reconcile st)) as [e|]; exact H.
Qed.

Lemma createOrGetNetwork_keeps : preserves (Networks.createOrGetNetwork s).
Proof.
  unfold Networks.createOrGetNetwork, Networks.networks_Get, Networks.networks_Insert.
  journal_rules; destruct (negb _); journal_rules;
    destruct (Networks.IsSharedVpc _); journal_rules.
Qed.

Lemma createOrGetRouter_keeps network :
  preserves (Networks.createOrGetRouter ClusterTagKey s network).
Proof.
  unfold Networks.createOrGetRouter, Networks.routers_Get, Networks.routers_Insert.
  journal_rules; destruct (negb _); journal_rules;
    destruct (Networks.IsSharedVpc _); journal_rules.
Qed.

Lemma Reconcile_subnetworks_keeps network :
  preserves (Networks.Reconcile_subnetworks s network).
Proof.
  unfold Networks.Reconcile_subnetworks, Networks.createOrGetSubNetwork,
    Networks.subnetworks_Get, Networks.subnetworks_Insert.
  destruct (negb _); journal_rules; destruct (negb _); journal_rules.
Qed.

(** The router step records the router when it returns nil for a network
    that carries the tag, and leaves the cluster object alone otherwise. *)
Lemma Reconcile_router_status network (st : State W) :
  (String.eqb (Network.Description network) tag = true
   /\ result (Networks.Reconcile_router ClusterTagKey s network st) = Returned None
   /\ exists link,
       cluster (final (Networks.Reconcile_router ClusterTagKey s network st))
       = set_Router (Some link) (cluster st))
  \/ ((result (Networks.Reconcile_router ClusterTagKey s network st) <> Returned None
       \/ String.eqb (Network.Description network) tag = false)
      /\ cluster (final (Networks.Reconcile_router ClusterTagKey s network st))
         = cluster st).
Proof.
  unfold Networks.Reconcile_router.
  destruct (String.eqb _ _) eqn:Htag; [|right; split; [right|]; reflexivity].
  rewrite result_bind, final_bind.
  pose proof (createOrGetRouter_keeps network st) as Hkeep.
  pose proof (createOrGetRouter_reports network st) as Hrep.
  destruct (result (Networks.createOrGetRouter ClusterTagKey s network st))
    as [[router|err]|]; [| |contradiction].
  - left. split; [reflexivity|]. split; [reflexivity|].
    exists (Router.SelfLink router). simpl. rewrite Hkeep. reflexivity.
  - right. split; [left; discriminate | exact Hkeep].
Qed.

(** X2.  What [Reconcile] records, whatever the provider answers.  When
    the network cannot be had, [Reconcile] returns that error and leaves
    the cluster object alone.  Otherwise the self-link of the network is
    recorded, also when a later step fails; the router is recorded exactly
    when [Reconcile] returns nil for a network that carries the ownership
    tag; nothing else of the cluster object changes. *)
Theorem Reconcile_records_status (st : State W) :
  match result (Networks.createOrGetNetwork s st) with
  | Returned (inl network) =>
      let linked := set_SelfLink (Some (Network.SelfLink network)) (cluster st) in
      (result (Reconcile st) = Returned None
       /\ String.eqb (Network.Description network) tag = true
       /\ exists link, cluster (final (Reconcile st)) = set_Router (Some link) linked)
      \/ ((result (Reconcile st) <> Returned None
           \/ String.eqb (Network.Description network) tag = false)
          /\ cluster (final (Reconcile st)) = linked)
  | Returned (inr err) =>
      result (Reconcile st) = Returned (Some err)
      /\ cluster (final (Reconcile st)) = cluster st
  | Panicked => False
  end.
Proof.
  pose proof (createOrGetNetwork_keeps st) as Hkeep.
  pose proof (createOrGetNetwork_reports st) as Hrep.
  unfold Networks.Reconcile. rewrite result_bind, final_bind.
  destruct (result (Networks.createOrGetNetwork s st)) as [[network|err]|];
    [| split; [reflexivity | exact Hkeep] | contradiction].
  cbv zeta. rewrite result_assign, final_assign, Hkeep.
  set (st1 := mkState _ (set_SelfLink _ (cluster st))).
  pose proof (Reconcile_subnetworks_keeps network st1) as Hsub.
  destruct (orReturn_cases (Networks.Reconcile_subnetworks s network)
              (orReturn (Networks.Reconcile_router ClusterTagKey s network)
                 (bind (assign (set_SelfLink (Some (Network.SelfLink network))))
                    (fun _ => ret None))) st1)
    as [(err & _ & -> & -> & _) | [(_ & -> & -> & _) | (_ & -> & -> & _)]].
  - right. split; [left; discriminate | exact Hsub].
  - right. split; [left; discriminate | exact Hsub].
  - set (st2 := final (Networks.Reconcile_subnetworks s network st1)) in *.
    destruct (orReturn_cases (Networks.Reconcile_router ClusterTagKey s network)
                (bind (assign (set_SelfLink (Some (Network.SelfLink network))))
                   (fun _ => ret None)) st2)
      as [(err & Hr & -> & -> & _) | [(Hr & -> & -> & _) | (Hr & -> & -> & _)]];
      destruct (Reconcile_router_status network st2)
        as [(Htag & Hnil & link & Hlink) | ([Herr | Htag] & Huntouched)];
      try congruence;
      try (right; split; [left; discriminate |];
           rewrite Huntouched; subst st2; rewrite Hsub; reflexivity).
    + left. split; [reflexivity|]. split; [exact Htag|].
      exists link. simpl. rewrite Hlink, Hsub. subst st1. simpl.
      destruct (cluster st). reflexivity.
    + right. split; [right; exact Htag|].
      simpl. rewrite Huntouched, Hsub. subst st1. simpl.
      destruct (cluster st). reflexivity.
Qed.

Lemma emits_In {A} (P : Call -> Prop) (m : M W A) st c :
  emits P m -> In c (journal (m st)) -> P c.
Proof. intros H. specialize (H st). rewrite List.Forall_forall in H. apply H. Qed.

Lemma In_journal_orReturn (m k : M W (option error)) st c :
  In c (journal (orReturn m k st)) ->
  In c (journal (m st)) \/ In c (journal (k (final (m st)))).
Proof.
  destruct (orReturn_cases m k st)
    as [(err & _ & _ & _ & ->) | [(_ & _ & _ & ->) | (_ & _ & _ & ->)]]; auto.
  intros Hin. apply in_app_or in Hin. exact Hin.
Qed.

Local Abbreviation stamped network :=
  (Router.mk (Router.Name (Networks.NatRouterSpec sc)) tag (Network.SelfLink network)
     (Router.SelfLink (Networks.NatRouterSpec sc))
     (Router.Nats (Networks.NatRouterSpec sc))).

Lemma createOrGetNetwork_inserts :
  emits (fun c => mutating c = true ->
                  c = mkCall NetworksAPI DoInsert networkKey
                        (NetworkObj (Networks.NetworkSpec sc)) (answer c))
    (Networks.createOrGetNetwork s).
Proof.
  unfold Networks.createOrGetNetwork, Networks.networks_Get, Networks.networks_Insert.
  apply emits_bind; [apply emits_invoke; intros e; discriminate|].
  intros [network|err]; [apply emits_ret|].
  destruct (negb _); [apply emits_ret|].
  destruct (Networks.IsSharedVpc _); [apply emits_ret|].
  apply emits_bind; [apply emits_invoke; intros e _; reflexivity|].
  intros [e|]; [apply emits_ret | apply emits_invoke; intros e; discriminate].
Qed.

Lemma Reconcile_subnetworks_inserts network :
  emits (fun c => mutating c = true ->
                  exists x, In x (Networks.SubnetworkSpec sc)
                            /\ c = mkCall SubnetworksAPI DoInsert (subnetKey x)
                                     (SubnetworkObj x) (answer c))
    (Networks.Reconcile_subnetworks s network).
Proof.
  unfold Networks.Reconcile_subnetworks.
  destruct (negb _); [|apply emits_ret].
  eapply emits_weaken; [|apply (emits_forEach_In
    (fun x c => mutating c = true ->
                c = mkCall SubnetworksAPI DoInsert (subnetKey x) (SubnetworkObj x)
                      (answer c)))].
  - intros c (x & Hx & Hc) Hm. exists x. auto.
  - intros x _. unfold Networks.createOrGetSubNetwork, Networks.subnetworks_Get,
      Networks.subnetworks_Insert.
    apply emits_bind; [|intros; apply emits_ret].
    apply emits_bind; [apply emits_invoke; intros e; discriminate|].
    intros [subnetwork|err]; [apply emits_ret|].
    destruct (negb _); [apply emits_ret|].
    apply emits_bind; [apply emits_invoke; intros e _; reflexivity|].
    intros [e|]; [apply emits_ret | apply emits_invoke; intros e; discriminate].
Qed.

Lemma Reconcile_router_inserts network :
  emits (fun c => mutating c = true ->
                  Network.Description network = tag
                  /\ c = mkCall RoutersAPI DoInsert routerKey
                           (RouterObj (stamped network)) (answer c))
    (Networks.Reconcile_router ClusterTagKey s network).
Proof.
  unfold Networks.Reconcile_router.
  destruct (String.eqb _ _) eqn:Htag; [|apply emits_ret].
  apply String.eqb_eq in Htag.
  apply emits_bind;
    [|intros [router|err]; [apply emits_bind; [apply emits_assign|intros; apply emits_ret]
                           | apply emits_ret]].
  unfold Networks.createOrGetRouter, Networks.routers_Get, Networks.routers_Insert.
  apply emits_bind; [apply emits_invoke; intros e; discriminate|].
  intros [router|err]; [apply emits_ret|].
  destruct (negb _); [apply emits_ret|].
  destruct (Networks.IsSharedVpc _); [apply emits_ret|].
  apply emits_bind; [apply emits_invoke; intros e _; split; [exact Htag | reflexivity]|].
  intros [e|]; [apply emits_ret | apply emits_invoke; intros e; discriminate].
Qed.

(** X3.  [Reconcile] creates what is declared and changes nothing else:
    whatever the provider answers, each of its mutating calls is an Insert,
    never a Delete or a Patch, and it inserts the network specification of
    the scope under the name of the network, or a declared subnetwork
    under its name and region, or the NAT router specification of the
    scope, which it stamps with the ownership tag and with the self-link
    of the network it got, and only for a network that carries the tag. *)
Theorem Reconcile_inserts_declared (st : State W) (c : Call) :
  In c (journal (Reconcile st)) ->
  mutating c = true ->
  c = mkCall NetworksAPI DoInsert networkKey
        (NetworkObj (Networks.NetworkSpec sc)) (answer c)
  \/ (exists x,
        In x (Networks.SubnetworkSpec sc)
        /\ c = mkCall SubnetworksAPI DoInsert (subnetKey x) (SubnetworkObj x) (answer c))
  \/ (exists network,
        result (Networks.createOrGetNetwork s st) = Returned (inl network)
        /\ Network.Description network = tag
        /\ c = mkCall RoutersAPI DoInsert routerKey
                 (RouterObj (stamped network)) (answer c)).
Proof.
  intros Hin Hm. unfold Networks.Reconcile in Hin.
  rewrite journal_bind in Hin. apply in_app_or in Hin.
  destruct Hin as [Hin|Hin].
  { left. exact (emits_In _ _ _ _ createOrGetNetwork_inserts Hin Hm). }
  destruct (result (Networks.createOrGetNetwork s st)) as [[network|err]|];
    [|destruct Hin|destruct Hin].
  rewrite journal_assign in Hin.
  apply In_journal_orReturn in Hin. destruct Hin as [Hin|Hin].
  { right; left. exact (emits_In _ _ _ _ (Reconcile_subnetworks_inserts network) Hin Hm). }
  apply In_journal_orReturn in Hin. destruct Hin as [Hin|Hin]; [|destruct Hin].
  right; right.
  destruct (emits_In _ _ _ _ (Reconcile_router_inserts network) Hin Hm) as [Htag Hc].
  exists network. auto.
Qed.

Lemma createOrGetNetwork_phases :
  phases Reconcile_order 0 0 (Networks.createOrGetNetwork s).
Proof.
  unfold Networks.createOrGetNetwork, Networks.networks_Get, Networks.networks_Insert.
  apply (phases_bind _ 0 0 0); [lia | apply phases_invoke; intros; cbv; lia |].
  intros [network|err]; [apply phases_ret|].
  destruct (negb _); [apply phases_ret|].
  destruct (Networks.IsSharedVpc _); [apply phases_ret|].
  apply (phases_bind _ 0 0 0); [lia | apply phases_invoke; intros; cbv; lia |].
  intros [e|]; [apply phases_ret | apply phases_invoke; intros; cbv; lia].
Qed.

Lemma Reconcile_subnetworks_phases network :
  phases Reconcile_order 1 1 (Networks.Reconcile_subnetworks s network).
Proof.
  unfold Networks.Reconcile_subnetworks.
  destruct (negb _); [|apply phases_ret].
  apply phases_forEach. intros subnet.
  unfold Networks.createOrGetSubNetwork, Networks.subnetworks_Get,
    Networks.subnetworks_Insert.
  apply (phases_bind _ 1 1 1); [lia | | intros; apply phases_ret].
  apply (phases_bind _ 1 1 1); [lia | apply phases_invoke; intros; cbv; lia |].
  intros [subnetwork|err]; [apply phases_ret|].
  destruct (negb _); [apply phases_ret|].
  apply (phases_bind _ 1 1 1); [lia | apply phases_invoke; intros; cbv; lia |].
  intros [e|]; [apply phases_ret | apply phases_invoke; intros; cbv; lia].
Qed.

Lemma Reconcile_router_phases network :
  phases Reconcile_order 2 2 (Networks.Reconcile_router ClusterTagKey s network).
Proof.
  unfold Networks.Reconcile_router.
  destruct (String.eqb _ _); [|apply phases_ret].
  apply (phases_bind _ 2 2 2); [lia | |].
  - unfold Networks.createOrGetRouter, Networks.routers_Get, Networks.routers_Insert.
    apply (phases_bind _ 2 2 2); [lia | apply phases_invoke; intros; cbv; lia |].
    intros [router|err]; [apply phases_ret|].
    destruct (negb _); [apply phases_ret|].
    destruct (Networks.IsSharedVpc _); [apply phases_ret|].
    apply (phases_bind _ 2 2 2); [lia | apply phases_invoke; intros; cbv; lia |].
    intros [e|]; [apply phases_ret | apply phases_invoke; intros; cbv; lia].
  - intros [router|err]; [|apply phases_ret].
    apply phases_silent. reflexivity.
Qed.

(** X4.  Whatever the provider answers, [Reconcile] makes its calls in
    this order: the calls for the network, then the calls for the declared
    subnetworks, then the calls for the router; it calls no other
    client. *)
Theorem Reconcile_calls_in_order (st : State W) :
  in_order Reconcile_order (journal (Reconcile st)) = true
  /\ within Reconcile_order 0 2 (journal (Reconcile st)) = true.
Proof.
  assert (H : phases Reconcile_order 0 2 Reconcile).
  { unfold Networks.Reconcile.
    apply (phases_bind _ 0 0 2); [lia | apply createOrGetNetwork_phases |].
    intros [network|err]; [|apply phases_ret].
    apply (phases_bind _ 0 0 2); [lia | apply phases_assign |]. intros _.
    apply (phases_orReturn _ 0 1 2); [lia | |].
    { eapply phases_weaken; [| |apply Reconcile_subnetworks_phases]; lia. }
    apply (phases_orReturn _ 1 2 2); [lia | |].
    { eapply phases_weaken; [| |apply Reconcile_router_phases]; lia. }
    apply phases_silent. reflexivity. }
  destruct (H st). auto.
Qed.

End NetworksReconcile.

Lemma Reconcile_inserts_declared_witness :
  let s := Fake.networksService (Sample.scope false) in
  let st := mkState Fake.emptyWorld Fake.emptyCluster in
  exists network,
    result (Networks.createOrGetNetwork s st) = Returned (inl network)
    /\ Network.Description network = Sample.ClusterTagKey "my-cluster".
Proof.
  intros s st.
  set (c := mkCall RoutersAPI DoInsert (RegionalKey "my-network-router" "us-east1")
              (RouterObj
                 (Router.mk "my-network-router" "capg-cluster-my-cluster"
                    (Fake.selfLinkOf "networks" (GlobalKey "my-network")) ""
                    (Router.Nats Sample.natRouter))) None).
  destruct (Reconcile_inserts_declared Sample.ClusterTagKey s st c)
    as [Hc | [(x & _ & Hc) | (network & Hnet & Htag & _)]].
  - vm_compute. tauto.
  - reflexivity.
  - discriminate Hc.
  - discriminate Hc.
  - exists network. split; assumption.
Defined.

(** ** Strings *)

Section Strings.

Lemma append_assoc (a b c : string) : (a +:+ b) +:+ c = a +:+ (b +:+ c).
Proof.
  unfold String.app. induction a as [|x a IH]; simpl; [reflexivity | rewrite IH; reflexivity].
Qed.

Lemma append_nil_r (a : string) : a +:+ "" = a.
Proof.
  unfold String.app. induction a as [|x a IH]; simpl; [reflexivity | rewrite IH; reflexivity].
Qed.

Lemma rev_app_append (s acc : string) : String.rev_app s acc = String.rev s +:+ acc.
Proof.
  revert acc. induction s as [|x s IH]; intros acc; [reflexivity|].
  unfold String.rev. simpl. rewrite (IH (String x acc)), (IH (String x "")).
  rewrite append_assoc. reflexivity.
Qed.

Lemma rev_append (a b : string) : String.rev (a +:+ b) = String.rev b +:+ String.rev a.
Proof.
  induction a as [|x a IH].
  - symmetry. apply append_nil_r.
  - change (String.rev (String x a +:+ b))
      with (String.rev_app (a +:+ b) (String x "")).
    change (String.rev (String x a)) with (String.rev_app a (String x "")).
    rewrite !rev_app_append, IH, append_assoc. reflexivity.
Qed.

Lemma prefix_append (a b : string) : String.prefix a (a +:+ b) = true.
Proof.
  unfold String.app. induction a as [|x a IH]; simpl.
  - destruct b; reflexivity.
  - destruct (ascii_dec x x); [exact IH | contradiction].
Qed.

(** [strings.HasSuffix] asks for no more than the last bytes: whatever
    comes in front of the suffix. *)
Lemma HasSuffix_append (p s : string) : GoStrings.HasSuffix (p +:+ s) s = true.
Proof. unfold GoStrings.HasSuffix. rewrite rev_append. apply prefix_append. Qed.

End Strings.

(** ** [Delete] of package [networks]: the routes *)

Section NetworksDeleteRoutes.
Context {W : Type}.
Variable s : Networks.Service W.

Local Abbreviation sc := (Networks.scope s).
Local Abbreviation fl := (FilterRegexp "description" Networks.k8sNodeRouteTag).
Local Abbreviation ofNetwork route :=
  (GoStrings.HasSuffix (Route.Network route) (Networks.NetworkName sc)).
Local Abbreviation routeDeleted route e :=
  (mkCall RoutesAPI DoDelete (GlobalKey (Route.Name route)) NoPayload e).

Lemma Delete_route_sound route :
  emits (fun c => ofNetwork route = true /\ exists e, c = routeDeleted route e)
    (Networks.Delete_route s route).
Proof.
  unfold Networks.Delete_route, Networks.routes_Delete_.
  destruct (ofNetwork route) eqn:Hm; [|apply emits_ret].
  apply emits_invoke. intros e. split; [reflexivity | exists e; reflexivity].
Qed.

Lemma Delete_route_loop_complete routeList (st : State W) route :
  result (forEach (Networks.Delete_route s) routeList st) = Returned None ->
  In route routeList ->
  ofNetwork route = true ->
  In (routeDeleted route None) (journal (forEach (Networks.Delete_route s) routeList st)).
Proof.
  revert st. induction routeList as [|x l IH]; intros st Hres Hin Hm; [destruct Hin|].
  simpl in *.
  destruct (orReturn_cases (Networks.Delete_route s x)
              (forEach (Networks.Delete_route s) l) st)
    as [(err & Hr & Hres' & _ & _) | [(Hr & Hres' & _ & _) | (Hr & Hres' & _ & Hj)]];
    try congruence.
  rewrite Hj. apply in_or_app.
  destruct Hin as [<-|Hin].
  - left. revert Hr. unfold Networks.Delete_route, Networks.routes_Delete_.
    rewrite Hm. unfold invoke, result, journal.
    destruct (Networks.routes_Delete _ _ _) as [e w]. simpl.
    intros [= ->]. left. reflexivity.
  - right. apply IH; [congruence | exact Hin | exact Hm].
Qed.

(** X5.  The routes [Delete] removes, whatever the provider answers: of
    the routes the provider lists under the node-route description, [Delete]
    asks to delete those whose network reference ends with the name of the
    cluster's network, under their own names, and no other route; when the
    route step returns nil every such route was deleted. *)
Theorem Delete_routes_precise (st : State W) (routeList : list Route.t) (w1 : W) :
  Networks.routes_List (Networks.routes s) fl (provider st) = (inl routeList, w1) ->
  (forall c,
      In c (journal (Networks.Delete_routes s st)) ->
      verb c = DoDelete ->
      exists route,
        In route routeList /\ ofNetwork route = true
        /\ c = routeDeleted route (answer c))
  /\ (result (Networks.Delete_routes s st) = Returned None ->
      forall route,
        In route routeList -> ofNetwork route = true ->
        In (routeDeleted route None) (journal (Networks.Delete_routes s st))).
Proof.
  intros Hlist. unfold Networks.Delete_routes, Networks.routes_List_.
  rewrite (journal_bind_invoke _ _ _ _ _ _ _ _ _ _ Hlist),
    (result_bind_invoke _ _ _ _ _ _ _ _ _ _ Hlist).
  split.
  - intros c [<-|Hin] Hv; [discriminate|].
    pose proof (emits_forEach_In
                  (fun route c => ofNetwork route = true
                                  /\ exists e, c = routeDeleted route e)
                  (Networks.Delete_route s) routeList
                  (fun route _ => Delete_route_sound route)) as H.
    destruct (emits_In _ _ _ _ H Hin) as (route & Hroute & Hm & e & ->).
    exists route. auto.
  - intros Hres route Hin Hm. right.
    apply Delete_route_loop_complete; assumption.
Qed.

(** X6.  [Delete] matches a route by the last bytes of its network
    reference only: a listed route is deleted whenever its network
    reference is any text followed by the name of the cluster's network,
    so also a route of another network whose name ends with that name. *)
Theorem Delete_route_by_suffix (st : State W) (route : Route.t) (before : string) :
  Route.Network route = before +:+ Networks.NetworkName sc ->
  exists e, journal (Networks.Delete_route s route st) = [routeDeleted route e].
Proof.
  intros Hnet. unfold Networks.Delete_route, Networks.routes_Delete_.
  rewrite Hnet, HasSuffix_append. unfold invoke, journal.
  destruct (Networks.routes_Delete _ _ _) as [e w]. exists e. reflexivity.
Qed.

End NetworksDeleteRoutes.

Lemma Delete_routes_precise_witness :
  let tag := Sample.ClusterTagKey "my-cluster" in
  let st := mkState (Sample.world tag tag) Sample.recorded in
  In (mkCall RoutesAPI DoDelete (GlobalKey "my-cluster-node-1") NoPayload None)
    (journal (Networks.Delete_routes (Fake.networksService (Sample.scope false)) st)).
Proof.
  intros tag st.
  assert (Hres : result (Networks.Delete_routes
                           (Fake.networksService (Sample.scope false)) st)
                 = Returned None) by (vm_compute; reflexivity).
  destruct (Delete_routes_precise (Fake.networksService (Sample.scope false)) st
              (List.filter
                 (fun r => String.eqb (Route.Description r) Networks.k8sNodeRouteTag)
                 (map_to_list (Fake.routesT (provider st))).*2)
              (provider st) eq_refl) as [_ Hcomplete].
  apply (Hcomplete Hres Sample.route).
  - vm_compute. left. reflexivity.
  - vm_compute. reflexivity.
Defined.

Lemma Delete_route_by_suffix_witness :
  let s := Fake.networksService (Sample.scope false) in
  let stray :=
    Route.mk "other-node-1" "projects/p/global/networks/not-my-network" "k8s-node-route" in
  exists e,
    journal (Networks.Delete_route s stray (mkState Fake.emptyWorld Fake.emptyCluster))
    = [mkCall RoutesAPI DoDelete (GlobalKey "other-node-1") NoPayload e].
Proof.
  intros s stray.
  apply (Delete_route_by_suffix s (mkState Fake.emptyWorld Fake.emptyCluster) stray
           "projects/p/global/networks/not-").
  reflexivity.
Defined.

(** ** [Delete] of package [networks], twice *)

Section FakeNetworksDelete.
Variable ClusterTagKey : string -> string.
Variable sc : Networks.Scope.

Local Abbreviation s := (Fake.networksService sc).
Local Abbreviation nk := (GlobalKey (Networks.NetworkName sc)).
Local Abbreviation tag := (ClusterTagKey (Networks.Name sc)).
Local Abbreviation Delete := (Networks.Delete ClusterTagKey s).
Local Abbreviation keepsNetworks m :=
  (forall st, Fake.networksT (provider (final (m st))) = Fake.networksT (provider st)).

Lemma keepsNetworks_ret {A} (a : A) : keepsNetworks (@ret Fake.World A a).
Proof. reflexivity. Qed.

Lemma keepsNetworks_invoke {A} cl v k p (err : A -> option error)
    (f : Fake.World -> A * Fake.World) :
  (forall w, Fake.networksT (f w).2 = Fake.networksT w) ->
  keepsNetworks (invoke cl v k p err f).
Proof.
  intros Hf st. unfold invoke, final. specialize (Hf (provider st)).
  destruct (f (provider st)) as [a w]. exact Hf.
Qed.

Lemma keepsNetworks_bind {A B} (m : M Fake.World A) (k : A -> M Fake.World B) :
  keepsNetworks m -> (forall a, keepsNetworks (k a)) -> keepsNetworks (bind m k).
Proof.
  intros Hm Hk st. rewrite final_bind. specialize (Hm st).
  destruct (result (m st)) as [a|]; [rewrite Hk|]; exact Hm.
Qed.

Lemma keepsNetworks_forEach {A} (body : A -> M Fake.World (option error)) l :
  (forall x, keepsNetworks (body x)) -> keepsNetworks (forEach body l).
Proof.
  intros Hb. induction l as [|x l IH]; [reflexivity|].
  simpl. unfold orReturn. apply keepsNetworks_bind; [apply Hb|].
  intros [e|]; [reflexivity | exact IH].
Qed.

Lemma Delete_router_keepsNetworks :
  keepsNetworks (Networks.Delete_router ClusterTagKey s).
Proof.
  unfold Networks.Delete_router, Networks.routers_Get, Networks.routers_Delete.
  apply keepsNetworks_bind.
  { apply keepsNetworks_invoke. intros w. simpl. unfold Fake.tableGet.
    destruct (_ !! _); reflexivity. }
  intros [router|err]; [|destruct (negb _); reflexivity].
  destruct (String.eqb _ _); [|reflexivity].
  apply keepsNetworks_bind.
  { apply keepsNetworks_invoke. intros w. simpl. unfold Fake.tableDelete.
    destruct (_ !! _); reflexivity. }
  intros e. destruct (_ && _); reflexivity.
Qed.

Lemma Delete_subnetworks_keepsNetworks network :
  keepsNetworks (Networks.Delete_subnetworks s network).
Proof.
  unfold Networks.Delete_subnetworks.
  destruct (negb _); [|reflexivity].
  apply keepsNetworks_forEach. intros subnet.
  unfold Networks.Delete_subnetwork, Networks.subnetworks_Get,
    Networks.subnetworks_Delete.
  apply keepsNetworks_bind.
  { apply keepsNetworks_invoke. intros w. simpl. unfold Fake.tableGet.
    destruct (_ !! _); reflexivity. }
  intros [subnetwork|err]; [|destruct (negb _); reflexivity].
  apply keepsNetworks_invoke. intros w. simpl. unfold Fake.tableDelete.
  destruct (_ !! _); reflexivity.
Qed.

Lemma Delete_routes_keepsNetworks : keepsNetworks (Networks.Delete_routes s).
Proof.
  unfold Networks.Delete_routes, Networks.routes_List_.
  apply keepsNetworks_bind.
  { apply keepsNetworks_invoke. intros w. reflexivity. }
  intros [routeList|err]; [|reflexivity].
  apply keepsNetworks_forEach. intros route.
  unfold Networks.Delete_route, Networks.routes_Delete_.
  destruct (GoStrings.HasSuffix _ _); [|reflexivity].
  apply keepsNetworks_invoke. intros w. simpl. unfold Fake.tableDelete.
  destruct (_ !! _); reflexivity.
Qed.

(** A step that keeps the networks, followed by [k]: when the whole
    returns nil, [k] was run, on the same networks. *)
Lemma orReturn_through (m k : M Fake.World (option error)) (st : State Fake.World)
    (Q : State Fake.World -> Prop) :
  keepsNetworks m ->
  (forall st',
      Fake.networksT (provider st') = Fake.networksT (provider st) ->
      result (k st') = Returned None -> Q (final (k st'))) ->
  result (orReturn m k st) = Returned None ->
  Q (final (orReturn m k st)).
Proof.
  intros Hm Hk Hres.
  destruct (orReturn_cases m k st)
    as [(err & _ & Hr & _) | [(_ & Hr & _) | (_ & Hr & Hf & _)]];
    rewrite Hr in Hres; try discriminate.
  rewrite Hf. apply Hk; [apply Hm | exact Hres].
Qed.

(** The end of an owned network: once the network is deleted, the
    provider has no network under that name. *)
Lemma Delete_network_fake (st : State Fake.World) :
  result (orReturn (Networks.networks_Delete s nk)
            (bind (assign (set_Router None))
               (fun _ => bind (assign (set_SelfLink None)) (fun _ => ret None))) st)
  = Returned None ->
  Fake.networksT
    (provider
       (final (orReturn (Networks.networks_Delete s nk)
                 (bind (assign (set_Router None))
                    (fun _ => bind (assign (set_SelfLink None)) (fun _ => ret None))) st)))
  !! nk = None.
Proof.
  destruct st as [w c].
  unfold orReturn, bind, Networks.networks_Delete, invoke, assign, ret, result, final.
  cbn [provider cluster Networks.networks Fake.networksService
       Networks.client_Delete Fake.synchronous].
  unfold Fake.tableDelete.
  destruct (Fake.networksT w !! nk) as [n|] eqn:Hn; simpl; [|discriminate].
  intros _. apply lookup_delete_eq.
Qed.

Lemma Delete_absent_fake (st : State Fake.World) :
  Networks.IsSharedVpc sc = false ->
  Fake.networksT (provider st) !! nk = None ->
  Delete st = (Returned None, st, [mkCall NetworksAPI DoGet nk NoPayload (Some Fake.notFound)]).
Proof.
  intros Hshared Hn. destruct st as [w c]. unfold Networks.Delete.
  cbn [Networks.scope Fake.networksService]. rewrite Hshared.
  unfold bind, Networks.networks_Get, invoke, ret.
  cbn [provider cluster Networks.networks Fake.networksService
       Networks.client_Get Fake.synchronous].
  unfold Fake.tableGet. cbn [provider] in Hn. rewrite Hn. reflexivity.
Qed.

Lemma Delete_foreign_fake (st : State Fake.World) n :
  Networks.IsSharedVpc sc = false ->
  Fake.networksT (provider st) !! nk = Some n ->
  String.eqb (Network.Description n) tag = false ->
  Delete st = (Returned None, st, [mkCall NetworksAPI DoGet nk NoPayload None]).
Proof.
  intros Hshared Hn Htag. destruct st as [w c]. unfold Networks.Delete.
  cbn [Networks.scope Fake.networksService]. rewrite Hshared.
  unfold bind, Networks.networks_Get, invoke, ret.
  cbn [provider cluster Networks.networks Fake.networksService
       Networks.client_Get Fake.synchronous Networks.scope].
  unfold Fake.tableGet. cbn [provider] in Hn. rewrite Hn.
  cbn [errorOf]. rewrite Htag. reflexivity.
Qed.

Lemma Delete_own_fake (st : State Fake.World) n :
  Networks.IsSharedVpc sc = false ->
  Fake.networksT (provider st) !! nk = Some n ->
  String.eqb (Network.Description n) tag = true ->
  result (Delete st) = Returned None ->
  Fake.networksT (provider (final (Delete st))) !! nk = None.
Proof.
  intros Hshared Hn Htag. unfold Networks.Delete.
  cbn [Networks.scope Fake.networksService]. rewrite Hshared.
  unfold Networks.networks_Get at 1 2.
  assert (Hget : Networks.client_Get (Networks.networks s) nk (provider st)
                 = (inl n, provider st)).
  { simpl. unfold Fake.tableGet. rewrite Hn. reflexivity. }
  rewrite (result_bind_invoke _ _ _ _ _ _ _ _ _ _ Hget),
    (final_bind_invoke _ _ _ _ _ _ _ _ _ _ Hget).
  cbn [Networks.scope Fake.networksService]. rewrite Htag. cbn [negb].
  intros Hres.
  apply (orReturn_through _ _ _ (fun st' => Fake.networksT (provider st') !! nk = None));
    [apply Delete_router_keepsNetworks | clear Hres | exact Hres].
  intros st1 _ Hres.
  apply (orReturn_through _ _ _ (fun st' => Fake.networksT (provider st') !! nk = None));
    [apply Delete_subnetworks_keepsNetworks | clear Hres | exact Hres].
  intros st2 _ Hres.
  apply (orReturn_through _ _ _ (fun st' => Fake.networksT (provider st') !! nk = None));
    [apply Delete_routes_keepsNetworks | clear Hres | exact Hres].
  intros st3 _. apply Delete_network_fake.
Qed.

(** X7.  Over the in-memory provider, a [Delete] that returned nil has
    nothing left to do: no network of the cluster is left under the name
    of the network, and a second [Delete] right after it returns nil,
    makes no mutating call and leaves the provider and the cluster object
    as the first one left them. *)
Theorem Delete_settles_fake (st : State Fake.World) :
  result (Delete st) = Returned None ->
  settled_after Delete st
  /\ (Networks.IsSharedVpc sc = false ->
      match Fake.networksT (provider (final (Delete st))) !! nk with
      | Some n => String.eqb (Network.Description n) tag = false
      | None => True
      end).
Proof.
  intros Hres.
  destruct (Networks.IsSharedVpc sc) eqn:Hshared.
  { split; [|discriminate].
    unfold settled_after, Networks.Delete. cbn [Networks.scope Fake.networksService].
    rewrite Hshared. unfold bind, assign, ret, result, final, journal. simpl.
    repeat split; constructor. }
  destruct (Fake.networksT (provider st) !! nk) as [n|] eqn:Hn.
  - destruct (String.eqb (Network.Description n) tag) eqn:Htag.
    + pose proof (Delete_own_fake st n Hshared Hn Htag Hres) as Hgone.
      split; [|intros _; rewrite Hgone; exact I].
      unfold settled_after.
      rewrite (Delete_absent_fake (final (Delete st)) Hshared Hgone).
      unfold result at 1, final at 1, journal at 1. simpl.
      split; [symmetry; exact Hres|]. split; [reflexivity | repeat constructor].
    + pose proof (Delete_foreign_fake st n Hshared Hn Htag) as Hrun.
      split.
      * unfold settled_after. rewrite Hrun.
        change (final (Returned None, st,
                       [mkCall NetworksAPI DoGet nk NoPayload None])) with st.
        rewrite Hrun. repeat split; repeat constructor.
      * intros _. rewrite Hrun.
        change (final (Returned None, st,
                       [mkCall NetworksAPI DoGet nk NoPayload None])) with st.
        rewrite Hn. exact Htag.
  - pose proof (Delete_absent_fake st Hshared Hn) as Hrun.
    split.
    + unfold settled_after. rewrite Hrun.
      change (final (Returned None, st,
                     [mkCall NetworksAPI DoGet nk NoPayload (Some Fake.notFound)])) with st.
      rewrite Hrun. repeat split; repeat constructor.
    + intros _. rewrite Hrun.
      change (final (Returned None, st,
                     [mkCall NetworksAPI DoGet nk NoPayload (Some Fake.notFound)])) with st.
      rewrite Hn. exact I.
Qed.

End FakeNetworksDelete.

Lemma Delete_settles_fake_witness :
  let tag := Sample.ClusterTagKey "my-cluster" in
  let st := mkState (Sample.world tag tag) Sample.recorded in
  let Delete := Networks.Delete Sample.ClusterTagKey (Fake.networksService (Sample.scope false)) in
  List.filter mutating (journal (Delete st)) <> []
  /\ settled_after Delete st.
Proof.
  intros tag st Delete. split; [vm_compute; discriminate|].
  assert (Hres : result (Delete st) = Returned None) by (vm_compute; reflexivity).
  exact (proj1 (Delete_settles_fake Sample.ClusterTagKey (Sample.scope false) st Hres)).
Defined.

(** ** The older service: nil dereferences *)

Lemma result_prepend {W A} j0 (run : Result A * State W * list Call) :
  result (prepend j0 run) = result run.
Proof. reflexivity. Qed.

Lemma final_prepend {W A} j0 (run : Result A * State W * list Call) :
  final (prepend j0 run) = final run.
Proof. reflexivity. Qed.

Lemma journal_prepend {W A} j0 (run : Result A * State W * list Call) :
  journal (prepend j0 run) = j0 ++ journal run.
Proof. reflexivity. Qed.

Section Returns.
Context {W : Type}.

Lemma returns_ret {A} (a : A) : returns (@ret W A a).
Proof. intros st. discriminate. Qed.

Lemma returns_readCluster : returns (@readCluster W).
Proof. intros st. discriminate. Qed.

Lemma returns_assign f : returns (@assign W f).
Proof. intros st. discriminate. Qed.

Lemma returns_invoke {A} cl v k p err (f : W -> A * W) : returns (invoke cl v k p err f).
Proof. intros st. unfold invoke, result. destruct (f (provider st)). discriminate. Qed.

Lemma returns_bind {A B} (m : M W A) (k : A -> M W B) :
  returns m -> (forall a, returns (k a)) -> returns (bind m k).
Proof.
  intros Hm Hk st. rewrite result_bind. specialize (Hm st).
  destruct (result (m st)) as [a|]; [apply Hk | contradiction].
Qed.

Lemma returns_orReturn (m k : M W (option error)) :
  returns m -> returns k -> returns (orReturn m k).
Proof.
  intros Hm Hk. apply returns_bind; [exact Hm|].
  intros [e|]; [apply returns_ret | exact Hk].
Qed.

Lemma returns_forEach {A} (body : A -> M W (option error)) l :
  (forall x, In x l -> returns (body x)) -> returns (forEach body l).
Proof.
  induction l as [|x l IH]; intros Hb; [apply returns_ret|].
  simpl. apply returns_orReturn; [apply Hb; left; reflexivity|].
  apply IH. intros y Hy. apply Hb. right. exact Hy.
Qed.

End Returns.

Ltac returns_rules :=
  repeat first
    [ apply returns_ret | apply returns_readCluster | apply returns_assign
    | apply returns_invoke | apply returns_bind | apply returns_orReturn
    | progress intros
    | match goal with
      | |- returns (match ?x with _ => _ end) => destruct x
      | |- returns (if ?x then _ else _) => destruct x
      end ].

Section LookupFailure.
Context {W : Type}.
Variable ClusterTagKey : string -> string.
Variable cs : Compute.Service W.

Local Abbreviation networkKey st :=
  (GlobalKey (Compute.NetworkName (Compute.scope cs) (cluster st))).
Local Abbreviation lookedUp st err :=
  (mkCall NetworksAPI DoGet (networkKey st) NoPayload (Some err)).

(** X8.  [DeleteNetwork] asks only whether the lookup of the network was
    answered with NotFound: when it was answered with any other error, the
    network is nil and [DeleteNetwork] panics on its description, right
    after that one call. *)
Theorem DeleteNetwork_lookup_failure (st : State W) (err : error) (w1 : W) :
  Compute.api_Get (Compute.networks cs) (networkKey st) (provider st) = (inr err, w1) ->
  gcperrors.IsNotFound (Some err) = false ->
  Compute.DeleteNetwork ClusterTagKey cs st
  = (Panicked, mkState w1 (cluster st), [lookedUp st err]).
Proof.
  intros Hget Hnf. unfold Compute.DeleteNetwork.
  rewrite bind_readCluster_eq. unfold Compute.networks_Get.
  rewrite (bind_invoke_eq _ _ _ _ _ _ _ _ _ _ Hget).
  cbn [errorOf]. rewrite Hnf. reflexivity.
Qed.

(** X9.  [ReconcileBastion] and [DeleteBastion] test the lookup of the
    network for NotFound only: a lookup that fails with any other error
    leaves the network nil, and both panic on its description, right
    after that one call. *)
Theorem Bastion_lookup_failure (st : State W) (err : error) (w1 : W) :
  Compute.api_Get (Compute.networks cs) (networkKey st) (provider st) = (inr err, w1) ->
  gcperrors.IsNotFound (Some err) = false ->
  Compute.ReconcileBastion ClusterTagKey cs st
  = (Panicked, mkState w1 (cluster st), [lookedUp st err])
  /\ Compute.DeleteBastion ClusterTagKey cs st
     = (Panicked, mkState w1 (cluster st), [lookedUp st err]).
Proof.
  intros Hget Hnf. unfold Compute.ReconcileBastion, Compute.DeleteBastion.
  rewrite !bind_readCluster_eq. unfold Compute.networks_Get.
  rewrite !(bind_invoke_eq _ _ _ _ _ _ _ _ _ _ Hget).
  cbn [errorOf]. rewrite Hnf. split; reflexivity.
Qed.

Local Abbreviation region := (Compute.Region (Compute.scope cs)).
Local Abbreviation subnetKey x := (RegionalKey (Compute.subnet_Name x) region).

Lemma createSubnetwork_run (x : Compute.SubnetSpec) (st : State W) r w1 :
  Compute.api_Get (Compute.subnetworks cs) (subnetKey x) (provider st) = (r, w1) ->
  (gcperrors.IsNotFound (errorOf r) = true
   /\ Compute.subnet_EnableFlowLogs x = None
   /\ Compute.createSubnetwork cs x st
      = (Panicked, mkState w1 (cluster st),
         [mkCall SubnetworksAPI DoGet (subnetKey x) NoPayload (errorOf r)]))
  \/ ((gcperrors.IsNotFound (errorOf r) = false
       \/ Compute.subnet_EnableFlowLogs x <> None)
      /\ result (Compute.createSubnetwork cs x st) <> Panicked).
Proof.
  intros Hget. unfold Compute.createSubnetwork, Compute.subnetworks_Get.
  rewrite (bind_invoke_eq _ _ _ _ _ _ _ _ _ _ Hget), result_prepend.
  destruct (gcperrors.IsNotFound (errorOf r)) eqn:Hnf;
    [|right; split; [left; reflexivity | discriminate]].
  rewrite bind_readCluster_eq.
  unfold Compute.getSubnetworkSpec.
  destruct (Compute.subnet_EnableFlowLogs x) as [flowLogs|];
    [|left; split; [reflexivity|]; split; reflexivity].
  right. split; [right; discriminate|].
  match goal with |- result (?m _) <> Panicked => enough (returns m) by auto end.
  unfold Compute.subnetworks_Insert, Compute.wait_ForComputeOperation,
    Compute.subnetworks_Get.
  returns_rules.
Qed.

(** X10.  [createSubnetworks] dereferences [EnableFlowLogs] of a declared
    subnetwork only when it has to create it.  Its step for a subnetwork
    panics exactly when the lookup is answered with NotFound and
    [EnableFlowLogs] is nil, and then nothing was inserted; so with every
    [EnableFlowLogs] set, [createSubnetworks] does not panic, whatever the
    provider answers. *)
Theorem createSubnetworks_panics (st : State W) :
  (forall x,
      result (Compute.createSubnetwork cs x st) = Panicked
      <-> Compute.subnet_EnableFlowLogs x = None
          /\ gcperrors.IsNotFound
               (errorOf (Compute.api_Get (Compute.subnetworks cs) (subnetKey x)
                           (provider st)).1) = true)
  /\ (forall x,
        result (Compute.createSubnetwork cs x st) = Panicked ->
        List.filter mutating (journal (Compute.createSubnetwork cs x st)) = [])
  /\ (Forall (fun x => Compute.subnet_EnableFlowLogs x <> None)
        (Compute.Subnets (Compute.scope cs)) ->
      result (Compute.createSubnetworks cs st) <> Panicked).
Proof.
  split; [|split].
  - intros x.
    destruct (Compute.api_Get (Compute.subnetworks cs) (subnetKey x) (provider st))
      as [r w1] eqn:Hget.
    destruct (createSubnetwork_run x st r w1 Hget)
      as [(Hnf & Hflow & Hrun) | ([Hnf | Hflow] & Hres)]; simpl.
    + rewrite Hrun. split; auto.
    + split; [contradiction|]. intros [_ H]. congruence.
    + split; [contradiction|]. intros [H _]. contradiction.
  - intros x Hres.
    destruct (Compute.api_Get (Compute.subnetworks cs) (subnetKey x) (provider st))
      as [r w1] eqn:Hget.
    destruct (createSubnetwork_run x st r w1 Hget)
      as [(Hnf & Hflow & Hrun) | (_ & Hno)]; [|contradiction].
    rewrite Hrun. reflexivity.
  - unfold Compute.createSubnetworks.
    generalize (Compute.Subnets (Compute.scope cs)). intros l Hall. revert st.
    induction Hall as [|x l Hx _ IH]; intros st; [discriminate|].
    simpl.
    destruct (orReturn_cases (Compute.createSubnetwork cs x)
                (forEach (Compute.createSubnetwork cs) l) st)
      as [(err & _ & -> & _) | [(Hr & _) | (_ & -> & _)]];
      [discriminate | | apply IH].
    exfalso.
    destruct (Compute.api_Get (Compute.subnetworks cs) (subnetKey x) (provider st))
      as [r w1] eqn:Hget.
    destruct (createSubnetwork_run x st r w1 Hget)
      as [(_ & Hflow & _) | (_ & Hno)]; contradiction.
Qed.

End LookupFailure.

Lemma DeleteNetwork_lookup_failure_witness :
  result (Compute.DeleteNetwork Sample.ClusterTagKey Sample.unavailable
            (mkState Fake.emptyWorld Sample.recorded))
  = Panicked.
Proof.
  rewrite (DeleteNetwork_lookup_failure Sample.ClusterTagKey Sample.unavailable
             (mkState Fake.emptyWorld Sample.recorded) Sample.backendError Fake.emptyWorld);
    reflexivity.
Defined.

Lemma Bastion_lookup_failure_witness :
  result (Compute.ReconcileBastion Sample.ClusterTagKey Sample.unavailable
            (mkState Fake.emptyWorld Sample.recorded))
  = Panicked
  /\ result (Compute.DeleteBastion Sample.ClusterTagKey Sample.unavailable
               (mkState Fake.emptyWorld Sample.recorded))
     = Panicked.
Proof.
  destruct (Bastion_lookup_failure Sample.ClusterTagKey Sample.unavailable
              (mkState Fake.emptyWorld Sample.recorded) Sample.backendError Fake.emptyWorld)
    as [-> ->]; [reflexivity | reflexivity |].
  split; reflexivity.
Defined.

Lemma createSubnetworks_panics_witness :
  result (Compute.createSubnetworks (Fake.computeService Sample.computeScope)
            (mkState Fake.emptyWorld Fake.emptyCluster))
  <> Panicked
  /\ result (Compute.createSubnetworks (Fake.computeService Sample.bareSubnetScope)
               (mkState Fake.emptyWorld Fake.emptyCluster))
     = Panicked.
Proof.
  split; [|vm_compute; reflexivity].
  apply (createSubnetworks_panics (Fake.computeService Sample.computeScope)
           (mkState Fake.emptyWorld Fake.emptyCluster)).
  repeat constructor. discriminate.
Defined.

(** ** The older service: the subnetworks a network lists *)

Ltac step_invoke a w H :=
  match goal with
  | |- context [bind (invoke ?cl ?v ?k ?p ?err ?f) ?g ?st] =>
      destruct (f (provider st)) as [a w] eqn:H;
      rewrite (bind_invoke_eq cl v k p err f g st a w H)
  end.

Section SubnetNames.

Lemma ContainsByte_cons (a : ascii) (rest : string) (c : ascii) :
  GoStrings.ContainsByte (String a rest) c = false ->
  Ascii.eqb a c = false /\ GoStrings.ContainsByte rest c = false.
Proof.
  unfold GoStrings.ContainsByte. simpl.
  destruct (Ascii.eqb a c); [discriminate|].
  destruct (GoStrings.IndexByte rest c); [discriminate | auto].
Qed.

Lemma SplitByte_plain (name : string) (sep : ascii) :
  GoStrings.ContainsByte name sep = false -> GoStrings.SplitByte name sep = [name].
Proof.
  induction name as [|a rest IH]; intros H; [reflexivity|].
  apply ContainsByte_cons in H. destruct H as [Ha Hrest].
  simpl. rewrite Ha, (IH Hrest). reflexivity.
Qed.

Lemma SplitByte_after (before name : string) (sep : ascii) :
  GoStrings.ContainsByte name sep = false ->
  exists w ws,
    GoStrings.SplitByte (before +:+ String sep name) sep = w :: ws ++ [name].
Proof.
  intros Hname. unfold String.app.
  induction before as [|a rest (w & ws & IH)]; simpl.
  - rewrite Ascii.eqb_refl, (SplitByte_plain _ _ Hname). exists "", []. reflexivity.
  - rewrite IH. destruct (Ascii.eqb a sep).
    + exists "", (w :: ws). reflexivity.
    + exists (String a w), ws. reflexivity.
Qed.

Lemma getSubnetNameFromUrl_after (before name : string) :
  GoStrings.ContainsByte name "/" = false ->
  Compute.getSubnetNameFromUrl (before +:+ String "/" name) = name.
Proof.
  intros Hname. unfold Compute.getSubnetNameFromUrl.
  destruct (SplitByte_after before name "/" Hname) as (w & ws & ->).
  cbv zeta. cbn [length Nat.ltb Nat.leb].
  change (w :: ws ++ [name]) with ((w :: ws) ++ [name]).
  apply last_last.
Qed.

(** X11.  [getSubnetNameFromUrl] gives the text after the last slash: the
    name at the end of a subnetwork URL, a name without slash as it is, and
    the empty string for a URL that ends with a slash. *)
Theorem getSubnetNameFromUrl_last_segment (before name : string) :
  GoStrings.ContainsByte name "/" = false ->
  Compute.getSubnetNameFromUrl (before +:+ "/" +:+ name) = name
  /\ Compute.getSubnetNameFromUrl name = name
  /\ Compute.getSubnetNameFromUrl (before +:+ "/") = "".
Proof.
  intros Hname. split; [|split].
  - apply (getSubnetNameFromUrl_after before name Hname).
  - unfold Compute.getSubnetNameFromUrl. rewrite (SplitByte_plain _ _ Hname). reflexivity.
  - apply (getSubnetNameFromUrl_after before ""). reflexivity.
Qed.

End SubnetNames.

Lemma getSubnetNameFromUrl_last_segment_witness :
  Compute.getSubnetNameFromUrl
    "https://www.googleapis.com/compute/v1/projects/project1/regions/us-central1/subnetworks/subnetwork1"
  = "subnetwork1".
Proof.
  apply (getSubnetNameFromUrl_last_segment
           "https://www.googleapis.com/compute/v1/projects/project1/regions/us-central1/subnetworks"
           "subnetwork1").
  reflexivity.
Defined.

Section LegacySubnetworks.
Context {W : Type}.
Variable cs : Compute.Service W.

Local Abbreviation region := (Compute.Region (Compute.scope cs)).
Local Abbreviation nameOf u := (Compute.getSubnetNameFromUrl u).
Local Abbreviation subnetDeleted u e :=
  (mkCall SubnetworksAPI DoDelete (RegionalKey (nameOf u) region) NoPayload e).

Lemma forEach_error {A} (body : A -> M W (option error)) l st e :
  result (forEach body l st) = Returned (Some e) ->
  exists x st', In x l /\ result (body x st') = Returned (Some e).
Proof.
  revert st. induction l as [|x l IH]; intros st; [discriminate|].
  simpl.
  destruct (orReturn_cases (body x) (forEach body l) st)
    as [(err & Hr & -> & _) | [(_ & -> & _) | (_ & -> & _)]].
  - intros [= ->]. exists x, st. split; [left; reflexivity | exact Hr].
  - discriminate.
  - intros H. destruct (IH _ H) as (y & st' & Hy & Hres).
    exists y, st'. split; [right; exact Hy | exact Hres].
Qed.

Lemma deleteSubnetwork_emits u :
  emits (fun c => verb c = DoWait
                  \/ (nameOf u <> "" /\ exists e, c = subnetDeleted u e))
    (Compute.deleteSubnetwork cs u).
Proof.
  unfold Compute.deleteSubnetwork. cbv zeta.
  destruct (String.eqb (nameOf u) "") eqn:Hname; [apply emits_ret|].
  apply String.eqb_neq in Hname. cbn [negb].
  unfold Compute.subnetworks_Delete, Compute.wait_ForComputeOperation.
  apply emits_bind.
  { apply emits_invoke. intros e. right. split; [exact Hname | exists e; reflexivity]. }
  intros [op|err]; [|apply emits_ret].
  apply emits_bind; [|intros; apply emits_ret].
  apply emits_invoke. intros e. left. reflexivity.
Qed.

Lemma deleteSubnetwork_error u st e :
  result (Compute.deleteSubnetwork cs u st) = Returned (Some e) ->
  exists cause,
    e = Wrapf cause ("failed to delete subnetwork " +:+ u)
    \/ e = Wrapf cause ("failed to wait delete subnetwork " +:+ u).
Proof.
  unfold Compute.deleteSubnetwork. cbv zeta.
  destruct (negb _); [|discriminate].
  unfold Compute.subnetworks_Delete, Compute.wait_ForComputeOperation.
  step_invoke r w1 Hdel. rewrite result_prepend.
  destruct r as [op|err].
  - step_invoke x w2 Hwait. rewrite result_prepend.
    destruct x as [cause|]; [|discriminate].
    intros [= <-]. exists cause. right. reflexivity.
  - intros [= <-]. exists err. left. reflexivity.
Qed.

Lemma deleteSubnetwork_returns u : returns (Compute.deleteSubnetwork cs u).
Proof.
  unfold Compute.deleteSubnetwork, Compute.subnetworks_Delete,
    Compute.wait_ForComputeOperation. cbv zeta.
  returns_rules.
Qed.

(** X12.  [deleteSubnetworks] goes by the names at the ends of the URLs
    and by the region of the cluster: besides waiting, it only asks to
    delete, in that region, the subnetwork named by the text after the last
    slash of one of the URLs, and it skips a URL that names nothing.  It
    does not panic, and an error it returns is wrapped with the URL it
    failed on. *)
Theorem deleteSubnetworks_calls (urls : list string) (st : State W) :
  (forall c,
      In c (journal (Compute.deleteSubnetworks cs urls st)) ->
      verb c = DoWait
      \/ exists u,
          In u urls /\ nameOf u <> "" /\ c = subnetDeleted u (answer c))
  /\ (forall before,
        journal (Compute.deleteSubnetwork cs (before +:+ "/") st) = [])
  /\ result (Compute.deleteSubnetworks cs urls st) <> Panicked
  /\ (forall e,
        result (Compute.deleteSubnetworks cs urls st) = Returned (Some e) ->
        exists u cause,
          In u urls
          /\ (e = Wrapf cause ("failed to delete subnetwork " +:+ u)
              \/ e = Wrapf cause ("failed to wait delete subnetwork " +:+ u))).
Proof.
  split; [|split; [|split]].
  - intros c Hin. unfold Compute.deleteSubnetworks in Hin.
    pose proof (emits_forEach_In
                  (fun u c => verb c = DoWait
                              \/ (nameOf u <> "" /\ exists e, c = subnetDeleted u e))
                  (Compute.deleteSubnetwork cs) urls
                  (fun u _ => deleteSubnetwork_emits u)) as H.
    destruct (emits_In _ _ _ _ H Hin) as (u & Hu & [Hwait | (Hname & e & ->)]).
    + left. exact Hwait.
    + right. exists u. auto.
  - intros before. unfold Compute.deleteSubnetwork. cbv zeta.
    rewrite (getSubnetNameFromUrl_after before "" eq_refl). reflexivity.
  - apply returns_forEach. intros u _. apply deleteSubnetwork_returns.
  - intros e He. unfold Compute.deleteSubnetworks in He.
    destruct (forEach_error _ _ _ _ He) as (u & st' & Hu & Hres).
    destruct (deleteSubnetwork_error u st' e Hres) as [cause Hcause].
    exists u, cause. auto.
Qed.

End LegacySubnetworks.

Lemma deleteSubnetworks_calls_witness :
  let cs := Fake.computeService Sample.computeScope in
  let urls :=
    ["https://www.googleapis.com/compute/v1/projects/p/regions/europe-west1/subnetworks/my-subnet"] in
  let st := mkState (Sample.world "" "") Sample.recorded in
  exists u,
    In u urls
    /\ mkCall SubnetworksAPI DoDelete (RegionalKey "my-subnet" "us-east1") NoPayload None
       = mkCall SubnetworksAPI DoDelete
           (RegionalKey (Compute.getSubnetNameFromUrl u) "us-east1") NoPayload None.
Proof.
  intros cs urls st.
  destruct (deleteSubnetworks_calls cs urls st) as [Hcalls _].
  destruct (Hcalls (mkCall SubnetworksAPI DoDelete (RegionalKey "my-subnet" "us-east1")
                      NoPayload None))
    as [Hwait | (u & Hu & _ & Hc)].
  - vm_compute. left. reflexivity.
  - discriminate Hwait.
  - exists u. split; [exact Hu | exact Hc].
Defined.

(** ** The older service: errors are wrapped *)

Section Wrapped.
Context {W : Type}.

Lemma wraps_nil : wraps (@ret W _ None).
Proof. intros st e. discriminate. Qed.

Lemma wraps_Wrapf cause message : wraps (@ret W _ (Some (Wrapf cause message))).
Proof. intros st e [= <-]. eauto. Qed.

Lemma wraps_wrapf x message : wraps (@ret W _ (Compute.wrapf x message)).
Proof. destruct x; [apply wraps_Wrapf | apply wraps_nil]. Qed.

Lemma wraps_panic : wraps (@panic W _).
Proof. intros st e. discriminate. Qed.

Lemma wraps_bind {A} (m : M W A) (k : A -> M W (option error)) :
  (forall a, wraps (k a)) -> wraps (bind m k).
Proof.
  intros Hk st e. rewrite result_bind.
  destruct (result (m st)) as [a|]; [apply Hk | discriminate].
Qed.

Lemma wraps_orReturn (m k : M W (option error)) :
  wraps m -> wraps k -> wraps (orReturn m k).
Proof.
  intros Hm Hk st e.
  destruct (orReturn_cases m k st)
    as [(err & Hr & -> & _) | [(_ & -> & _) | (_ & -> & _)]].
  - intros [= <-]. exact (Hm st err Hr).
  - discriminate.
  - apply Hk.
Qed.

Lemma wraps_forEach {A} (body : A -> M W (option error)) l :
  (forall x, wraps (body x)) -> wraps (forEach body l).
Proof.
  intros Hb. induction l as [|x l IH]; [apply wraps_nil|].
  simpl. apply wraps_orReturn; [apply Hb | exact IH].
Qed.

Variable ClusterTagKey : string -> string.
Variable APIServerRoleTagValue : string.
Variable rangeKeys : gmap string string -> list string.
Variable parseAuthority : string -> option error.
Variable cs : Compute.Service W.

Ltac wraps_rules :=
  repeat first
    [ apply wraps_nil | apply wraps_Wrapf | apply wraps_wrapf | apply wraps_panic
    | apply wraps_orReturn | apply wraps_forEach | apply wraps_bind
    | progress intros
    | match goal with
      | |- wraps (match ?x with _ => _ end) => destruct x
      | |- wraps (if ?x then _ else _) => destruct x
      end ].

Lemma createCloudNat_wraps network : wraps (Compute.createCloudNat cs network).
Proof.
  unfold Compute.createCloudNat, Compute.createCloudNat_nat. cbv zeta. wraps_rules.
Qed.

Lemma createSubnetworks_wraps : wraps (Compute.createSubnetworks cs).
Proof.
  unfold Compute.createSubnetworks, Compute.createSubnetwork. wraps_rules.
Qed.

Lemma ReconcileNetwork_wraps : wraps (Compute.ReconcileNetwork ClusterTagKey cs).
Proof.
  unfold Compute.ReconcileNetwork. cbv zeta.
  apply wraps_bind. intros c. apply wraps_bind. intros r.
  assert (Htail : forall network auto,
             wraps (Compute.ReconcileNetwork_network cs network auto)).
  { intros network auto. unfold Compute.ReconcileNetwork_network.
    apply wraps_orReturn.
    - destruct auto; [|apply wraps_nil].
      apply wraps_bind. intros x. apply wraps_wrapf.
    - do 3 (apply wraps_bind; intros _).
      destruct (negb _); [apply createSubnetworks_wraps | apply wraps_nil]. }
  destruct (gcperrors.IsNotFound _).
  - apply wraps_bind. intros [op|err]; [|apply wraps_Wrapf].
    apply wraps_bind. intros [err|]; [apply wraps_Wrapf|].
    apply wraps_bind. intros [network|err]; [apply Htail | apply wraps_Wrapf].
  - destruct r as [network|err]; [apply Htail | apply wraps_Wrapf].
Qed.

Lemma DeleteNetwork_wraps : wraps (Compute.DeleteNetwork ClusterTagKey cs).
Proof.
  unfold Compute.DeleteNetwork, Compute.DeleteNetwork_router,
    Compute.DeleteNetwork_routes, Compute.DeleteNetwork_route,
    Compute.deleteSubnetworks, Compute.deleteSubnetwork. cbv zeta.
  wraps_rules.
Qed.

Lemma ReconcileFirewalls_wraps :
  wraps (Compute.ReconcileFirewalls APIServerRoleTagValue cs).
Proof.
  unfold Compute.ReconcileFirewalls, Compute.ReconcileFirewall, Compute.storeFirewall.
  wraps_rules.
Qed.

Lemma DeleteFirewalls_wraps :
  wraps (Compute.DeleteFirewalls rangeKeys cs parseAuthority).
Proof.
  unfold Compute.DeleteFirewalls, Compute.DeleteFirewalls_recorded,
    Compute.DeleteFirewalls_sweep, Compute.DeleteFirewalls_rule,
    Compute.DeleteFirewalls_tag. cbv zeta.
  wraps_rules.
Qed.

(** X13.  The older service wraps every error it returns: an error that
    [ReconcileNetwork], [createCloudNat], [DeleteNetwork],
    [ReconcileFirewalls] or [DeleteFirewalls] returns is an error wrapped by
    [errors.Wrapf] with the message of the step that failed, whatever the
    provider answered; none of them hands an error of the provider on as
    it is. *)
Theorem legacy_errors_wrapped :
  wraps (Compute.ReconcileNetwork ClusterTagKey cs)
  /\ (forall network, wraps (Compute.createCloudNat cs network))
  /\ wraps (Compute.DeleteNetwork ClusterTagKey cs)
  /\ wraps (Compute.ReconcileFirewalls APIServerRoleTagValue cs)
  /\ wraps (Compute.DeleteFirewalls rangeKeys cs parseAuthority).
Proof.
  split; [apply ReconcileNetwork_wraps|].
  split; [apply createCloudNat_wraps|].
  split; [apply DeleteNetwork_wraps|].
  split; [apply ReconcileFirewalls_wraps|].
  apply DeleteFirewalls_wraps.
Qed.

End Wrapped.

Lemma legacy_errors_wrapped_witness :
  let tag := Sample.ClusterTagKey "my-cluster" in
  let cs := Fake.computeService Sample.computeScope in
  let st := mkState (Sample.legacyWorld tag tag [Sample.subnetUrl "gone"]) Sample.recorded in
  exists cause message,
    Wrapf Fake.notFound ("failed to delete subnetwork " +:+ Sample.subnetUrl "gone")
    = Wrapf cause message.
Proof.
  intros tag cs st.
  destruct (legacy_errors_wrapped Sample.ClusterTagKey "apiserver"
              (fun m => (map_to_list m).*1) Sample.parseAuthority cs)
    as (_ & _ & Hdelete & _).
  apply (Hdelete st). vm_compute. reflexivity.
Defined.

(** ** The older service: what [ReconcileNetwork] and [DeleteNetwork] record *)

Section LegacyStatus.
Context {W : Type}.
Variable ClusterTagKey : string -> string.
Variable cs : Compute.Service W.

Local Abbreviation networkKey st :=
  (GlobalKey (Compute.NetworkName (Compute.scope cs) (cluster st))).
Local Abbreviation assigned n c :=
  (set_SelfLink (Some (Network.SelfLink n))
     (set_Spec_Network_AutoCreateSubnetworks (Some (Network.AutoCreateSubnetworks n))
        (set_Spec_Network_Name (Some (Network.Name n)) c))).
Local Abbreviation found st :=
  (mkCall NetworksAPI DoGet (networkKey st) NoPayload None).
Local Abbreviation ReconcileNetwork := (Compute.ReconcileNetwork ClusterTagKey cs).

Lemma getNetworkSpec_named c :
  Network.Name (Compute.getNetworkSpec ClusterTagKey cs c)
  = Compute.NetworkName (Compute.scope cs) c.
Proof.
  unfold Compute.getNetworkSpec.
  destruct (Spec_Network_AutoCreateSubnetworks c); reflexivity.
Qed.

Lemma createSubnetworks_emits :
  emits (fun c => client c = SubnetworksAPI \/ verb c = DoWait)
    (Compute.createSubnetworks cs).
Proof.
  unfold Compute.createSubnetworks, Compute.createSubnetwork,
    Compute.subnetworks_Get, Compute.subnetworks_Insert,
    Compute.wait_ForComputeOperation. cbv zeta.
  apply emits_forEach. intros x.
  apply emits_bind; [apply emits_invoke; intros; left; reflexivity|].
  intros r. destruct (gcperrors.IsNotFound _); [|apply emits_ret].
  apply emits_bind; [apply emits_readCluster|]. intros c.
  destruct (Compute.getSubnetworkSpec _ _ _); [|apply emits_panic].
  apply emits_bind; [apply emits_invoke; intros; left; reflexivity|].
  intros [op|err]; [|apply emits_ret].
  apply emits_bind; [apply emits_invoke; intros; right; reflexivity|].
  intros [err|]; [apply emits_ret|].
  apply emits_bind; [apply emits_invoke; intros; left; reflexivity|].
  intros; apply emits_ret.
Qed.

Lemma createSubnetworks_keeps : preserves (Compute.createSubnetworks cs).
Proof.
  unfold Compute.createSubnetworks, Compute.createSubnetwork,
    Compute.subnetworks_Get, Compute.subnetworks_Insert,
    Compute.wait_ForComputeOperation. cbv zeta.
  journal_rules; destruct (gcperrors.IsNotFound _); journal_rules.
Qed.

(** The tail of [ReconcileNetwork] for a network that was found: no NAT
    router; the assignments, then the subnetworks. *)
Lemma ReconcileNetwork_network_adopted (network : Network.t) (st : State W) :
  Compute.ReconcileNetwork_network cs network false st
  = (if negb (Network.AutoCreateSubnetworks network)
     then Compute.createSubnetworks cs else ret None)
      (mkState (provider st) (assigned network (cluster st))).
Proof.
  unfold Compute.ReconcileNetwork_network, orReturn.
  unfold bind at 1 2 3 4, assign, ret. simpl.
  destruct (negb _); [|reflexivity].
  destruct (Compute.createSubnetworks cs _) as [[r s2] j2]. reflexivity.
Qed.

(** X14.  A network that is already there is adopted as it is: when the
    lookup finds the network, [ReconcileNetwork] inserts no network and
    asks nothing of the routers client, so no NAT router is made for it;
    it records the name, the mode and the self-link of the network it
    found, and its further calls are those for the declared subnetworks,
    none when the network is in auto mode. *)
Theorem ReconcileNetwork_existing_network
    (st : State W) (network : Network.t) (w1 : W) :
  Compute.api_Get (Compute.networks cs) (networkKey st) (provider st) = (inl network, w1) ->
  (exists j,
      journal (ReconcileNetwork st) = found st :: j
      /\ Forall (fun c => client c = SubnetworksAPI \/ verb c = DoWait) j)
  /\ cluster (final (ReconcileNetwork st)) = assigned network (cluster st)
  /\ (Network.AutoCreateSubnetworks network = true ->
      ReconcileNetwork st
      = (Returned None, mkState w1 (assigned network (cluster st)), [found st])).
Proof.
  intros Hget.
  assert (Hrun : ReconcileNetwork st
                 = prepend [found st]
                     ((if negb (Network.AutoCreateSubnetworks network)
                       then Compute.createSubnetworks cs else ret None)
                        (mkState w1 (assigned network (cluster st))))).
  { unfold Compute.ReconcileNetwork. rewrite bind_readCluster_eq. cbv zeta.
    rewrite getNetworkSpec_named. unfold Compute.networks_Get.
    rewrite (bind_invoke_eq _ _ _ _ _ _ _ _ _ _ Hget).
    cbn [errorOf]. unfold gcperrors.IsNotFound.
    rewrite ReconcileNetwork_network_adopted. reflexivity. }
  rewrite Hrun. split; [|split].
  - eexists. split; [reflexivity|].
    destruct (negb _); [apply createSubnetworks_emits | constructor].
  - rewrite final_prepend.
    destruct (negb _); [apply createSubnetworks_keeps | reflexivity].
  - intros ->. reflexivity.
Qed.

Local Abbreviation recordsRouter m :=
  (forall st : State W,
      result (m st) <> Panicked
      /\ (result (m st) = @Returned (option error) None ->
          exists link, cluster (final (m st)) = set_Router (Some link) (cluster st))
      /\ (result (m st) <> @Returned (option error) None ->
          cluster (final (m st)) = cluster st)).

Lemma recordsRouter_error e : recordsRouter (@ret W _ (Some e)).
Proof. intros st. split; [discriminate|]. split; [discriminate | reflexivity]. Qed.

Lemma recordsRouter_invoke {A} cl v k p (err : A -> option error) (f : W -> A * W)
    (g : A -> M W (option error)) :
  (forall a, recordsRouter (g a)) -> recordsRouter (bind (invoke cl v k p err f) g).
Proof.
  intros Hg st. destruct (f (provider st)) as [a w] eqn:Hf.
  rewrite (bind_invoke_eq _ _ _ _ _ _ _ _ _ _ Hf), result_prepend, final_prepend.
  apply (Hg a (mkState w (cluster st))).
Qed.

Lemma recordsRouter_read (g : GCPCluster -> M W (option error)) :
  (forall c, recordsRouter (g c)) -> recordsRouter (bind readCluster g).
Proof. intros Hg st. rewrite bind_readCluster_eq. apply Hg. Qed.

Lemma recordsRouter_then (m : M W (option error)) link :
  preserves m -> returns m ->
  recordsRouter
    (orReturn m (bind (assign (set_Router (Some link))) (fun _ => ret None))).
Proof.
  intros Hkeep Hret st. specialize (Hkeep st). specialize (Hret st).
  destruct (orReturn_cases m
              (bind (assign (set_Router (Some link))) (fun _ => ret None)) st)
    as [(err & _ & -> & -> & _) | [(Hr & _) | (_ & -> & -> & _)]];
    [| contradiction |].
  - split; [discriminate|]. split; [discriminate | intros _; exact Hkeep].
  - split; [discriminate|]. split; [|intros H; contradiction H; reflexivity].
    intros _. exists link. simpl. rewrite Hkeep. reflexivity.
Qed.

Lemma createCloudNat_nat_records router :
  recordsRouter (Compute.createCloudNat_nat cs router).
Proof.
  unfold Compute.createCloudNat_nat. apply recordsRouter_read. intros c.
  apply recordsRouter_then.
  - unfold Compute.routers_Patch, Compute.wait_ForComputeOperation.
    destruct (Router.Nats router); journal_rules.
  - unfold Compute.routers_Patch, Compute.wait_ForComputeOperation.
    destruct (Router.Nats router); returns_rules.
Qed.

(** X15.  [createCloudNat] records the router when it succeeds and only
    then: whatever the provider answers it does not panic; when it returns
    nil the self-link of a router is recorded in the status; when it
    returns an error the cluster object is as it was. *)
Theorem createCloudNat_status (network : Network.t) (st : State W) :
  result (Compute.createCloudNat cs network st) <> Panicked
  /\ (result (Compute.createCloudNat cs network st) = Returned None ->
      exists link,
        cluster (final (Compute.createCloudNat cs network st))
        = set_Router (Some link) (cluster st))
  /\ (result (Compute.createCloudNat cs network st) <> Returned None ->
      cluster (final (Compute.createCloudNat cs network st)) = cluster st).
Proof.
  revert st. unfold Compute.createCloudNat. cbv zeta.
  apply recordsRouter_read. intros c.
  unfold Compute.routers_Get at 1. apply recordsRouter_invoke. intros r.
  destruct (gcperrors.IsNotFound (errorOf r)).
  - unfold Compute.routers_Insert. cbv zeta. apply recordsRouter_invoke.
    intros [op|err]; [|apply recordsRouter_error].
    unfold Compute.wait_ForComputeOperation. apply recordsRouter_invoke.
    intros [err|]; [apply recordsRouter_error|].
    unfold Compute.routers_Get. apply recordsRouter_invoke.
    intros [router|err]; [apply createCloudNat_nat_records | apply recordsRouter_error].
  - destruct r as [router|err];
      [apply createCloudNat_nat_records | apply recordsRouter_error].
Qed.

Local Abbreviation networkDeleted c :=
  (client c = NetworksAPI /\ verb c = DoDelete
   /\ (answer c = None \/ gcperrors.IsNotFound (answer c) = true)).
Local Abbreviation untouched_or_unnamed k st :=
  (cluster (final (k st)) = cluster st
   \/ (cluster (final (k st)) = set_Spec_Network_Name None (cluster st)
       /\ result (k st) = @Returned (option error) None
       /\ exists c, In c (journal (k st)) /\ networkDeleted c)).

Lemma orReturn_unnamed (m k : M W (option error)) :
  preserves m ->
  (forall st, untouched_or_unnamed k st) ->
  forall st, untouched_or_unnamed (orReturn m k) st.
Proof.
  intros Hm Hk st. specialize (Hm st).
  destruct (orReturn_cases m k st)
    as [(err & _ & _ & -> & _) | [(_ & _ & -> & _) | (_ & -> & -> & ->)]];
    [left; exact Hm | left; exact Hm |].
  destruct (Hk (final (m st))) as [H | (H & Hres & c & Hin & Hc)].
  - left. congruence.
  - right. split; [congruence|]. split; [exact Hres|].
    exists c. split; [apply in_or_app; right; exact Hin | exact Hc].
Qed.

Lemma checkOrWaitForDeleteOp_keeps r : preserves (Compute.checkOrWaitForDeleteOp cs r).
Proof.
  unfold Compute.checkOrWaitForDeleteOp, Compute.wait_ForComputeOperation.
  destruct r; [|destruct (gcperrors.IsNotFound _)]; journal_rules.
Qed.

Lemma DeleteNetwork_router_keeps : preserves (Compute.DeleteNetwork_router cs).
Proof.
  unfold Compute.DeleteNetwork_router, Compute.routers_Get, Compute.routers_Delete.
  journal_rules; try apply checkOrWaitForDeleteOp_keeps;
    try (destruct (negb _)); journal_rules.
Qed.

Lemma DeleteNetwork_routes_keeps network :
  preserves (Compute.DeleteNetwork_routes cs network).
Proof.
  unfold Compute.DeleteNetwork_routes, Compute.DeleteNetwork_route,
    Compute.routes_List, Compute.routes_Delete. cbv zeta.
  apply preserves_bind; [apply preserves_invoke|].
  intros [routeList|err]; [|apply preserves_ret].
  apply preserves_forEach. intros route.
  destruct (GoStrings.HasSuffix _ _); [|apply preserves_ret].
  apply preserves_bind; [apply preserves_invoke|]. intros r0.
  apply preserves_bind; [apply checkOrWaitForDeleteOp_keeps | intros; apply preserves_ret].
Qed.

Lemma deleteSubnetworks_keeps urls : preserves (Compute.deleteSubnetworks cs urls).
Proof.
  unfold Compute.deleteSubnetworks, Compute.deleteSubnetwork,
    Compute.subnetworks_Delete, Compute.wait_ForComputeOperation. cbv zeta.
  apply preserves_forEach. intros u.
  destruct (negb _); [|apply preserves_ret].
  apply preserves_bind; [apply preserves_invoke|].
  intros [op|err]; [|apply preserves_ret].
  apply preserves_bind; [apply preserves_invoke | intros; apply preserves_ret].
Qed.

Lemma DeleteNetwork_network_unnamed (network : Network.t) (st : State W) :
  untouched_or_unnamed
    (orReturn
       (bind (Compute.networks_Delete cs (GlobalKey (Network.Name network)))
          (fun r => bind (Compute.checkOrWaitForDeleteOp cs r)
                      (fun opErr => ret (Compute.wrapf opErr "failed to delete network"))))
       (bind (assign (set_Spec_Network_Name None)) (fun _ => ret None))) st.
Proof.
  set (m := bind (Compute.networks_Delete cs (GlobalKey (Network.Name network))) _).
  set (k := bind (assign (set_Spec_Network_Name None)) _).
  assert (Hkeep : preserves m).
  { subst m. unfold Compute.networks_Delete.
    apply preserves_bind; [apply preserves_invoke|]. intros r.
    apply preserves_bind; [apply checkOrWaitForDeleteOp_keeps | intros; apply preserves_ret]. }
  specialize (Hkeep st).
  destruct (orReturn_cases m k st)
    as [(err & _ & _ & -> & _) | [(_ & _ & -> & _) | (Hr & -> & -> & ->)]];
    [left; exact Hkeep | left; exact Hkeep |].
  right. split; [subst k; simpl; rewrite Hkeep; reflexivity|].
  split; [reflexivity|].
  destruct (Compute.api_Delete (Compute.networks cs) (GlobalKey (Network.Name network))
              (provider st)) as [r w1] eqn:Hdel.
  subst m. unfold Compute.networks_Delete in *.
  rewrite (bind_invoke_eq _ _ _ _ _ _ _ _ _ _ Hdel) in *.
  rewrite result_prepend in Hr. rewrite journal_prepend.
  eexists. split; [apply in_or_app; left; left; reflexivity|].
  split; [reflexivity|]. split; [reflexivity|]. simpl.
  rewrite result_bind in Hr. revert Hr.
  unfold Compute.checkOrWaitForDeleteOp. destruct r as [op|err]; [left; reflexivity|].
  simpl. destruct (gcperrors.IsNotFound (Some err)); [right; reflexivity | discriminate].
Qed.

(** X16.  [DeleteNetwork] clears the declared name of the network, and
    nothing else, once the network is deleted: whatever the provider
    answers, the cluster object is left as it was, or [DeleteNetwork]
    returned nil after a deletion of the network that was answered with
    nil or NotFound, and the declared name is nil.  The recorded self-link
    and router stay as they were in either case. *)
Theorem DeleteNetwork_status (st : State W) :
  (cluster (final (Compute.DeleteNetwork ClusterTagKey cs st)) = cluster st
   \/ (cluster (final (Compute.DeleteNetwork ClusterTagKey cs st))
       = set_Spec_Network_Name None (cluster st)
       /\ result (Compute.DeleteNetwork ClusterTagKey cs st) = Returned None
       /\ exists c,
           In c (journal (Compute.DeleteNetwork ClusterTagKey cs st))
           /\ networkDeleted c))
  /\ Status_Network_SelfLink (cluster (final (Compute.DeleteNetwork ClusterTagKey cs st)))
     = Status_Network_SelfLink (cluster st)
  /\ Status_Network_Router (cluster (final (Compute.DeleteNetwork ClusterTagKey cs st)))
     = Status_Network_Router (cluster st).
Proof.
  assert (H : untouched_or_unnamed (Compute.DeleteNetwork ClusterTagKey cs) st).
  { unfold Compute.DeleteNetwork. rewrite bind_readCluster_eq.
    unfold Compute.networks_Get.
    destruct (Compute.api_Get (Compute.networks cs) (networkKey st) (provider st))
      as [r w1] eqn:Hget.
    rewrite (bind_invoke_eq _ _ _ _ _ _ _ _ _ _ Hget).
    rewrite final_prepend, result_prepend, journal_prepend.
    destruct (gcperrors.IsNotFound (errorOf r)); [left; reflexivity|].
    destruct r as [network|err]; [|left; reflexivity].
    destruct (negb _); [left; reflexivity|].
    pose proof (orReturn_unnamed (Compute.DeleteNetwork_router cs) _
                  DeleteNetwork_router_keeps
                  (orReturn_unnamed (Compute.DeleteNetwork_routes cs network) _
                     (DeleteNetwork_routes_keeps network)
                     (orReturn_unnamed
                        (if negb (Network.AutoCreateSubnetworks network)
                         then Compute.deleteSubnetworks cs (Network.Subnetworks network)
                         else ret None) _
                        (fun st' =>
                           match negb (Network.AutoCreateSubnetworks network) as b
                             return cluster (final ((if b
                                     then Compute.deleteSubnetworks cs
                                            (Network.Subnetworks network)
                                     else ret None) st')) = cluster st'
                           with
                           | true => deleteSubnetworks_keeps _ st'
                           | false => eq_refl
                           end)
                        (DeleteNetwork_network_unnamed network)))
                  (mkState w1 (cluster st))) as Hchain.
    cbn [cluster] in Hchain.
    destruct Hchain as [H | (H & Hres & c & Hin & Hc)]; [left; exact H|].
    right. split; [exact H|]. split; [exact Hres|].
    exists c. split; [right; exact Hin | exact Hc]. }
  split; [exact H|].
  destruct H as [-> | (-> & _)]; split; reflexivity.
Qed.

End LegacyStatus.

Lemma ReconcileNetwork_existing_network_witness :
  let cs := Fake.computeService Sample.computeScope in
  let st := mkState (Sample.world "host project network" "") Sample.recorded in
  cluster (final (Compute.ReconcileNetwork Sample.ClusterTagKey cs st))
  = mkCluster (Some "my-network") (Some false)
      (Some "projects/p/global/networks/my-network")
      (Some "projects/p/regions/us-east1/routers/my-network-router") ∅ None None.
Proof.
  intros cs st.
  destruct (ReconcileNetwork_existing_network Sample.ClusterTagKey cs st
              (Sample.network "host project network" false) (provider st))
    as (_ & -> & _).
  - reflexivity.
  - reflexivity.
Defined.

(** ** [DeleteFirewalls]: the recorded rules and the sweep *)

Section FirewallsTeardown.
Context {W : Type}.
Variable rangeKeys : gmap string string -> list string.
Variable parseAuthority : string -> option error.
Variable cs : Compute.Service W.

Local Abbreviation DeleteFirewalls := (Compute.DeleteFirewalls rangeKeys cs parseAuthority).
Local Abbreviation sweep := (Compute.DeleteFirewalls_sweep cs parseAuthority).
Local Abbreviation rule :=
  (Compute.DeleteFirewalls_rule cs parseAuthority (Compute.Name (Compute.scope cs))).
Local Abbreviation rulesOf st := (Status_Network_FirewallRules (cluster st)).
Local Abbreviation without names rules :=
  (foldl (fun (m : gmap string string) name => delete name m) rules names).
Local Abbreviation ruleDeleted name c :=
  (client c = FirewallsAPI /\ verb c = DoDelete /\ key c = GlobalKey name
   /\ (answer c = None \/ gcperrors.IsNotFound (answer c) = true)).

Lemma lookup_without (names : list string) (rules : gmap string string) (k : string) :
  (In k names -> without names rules !! k = None)
  /\ (~ In k names -> without names rules !! k = rules !! k).
Proof.
  revert rules. induction names as [|x l IH]; intros rules; simpl.
  - split; [intros [] | reflexivity].
  - destruct (IH (delete x rules)) as [Hin Hout]. split.
    + intros [->|Hk]; [|exact (Hin Hk)].
      destruct (in_dec string_dec k l) as [Hk|Hk]; [exact (Hin Hk)|].
      rewrite (Hout Hk). apply lookup_delete_eq.
    + intros Hk. rewrite Hout by tauto.
      apply lookup_delete_ne. intros ->. apply Hk. left. reflexivity.
Qed.

Lemma checkOrWaitForDeleteOp_nil r (st : State W) :
  result (Compute.checkOrWaitForDeleteOp cs r st) = Returned None ->
  errorOf r = None \/ gcperrors.IsNotFound (errorOf r) = true.
Proof.
  unfold Compute.checkOrWaitForDeleteOp. destruct r as [op|err]; [left; reflexivity|].
  simpl. destruct (gcperrors.IsNotFound (Some err)); [right; reflexivity | discriminate].
Qed.

Lemma checkOrWaitForDeleteOp_untouched r :
  preserves (Compute.checkOrWaitForDeleteOp cs r).
Proof.
  unfold Compute.checkOrWaitForDeleteOp, Compute.wait_ForComputeOperation.
  destruct r; [|destruct (gcperrors.IsNotFound _)]; journal_rules.
Qed.

(** One recorded rule: it is dropped from the status when its deletion was
    answered with nil or NotFound and the wait succeeded, and kept
    otherwise. *)
Lemma DeleteFirewalls_recorded_step (name : string) (st : State W) :
  (result (Compute.DeleteFirewalls_recorded cs name st) = Returned None
   /\ cluster (final (Compute.DeleteFirewalls_recorded cs name st))
      = set_FirewallRules (delete name (rulesOf st)) (cluster st)
   /\ exists c,
       In c (journal (Compute.DeleteFirewalls_recorded cs name st))
       /\ ruleDeleted name c)
  \/ (result (Compute.DeleteFirewalls_recorded cs name st) <> Returned None
      /\ cluster (final (Compute.DeleteFirewalls_recorded cs name st)) = cluster st).
Proof.
  unfold Compute.DeleteFirewalls_recorded, Compute.firewalls_Delete.
  destruct (Compute.api_Delete (Compute.firewalls cs) (GlobalKey name) (provider st))
    as [r w1] eqn:Hdel.
  rewrite (bind_invoke_eq _ _ _ _ _ _ _ _ _ _ Hdel).
  rewrite result_prepend, final_prepend, journal_prepend.
  rewrite result_bind, final_bind.
  pose proof (checkOrWaitForDeleteOp_untouched r (mkState w1 (cluster st))) as Hkeep.
  pose proof (checkOrWaitForDeleteOp_nil r (mkState w1 (cluster st))) as Hnil.
  destruct (result (Compute.checkOrWaitForDeleteOp cs r (mkState w1 (cluster st))))
    as [[err|]|].
  - right. split; [discriminate | exact Hkeep].
  - left. split; [reflexivity|]. split; [simpl; rewrite Hkeep; reflexivity|].
    eexists. split; [left; reflexivity|]. simpl. auto.
  - right. split; [discriminate | exact Hkeep].
Qed.

(** The loop over the recorded rules: the names it got through are dropped
    from the status, one deletion each, and the others are kept. *)
Lemma DeleteFirewalls_recorded_loop (names : list string) (st : State W) :
  exists done rest,
    names = done ++ rest
    /\ cluster (final (forEach (Compute.DeleteFirewalls_recorded cs) names st))
       = set_FirewallRules (without done (rulesOf st)) (cluster st)
    /\ (result (forEach (Compute.DeleteFirewalls_recorded cs) names st) = Returned None ->
        rest = [])
    /\ (forall name,
          In name done ->
          exists c,
            In c (journal (forEach (Compute.DeleteFirewalls_recorded cs) names st))
            /\ ruleDeleted name c).
Proof.
  revert st. induction names as [|x l IH]; intros st.
  { exists [], []. simpl. repeat split; auto.
    - destruct st as [w []]. reflexivity.
    - intros name []. }
  simpl.
  destruct (DeleteFirewalls_recorded_step x st)
    as [(Hres & Hcl & c & Hc & Hdel) | (Hres & Hcl)];
    destruct (orReturn_cases (Compute.DeleteFirewalls_recorded cs x)
                (forEach (Compute.DeleteFirewalls_recorded cs) l) st)
      as [(err & Hr & -> & -> & ->) | [(Hr & -> & -> & ->) | (Hr & -> & -> & ->)]];
    try congruence.
  - destruct (IH (final (Compute.DeleteFirewalls_recorded cs x st)))
      as (done & rest & -> & Hfinal & Hnil & Hcalls).
    exists (x :: done), rest. split; [reflexivity|]. split; [|split].
    + rewrite Hfinal, Hcl. simpl. destruct (cluster st). reflexivity.
    + exact Hnil.
    + intros name [<-|Hname].
      * exists c. split; [apply in_or_app; left; exact Hc | exact Hdel].
      * destruct (Hcalls name Hname) as (d & Hd & Hdd).
        exists d. split; [apply in_or_app; right; exact Hd | exact Hdd].
  - exists [], (x :: l). split; [reflexivity|]. split; [|split].
    + rewrite Hcl. simpl. destruct (cluster st). reflexivity.
    + discriminate.
    + intros name [].
  - exists [], (x :: l). split; [reflexivity|]. split; [|split].
    + rewrite Hcl. simpl. destruct (cluster st). reflexivity.
    + discriminate.
    + intros name [].
Qed.

Lemma DeleteFirewalls_rule_untouched firewall : preserves (rule firewall).
Proof.
  unfold Compute.DeleteFirewalls_rule, Compute.DeleteFirewalls_tag,
    Compute.firewalls_Delete.
  destruct (Compute.getFirewallNetworkName _ _); [|apply preserves_ret].
  apply preserves_bind; [apply preserves_readCluster|]. intros c.
  destruct (String.eqb _ _); [|apply preserves_ret].
  apply preserves_forEach. intros tt.
  destruct (String.eqb _ _); [|apply preserves_ret].
  apply preserves_bind; [apply preserves_invoke|]. intros r.
  apply preserves_bind; [apply checkOrWaitForDeleteOp_untouched|].
  intros; apply preserves_ret.
Qed.

(** X17.  What [DeleteFirewalls] leaves of the recorded rules, whatever
    the provider answers.  It only drops entries of the status, and every
    entry it drops was asked to be deleted, with an answer of nil or
    NotFound; nothing else of the cluster object changes.  When the order
    of the range goes through every recorded name and [DeleteFirewalls]
    returns nil, no rule is left recorded. *)
Theorem DeleteFirewalls_recorded_rules (st : State W) :
  cluster (final (DeleteFirewalls st))
  = set_FirewallRules (rulesOf (final (DeleteFirewalls st))) (cluster st)
  /\ rulesOf (final (DeleteFirewalls st)) ⊆ rulesOf st
  /\ (forall name,
        is_Some (rulesOf st !! name) ->
        rulesOf (final (DeleteFirewalls st)) !! name = None ->
        exists c, In c (journal (DeleteFirewalls st)) /\ ruleDeleted name c)
  /\ ((forall name, is_Some (rulesOf st !! name) -> In name (rangeKeys (rulesOf st))) ->
      result (DeleteFirewalls st) = Returned None ->
      rulesOf (final (DeleteFirewalls st)) = ∅).
Proof.
  unfold Compute.DeleteFirewalls. rewrite bind_readCluster_eq.
  set (names := rangeKeys (rulesOf st)).
  set (loop := forEach (Compute.DeleteFirewalls_recorded cs) names).
  set (k := bind (Compute.firewalls_List cs) _).
  assert (Hk : preserves k).
  { subst k. unfold Compute.firewalls_List, Compute.DeleteFirewalls_sweep.
    apply preserves_bind; [apply preserves_invoke|].
    intros [firewallRules|err]; [|apply preserves_ret].
    apply preserves_forEach. intros firewall. apply DeleteFirewalls_rule_untouched. }
  destruct (DeleteFirewalls_recorded_loop names st)
    as (done & rest & Hnames & Hfinal & Hnil & Hcalls). fold loop in Hfinal, Hnil, Hcalls.
  assert (Hcl : cluster (final (orReturn loop k st))
                = set_FirewallRules (without done (rulesOf st)) (cluster st)
                /\ (result (orReturn loop k st) = Returned None -> rest = [])
                /\ (forall c, In c (journal (loop st)) ->
                              In c (journal (orReturn loop k st)))).
  { destruct (orReturn_cases loop k st)
      as [(err & Hr & -> & -> & ->) | [(Hr & -> & -> & ->) | (Hr & -> & -> & ->)]].
    - split; [exact Hfinal|]. split; [discriminate | auto].
    - split; [exact Hfinal|]. split; [discriminate | auto].
    - split; [rewrite Hk; exact Hfinal|]. split; [intros _; apply Hnil, Hr|].
      intros c Hc. apply in_or_app. left. exact Hc. }
  destruct Hcl as (Hcluster & Hrest & Hjournal).
  assert (Hrules : rulesOf (final (orReturn loop k st)) = without done (rulesOf st)).
  { rewrite Hcluster. destruct (cluster st). reflexivity. }
  split; [|split; [|split]].
  - rewrite Hrules. exact Hcluster.
  - rewrite Hrules. apply map_subseteq_spec. intros name v Hv.
    destruct (in_dec string_dec name done) as [Hin|Hout].
    + rewrite (proj1 (lookup_without done _ name) Hin) in Hv. discriminate.
    + rewrite (proj2 (lookup_without done _ name) Hout) in Hv. exact Hv.
  - intros name [v Hv] Hgone. rewrite Hrules in Hgone.
    destruct (in_dec string_dec name done) as [Hin|Hout].
    + destruct (Hcalls name Hin) as (c & Hc & Hdel). exists c. auto.
    + rewrite (proj2 (lookup_without done _ name) Hout) in Hgone. congruence.
  - intros Hall Hres. rewrite Hrules. apply map_eq. intros name.
    rewrite lookup_empty.
    specialize (Hrest Hres). subst rest. rewrite app_nil_r in Hnames.
    destruct (rulesOf st !! name) as [v|] eqn:Hv.
    + apply (proj1 (lookup_without done _ name)). rewrite <- Hnames.
      apply Hall. rewrite Hv. eexists; reflexivity.
    + destruct (in_dec string_dec name done) as [Hin|Hout].
      * apply (proj1 (lookup_without done _ name) Hin).
      * rewrite (proj2 (lookup_without done _ name) Hout). exact Hv.
Qed.

(** X18.  A rule whose network reference does not parse ends the sweep,
    whether or not it belongs to the cluster: [DeleteFirewalls] makes no
    call for it nor for any rule listed after it, and returns the error
    of the parse, wrapped, unless it had failed before. *)
Theorem DeleteFirewalls_sweep_unparsable
    (before after : list Firewall.t) (firewall : Firewall.t) (err : error)
    (st : State W) :
  Compute.getFirewallNetworkName parseAuthority firewall = inr err ->
  journal (sweep (before ++ firewall :: after) st) = journal (sweep before st)
  /\ result (sweep (before ++ firewall :: after) st)
     = match result (sweep before st) with
       | Returned None =>
           Returned (Some (Wrapf err ("failed to get network name for firewall "
                                      +:+ Firewall.Name firewall)))
       | r => r
       end.
Proof.
  intros Hparse. unfold Compute.DeleteFirewalls_sweep. cbv zeta.
  revert st. induction before as [|x l IH]; intros st.
  - simpl. unfold orReturn, Compute.DeleteFirewalls_rule at 1 3.
    rewrite Hparse. split; reflexivity.
  - simpl.
    destruct (orReturn_cases (rule x) (forEach rule (l ++ firewall :: after)) st)
      as [(e & Hr & -> & _ & ->) | [(Hr & -> & _ & ->) | (Hr & -> & _ & ->)]];
      destruct (orReturn_cases (rule x) (forEach rule l) st)
        as [(e' & Hr' & -> & _ & ->) | [(Hr' & -> & _ & ->) | (Hr' & -> & _ & ->)]];
      try congruence.
    + split; [reflexivity|]. congruence.
    + split; reflexivity.
    + destruct (IH (final (rule x st))) as [-> ->]. split; reflexivity.
Qed.

End FirewallsTeardown.

Lemma rangeKeys_all (rules : gmap string string) (name : string) :
  is_Some (rules !! name) -> In name (map_to_list rules).*1.
Proof.
  intros [v Hv]. apply list_elem_of_In.
  apply list_elem_of_fmap. exists (name, v). split; [reflexivity|].
  apply elem_of_map_to_list. exact Hv.
Qed.

Lemma DeleteFirewalls_recorded_rules_witness :
  let cs := Fake.computeService Sample.computeScope in
  let st :=
    mkState Sample.firewallWorld
      (set_FirewallRules {[ "my-cluster-extra" := "link" ]} Sample.recorded) in
  Status_Network_FirewallRules
    (cluster (final (Compute.DeleteFirewalls (fun m => (map_to_list m).*1) cs
                       Sample.parseAuthority st)))
  = ∅.
Proof.
  intros cs st.
  apply (DeleteFirewalls_recorded_rules (fun m => (map_to_list m).*1)
           Sample.parseAuthority cs st).
  - intros name. apply rangeKeys_all.
  - vm_compute. reflexivity.
Defined.

Lemma DeleteFirewalls_sweep_unparsable_witness :
  let cs := Fake.computeService Sample.computeScope in
  let broken :=
    Firewall.mk "broken" "%zz" "" [] "INGRESS" [] [] ["other-cluster"] in
  let st := mkState Sample.firewallWorld Sample.recorded in
  journal (Compute.DeleteFirewalls_sweep cs Sample.parseAuthority
             ([] ++ broken :: Sample.firewallRules) st)
  = [].
Proof.
  intros cs broken st.
  apply (DeleteFirewalls_sweep_unparsable Sample.parseAuthority cs
           [] Sample.firewallRules broken
           (Wrapf (Wrapf (ErrorString "invalid URL escape") "parse")
              "failed to parse network url '%zz' for firewall broken") st).
  reflexivity.
Defined.

(** ** The bastion host *)

Section Bastion.
Context {W : Type}.
Variable ClusterTagKey : string -> string.
Variable cs : Compute.Service W.

Local Abbreviation networkKey st :=
  (GlobalKey (Compute.NetworkName (Compute.scope cs) (cluster st))).
Local Abbreviation tag := (ClusterTagKey (Compute.Name (Compute.scope cs))).
Local Abbreviation bastionKey :=
  (ZonalKey (Compute.getDefaultBastionName cs) (Compute.getDefaultBastionZone cs)).
Local Abbreviation recorded instance c :=
  (set_Bastion (Some (Instance.SelfLink instance)) (Some (Instance.Status instance)) c).
Local Abbreviation ReconcileBastion := (Compute.ReconcileBastion ClusterTagKey cs).
Local Abbreviation DeleteBastion := (Compute.DeleteBastion ClusterTagKey cs).

Lemma describeBastionInstance_keeps : preserves (Compute.describeBastionInstance cs).
Proof.
  unfold Compute.describeBastionInstance, Compute.instances_Get. cbv zeta.
  apply preserves_bind; [apply preserves_invoke|].
  intros [res|err]; [apply preserves_ret|].
  destruct (gcperrors.IsNotFound _); apply preserves_ret.
Qed.

Lemma runInstance_keeps spec : preserves (Compute.runInstance cs spec).
Proof.
  unfold Compute.runInstance, Compute.instances_Insert, Compute.instances_Get,
    Compute.wait_ForComputeOperation. cbv zeta.
  apply preserves_bind; [apply preserves_invoke|].
  intros [op|err]; [|apply preserves_ret].
  apply preserves_bind; [apply preserves_invoke|].
  intros [err|]; [apply preserves_ret | apply preserves_invoke].
Qed.

Local Abbreviation untouched_or_recorded k st :=
  (cluster (final (k st)) = cluster st
   \/ (result (k st) = @Returned (option error) None
       /\ exists instance, cluster (final (k st)) = recorded instance (cluster st))).

Lemma recordBastion_after {A} (m : M W A) (g : A -> M W (option error)) :
  preserves m ->
  (forall a st, untouched_or_recorded (g a) st) ->
  forall st, untouched_or_recorded (bind m g) st.
Proof.
  intros Hm Hg st. rewrite result_bind, final_bind. specialize (Hm st).
  destruct (result (m st)) as [a|]; [|left; exact Hm].
  destruct (Hg a (final (m st))) as [H | (Hres & instance & H)].
  - left. congruence.
  - right. split; [exact Hres|]. exists instance. congruence.
Qed.

Lemma recordBastion_read (g : GCPCluster -> M W (option error)) :
  (forall c st, untouched_or_recorded (g c) st) ->
  forall st, untouched_or_recorded (bind readCluster g) st.
Proof. intros Hg st. rewrite bind_readCluster_eq. apply Hg. Qed.

(** X19.  What [ReconcileBastion] records, whatever the provider answers:
    the cluster object is left as it was, or [ReconcileBastion] returned
    nil and the self-link and the status of an instance are recorded for
    the bastion; nothing else changes.  When the network carries the
    ownership tag and the bastion is found, it is recorded as found, after
    these two lookups and no other call. *)
Theorem ReconcileBastion_status (st : State W) :
  (cluster (final (ReconcileBastion st)) = cluster st
   \/ (result (ReconcileBastion st) = Returned None
       /\ exists instance,
           cluster (final (ReconcileBastion st)) = recorded instance (cluster st)))
  /\ (forall network w1 instance w2,
        Compute.api_Get (Compute.networks cs) (networkKey st) (provider st)
        = (inl network, w1) ->
        Network.Description network = tag ->
        Compute.api_Get (Compute.instances cs) bastionKey w1 = (inl instance, w2) ->
        ReconcileBastion st
        = (Returned None, mkState w2 (recorded instance (cluster st)),
           [mkCall NetworksAPI DoGet (networkKey st) NoPayload None;
            mkCall InstancesAPI DoGet bastionKey NoPayload None])).
Proof.
  split.
  - revert st. unfold Compute.ReconcileBastion.
    assert (Hrecord : forall instance (st : State W),
               untouched_or_recorded (Compute.recordBastion instance) st).
    { intros instance st. right. split; [reflexivity|]. exists instance. reflexivity. }
    apply recordBastion_read. intros c.
    unfold Compute.networks_Get.
    apply recordBastion_after; [apply preserves_invoke|].
    intros r st. destruct (gcperrors.IsNotFound (errorOf r)); [left; reflexivity|].
    destruct r as [network|err]; [|left; reflexivity].
    destruct (negb _); [left; reflexivity|].
    revert st. apply recordBastion_after; [apply describeBastionInstance_keeps|].
    intros r st. destruct (gcperrors.IsNotFound (errorOf r)).
    + revert st. apply recordBastion_after; [apply runInstance_keeps|].
      intros [instance|err] st; [apply Hrecord | left; reflexivity].
    + destruct r as [instance|err]; [apply Hrecord | left; reflexivity].
  - intros network w1 instance w2 Hnet Htag Hinst.
    unfold Compute.ReconcileBastion. rewrite bind_readCluster_eq.
    unfold Compute.networks_Get.
    rewrite (bind_invoke_eq _ _ _ _ _ _ _ _ _ _ Hnet).
    cbn [errorOf]. unfold gcperrors.IsNotFound at 1.
    rewrite Htag, String.eqb_refl. cbn [negb].
    unfold Compute.describeBastionInstance, Compute.instances_Get. cbv zeta.
    unfold bind at 1 2, invoke. cbn [provider cluster]. rewrite Hinst.
    reflexivity.
Qed.

Lemma DeleteBastion_keeps : preserves DeleteBastion.
Proof.
  unfold Compute.DeleteBastion, Compute.networks_Get, Compute.instances_Delete,
    Compute.wait_ForComputeOperation. cbv zeta.
  apply preserves_bind; [apply preserves_readCluster|]. intros c.
  apply preserves_bind; [apply preserves_invoke|]. intros r.
  destruct (gcperrors.IsNotFound _); [apply preserves_ret|].
  destruct r as [network|err]; [|apply preserves_panic].
  destruct (negb _); [apply preserves_ret|].
  apply preserves_bind; [apply describeBastionInstance_keeps|].
  intros [instance|err]; [|destruct (gcperrors.IsNotFound _); apply preserves_ret].
  apply preserves_bind; [apply preserves_invoke|].
  intros [op|err]; [|apply preserves_ret].
  apply preserves_bind; [apply preserves_invoke | intros; apply preserves_ret].
Qed.

Lemma DeleteBastion_emits :
  emits (fun c => mutating c = true ->
                  client c = InstancesAPI /\ verb c = DoDelete
                  /\ key_Zone (key c) = Compute.getDefaultBastionZone cs)
    DeleteBastion.
Proof.
  unfold Compute.DeleteBastion, Compute.networks_Get, Compute.instances_Delete,
    Compute.wait_ForComputeOperation, Compute.describeBastionInstance,
    Compute.instances_Get. cbv zeta.
  apply emits_bind; [apply emits_readCluster|]. intros c.
  apply emits_bind; [apply emits_invoke; intros e; discriminate|]. intros r.
  destruct (gcperrors.IsNotFound _); [apply emits_ret|].
  destruct r as [network|err]; [|apply emits_panic].
  destruct (negb _); [apply emits_ret|].
  apply emits_bind.
  { apply emits_bind; [apply emits_invoke; intros e; discriminate|].
    intros [res|err]; [apply emits_ret|].
    destruct (gcperrors.IsNotFound _); apply emits_ret. }
  intros [instance|err]; [|destruct (gcperrors.IsNotFound _); apply emits_ret].
  apply emits_bind; [apply emits_invoke; intros e _; auto|].
  intros [op|err]; [|apply emits_ret].
  apply emits_bind; [apply emits_invoke; intros e; discriminate | intros; apply emits_ret].
Qed.

(** X20.  [DeleteBastion] deletes the instance and leaves the status: its
    only mutating call is the deletion of an instance in the bastion's
    zone, and the cluster object, with the recorded bastion, is as it was
    before, whatever the provider answers.  When the network carries the
    ownership tag and the lookup of the bastion is answered with NotFound,
    [DeleteBastion] returns nil after these two lookups. *)
Theorem DeleteBastion_keeps_status (st : State W) :
  cluster (final (DeleteBastion st)) = cluster st
  /\ Forall (fun c => mutating c = true ->
                      client c = InstancesAPI /\ verb c = DoDelete
                      /\ key_Zone (key c) = Compute.getDefaultBastionZone cs)
       (journal (DeleteBastion st))
  /\ (forall network w1 err w2,
        Compute.api_Get (Compute.networks cs) (networkKey st) (provider st)
        = (inl network, w1) ->
        Network.Description network = tag ->
        Compute.api_Get (Compute.instances cs) bastionKey w1 = (inr err, w2) ->
        gcperrors.IsNotFound (Some err) = true ->
        DeleteBastion st
        = (Returned None, mkState w2 (cluster st),
           [mkCall NetworksAPI DoGet (networkKey st) NoPayload None;
            mkCall InstancesAPI DoGet bastionKey NoPayload (Some err)])).
Proof.
  split; [apply DeleteBastion_keeps|]. split; [apply DeleteBastion_emits|].
  intros network w1 err w2 Hnet Htag Hinst Hnf.
  unfold Compute.DeleteBastion. rewrite bind_readCluster_eq.
  unfold Compute.networks_Get.
  rewrite (bind_invoke_eq _ _ _ _ _ _ _ _ _ _ Hnet).
  cbn [errorOf]. unfold gcperrors.IsNotFound at 1.
  rewrite Htag, String.eqb_refl. cbn [negb].
  unfold Compute.describeBastionInstance, Compute.instances_Get. cbv zeta.
  unfold bind at 1 2, invoke. cbn [provider cluster]. rewrite Hinst.
  cbv beta iota. rewrite Hnf. unfold ret. cbv beta iota. rewrite Hnf. reflexivity.
Qed.

End Bastion.

Lemma ReconcileBastion_status_witness :
  let cs := Fake.computeService Sample.computeScope in
  let instances : gmap Key Instance.t :=
    {[ ZonalKey "my-cluster-bastion" "us-east1-a" := Sample.bastion ]} in
  let st := mkState (Sample.bastionWorld instances) Sample.recorded in
  List.map verb (journal (Compute.ReconcileBastion Sample.ClusterTagKey cs st))
  = [DoGet; DoGet]
  /\ Status_Bastion_SelfLink
       (cluster (final (Compute.ReconcileBastion Sample.ClusterTagKey cs st)))
     = Some "projects/p/zones/us-east1-a/instances/my-cluster-bastion".
Proof.
  intros cs instances st.
  destruct (ReconcileBastion_status Sample.ClusterTagKey cs st) as [_ Hfound].
  rewrite (Hfound (Sample.network (Sample.ClusterTagKey "my-cluster") true)
             (provider st) Sample.bastion (provider st));
    [split; reflexivity | reflexivity | reflexivity | reflexivity].
Defined.

Lemma DeleteBastion_keeps_status_witness :
  let cs := Fake.computeService Sample.computeScope in
  let st := mkState (Sample.bastionWorld ∅) Sample.recorded in
  result (Compute.DeleteBastion Sample.ClusterTagKey cs st) = Returned None.
Proof.
  intros cs st.
  destruct (DeleteBastion_keeps_status Sample.ClusterTagKey cs st) as (_ & _ & Habsent).
  rewrite (Habsent (Sample.network (Sample.ClusterTagKey "my-cluster") true)
             (provider st) Fake.notFound (provider st));
    reflexivity.
Defined.

(** ** [ReconcileFirewalls]: what is recorded *)

Section FirewallRecords.

Local Abbreviation ins := (fun (m : gmap string string) (p : string * string) => <[p.1 := p.2]> m).

Lemma foldl_insert_other (ps : list (string * string)) (m : gmap string string) k :
  ~ In k ps.*1 -> foldl ins m ps !! k = m !! k.
Proof.
  revert m. induction ps as [|p ps IH]; intros m Hk; [reflexivity|].
  simpl. rewrite IH by (intros H; apply Hk; right; exact H).
  apply lookup_insert_ne. intros Heq. apply Hk. left. exact Heq.
Qed.

Lemma foldl_insert_functional (ps : list (string * string)) (m : gmap string string) k v :
  In (k, v) ps ->
  (forall v', In (k, v') ps -> v' = v) ->
  foldl ins m ps !! k = Some v.
Proof.
  revert m. induction ps as [|p ps IH]; intros m Hin Hfun; [destruct Hin|].
  simpl. destruct (in_dec string_dec k ps.*1) as [Hk|Hk].
  - apply IH; [|intros v' Hv'; apply Hfun; right; exact Hv'].
    apply in_map_iff in Hk as ([k' v'] & Hfst & Hp). simpl in Hfst. subst k'.
    rewrite <- (Hfun v' (or_intror Hp)). exact Hp.
  - rewrite (foldl_insert_other ps _ k Hk).
    destruct Hin as [->|Hin]; [apply lookup_insert_eq|].
    exfalso. apply Hk. apply in_map_iff. exists (k, v). auto.
Qed.

Lemma getFirewallSpecs_names (role : string) {W} (cs : Compute.Service W) c :
  NoDup (List.map Firewall.Name (Compute.getFirewallSpecs role cs c)).
Proof.
  unfold Compute.getFirewallSpecs. simpl.
  apply NoDup_cons. split; [|apply NoDup_singleton].
  intros Hin. apply list_elem_of_singleton in Hin.
  repeat (apply String.app_inj in Hin). discriminate Hin.
Qed.

Variable APIServerRoleTagValue : string.
Variable csc : Compute.Scope.

Local Abbreviation cs := (Fake.computeService csc).
Local Abbreviation fk spec := (GlobalKey (Firewall.Name spec)).
Local Abbreviation filed T :=
  (forall k f, (T : gmap Key Firewall.t) !! k = Some f -> Firewall.Name f = key_Name k).
Local Abbreviation ReconcileFirewalls :=
  (Compute.ReconcileFirewalls APIServerRoleTagValue cs).

Lemma firewalls_loop_filed (l : list Firewall.t) (st : State Fake.World) :
  filed (Fake.firewallsT (provider st)) ->
  filed (Fake.firewallsT
           (provider (final (forEach (Compute.ReconcileFirewall cs) l st)))).
Proof.
  revert st. induction l as [|x l IH]; intros [w c] Hfiled; [exact Hfiled|].
  simpl. unfold orReturn, bind at 1.
  pose proof (ReconcileFirewall_fake csc x (mkState w c)) as Hx.
  cbn [provider cluster] in Hx, Hfiled.
  destruct (Fake.firewallsT w !! fk x) as [f|] eqn:Hf; rewrite Hx; cbv beta iota.
  - match goal with
    | |- context [forEach _ l ?st1] =>
        specialize (IH st1 Hfiled); destruct (forEach _ l st1) as [[r s2] j2]
    end.
    exact IH.
  - match goal with
    | |- context [forEach _ l ?st1] =>
        specialize (IH st1); destruct (forEach _ l st1) as [[r s2] j2]
    end.
    apply IH. cbn [provider]. destruct w. cbn.
    intros k f Hk. apply lookup_insert_Some in Hk as [[<- <-]|[_ Hk]].
    + reflexivity.
    + exact (Hfiled k f Hk).
Qed.

Lemma recordedRules_lookup (T : gmap Key Firewall.t) (l : list Firewall.t)
    (rules : gmap string string) (x : Firewall.t) (f : Firewall.t) :
  filed T -> In x l -> T !! fk x = Some f ->
  recordedRules T l rules !! Firewall.Name x = Some (Firewall.SelfLink f).
Proof.
  intros Hfiled Hx Hf. unfold recordedRules.
  apply foldl_insert_functional.
  - apply list_elem_of_In. apply list_elem_of_omap. exists x.
    split; [apply list_elem_of_In; exact Hx|]. rewrite Hf.
    rewrite (Hfiled _ _ Hf). reflexivity.
  - intros v' Hv'. apply list_elem_of_In in Hv'.
    apply list_elem_of_omap in Hv' as (y & _ & Hy).
    destruct (T !! fk y) as [g|] eqn:Hg; [|discriminate].
    injection Hy as Hname <-.
    rewrite (Hfiled _ _ Hg) in Hname. cbn in Hname.
    rewrite Hname in Hg. congruence.
Qed.

Lemma recordedRules_other (T : gmap Key Firewall.t) (l : list Firewall.t)
    (rules : gmap string string) (name : string) :
  filed T -> ~ In name (List.map Firewall.Name l) ->
  recordedRules T l rules !! name = rules !! name.
Proof.
  intros Hfiled Hname. unfold recordedRules.
  apply foldl_insert_other. intros Hin.
  apply in_map_iff in Hin as ([k v] & Hk & Hp). simpl in Hk. subst k.
  apply list_elem_of_In in Hp.
  apply list_elem_of_omap in Hp as (y & Hy & Hp).
  destruct (T !! fk y) as [g|] eqn:Hg; [|discriminate].
  injection Hp as Hn _. rewrite (Hfiled _ _ Hg) in Hn. cbn in Hn.
  apply Hname. apply in_map_iff. exists y.
  split; [exact Hn | apply list_elem_of_In; exact Hy].
Qed.

(** X21.  Over an in-memory provider that files its firewall rules by
    name, [ReconcileFirewalls] returns nil and records both rules of the
    cluster: after it, each of the two rule names, which differ, is on
    file at the provider and maps, in the status, to the self-link of the
    rule on file; the entries of the status under other names are as they
    were. *)
Theorem ReconcileFirewalls_records_fake (st : State Fake.World) :
  filed (Fake.firewallsT (provider st)) ->
  result (ReconcileFirewalls st) = Returned None
  /\ NoDup (List.map Firewall.Name
              (Compute.getFirewallSpecs APIServerRoleTagValue cs (cluster st)))
  /\ (forall spec,
        In spec (Compute.getFirewallSpecs APIServerRoleTagValue cs (cluster st)) ->
        exists f,
          Fake.firewallsT (provider (final (ReconcileFirewalls st))) !! fk spec = Some f
          /\ Status_Network_FirewallRules (cluster (final (ReconcileFirewalls st)))
             !! Firewall.Name spec = Some (Firewall.SelfLink f))
  /\ (forall name,
        ~ In name (List.map Firewall.Name
                     (Compute.getFirewallSpecs APIServerRoleTagValue cs (cluster st))) ->
        Status_Network_FirewallRules (cluster (final (ReconcileFirewalls st))) !! name
        = Status_Network_FirewallRules (cluster st) !! name).
Proof.
  intros Hfiled. unfold Compute.ReconcileFirewalls.
  rewrite result_readCluster, !final_readCluster.
  set (l := Compute.getFirewallSpecs APIServerRoleTagValue cs (cluster st)).
  pose proof (firewalls_loop_filed l st Hfiled) as Hfiled'.
  destruct (firewalls_loop_fake csc l st) as (T' & j & Hrun & _ & Hall).
  rewrite Hrun in *. unfold result, final in *. cbn [fst snd provider cluster] in *.
  assert (HT' : Fake.firewallsT (Fake.set_firewallsT T' (provider st)) = T')
    by (destruct (provider st); reflexivity).
  rewrite HT' in *.
  assert (Hrules : Status_Network_FirewallRules
                     (set_FirewallRules
                        (recordedRules T' l (Status_Network_FirewallRules (cluster st)))
                        (cluster st))
                   = recordedRules T' l (Status_Network_FirewallRules (cluster st)))
    by (destruct (cluster st); reflexivity).
  rewrite Hrules.
  split; [reflexivity|]. split; [apply getFirewallSpecs_names|]. split.
  - intros spec Hspec. destruct (Hall spec Hspec) as [f Hf].
    exists f. split; [exact Hf|].
    apply recordedRules_lookup; assumption.
  - intros name Hname. apply recordedRules_other; assumption.
Qed.

End FirewallRecords.

Lemma ReconcileFirewalls_records_fake_witness :
  let cs := Fake.computeService Sample.computeScope in
  let st := mkState Fake.emptyWorld Fake.emptyCluster in
  result (Compute.ReconcileFirewalls "apiserver" cs st) = Returned None.
Proof.
  intros cs st.
  apply (ReconcileFirewalls_records_fake "apiserver" Sample.computeScope st).
  intros k f Hk. cbn in Hk. rewrite lookup_empty in Hk. discriminate.
Defined.

(** ** Plain network references *)

Section PlainReferences.
Lemma IndexByte_none (s : string) (c : ascii) :
  GoStrings.ContainsByte s c = false -> GoStrings.IndexByte s c = None.
Proof. unfold GoStrings.ContainsByte. destruct (GoStrings.IndexByte s c); [discriminate | reflexivity]. Qed.

Lemma CountByte_none (s : string) (c : ascii) :
  GoStrings.ContainsByte s c = false -> GoStrings.CountByte s c = 0.
Proof.
  induction s as [|a rest IH]; intros H; [reflexivity|].
  apply ContainsByte_cons in H as [Ha Hrest]. simpl. rewrite Ha, (IH Hrest). reflexivity.
Qed.

Lemma Cut_none (s : string) (c : ascii) :
  GoStrings.ContainsByte s c = false -> GoStrings.Cut s c = (s, "", false).
Proof. intros H. unfold GoStrings.Cut. rewrite (IndexByte_none _ _ H). reflexivity. Qed.

Lemma ContainsByte_substring (s : string) (c : ascii) (n : nat) :
  GoStrings.ContainsByte s c = false -> GoStrings.ContainsByte (substring 0 n s) c = false.
Proof.
  revert n. induction s as [|a rest IH]; intros n H.
  - destruct n; reflexivity.
  - apply ContainsByte_cons in H as [Ha Hrest]. destruct n; [reflexivity|].
    simpl. specialize (IH n Hrest). unfold GoStrings.ContainsByte in *. simpl. rewrite Ha.
    destruct (GoStrings.IndexByte (substring 0 n rest) c); [discriminate | reflexivity].
Qed.

Lemma getScheme_from_plain (rest : string) :
  GoStrings.ContainsByte rest ":" = false ->
  forall i seen whole, url.getScheme_from i seen rest whole = inl ("", whole).
Proof.
  induction rest as [|c rest IH]; intros H i seen whole; [reflexivity|].
  apply ContainsByte_cons in H as [Hc Hrest]. simpl.
  destruct (url.isLetter c); [apply IH; exact Hrest|].
  destruct (url.isSchemeExtra c).
  - destruct i; [reflexivity | apply IH; exact Hrest].
  - rewrite Hc. reflexivity.
Qed.

Lemma unescape_plain (s : string) :
  GoStrings.ContainsByte s "%" = false -> url.unescape s = inl s.
Proof.
  induction s as [|c rest IH]; intros H; [reflexivity|].
  apply ContainsByte_cons in H as [Hc Hrest]. simpl. rewrite Hc, (IH Hrest). reflexivity.
Qed.

Lemma parse_plain (parseAuthority : string -> option error) (u : string) :
  url.stringContainsCTLByte u = false ->
  GoStrings.ContainsByte u ":" = false ->
  GoStrings.ContainsByte u "?" = false ->
  GoStrings.ContainsByte u "%" = false ->
  GoStrings.HasPrefix u "//" = false ->
  url.parse parseAuthority u = inl (url.mkURL "" "" "" u "" "").
Proof.
  intros Hctl Hcolon Hquery Hpercent Hslashes. unfold url.parse.
  rewrite Hctl.
  destruct (String.eqb u "*") eqn:Hstar.
  { apply String.eqb_eq in Hstar. subst u. reflexivity. }
  unfold url.getScheme. rewrite (getScheme_from_plain u Hcolon).
  rewrite (CountByte_none u "?" Hquery), andb_false_r, (Cut_none u "?" Hquery).
  cbn [url.ToLower]. rewrite String.eqb_refl. cbn [negb]. rewrite andb_false_r.
  assert (Hsegment : (let '(segment, _, _) := GoStrings.Cut u "/" in GoStrings.ContainsByte segment ":") = false).
  { unfold GoStrings.Cut. destruct (GoStrings.IndexByte u "/"); [|exact Hcolon].
    apply ContainsByte_substring. exact Hcolon. }
  rewrite Hsegment, andb_false_r, Hslashes, andb_false_r.
  rewrite (unescape_plain u Hpercent). reflexivity.
Qed.


Lemma Parse_plain (parseAuthority : string -> option error) (u : string) :
  url.stringContainsCTLByte u = false ->
  GoStrings.ContainsByte u ":" = false ->
  GoStrings.ContainsByte u "?" = false ->
  GoStrings.ContainsByte u "%" = false ->
  GoStrings.ContainsByte u "#" = false ->
  GoStrings.HasPrefix u "//" = false ->
  url.Parse parseAuthority u = inl (url.mkURL "" "" "" u "" "").
Proof.
  intros Hctl Hcolon Hquery Hpercent Hfragment Hslashes. unfold url.Parse.
  rewrite (Cut_none u "#" Hfragment).
  rewrite (parse_plain parseAuthority u Hctl Hcolon Hquery Hpercent Hslashes).
  reflexivity.
Qed.

Lemma ContainsByte_String (x : ascii) (s : string) (c : ascii) :
  GoStrings.ContainsByte (String x s) c = Ascii.eqb x c || GoStrings.ContainsByte s c.
Proof.
  unfold GoStrings.ContainsByte. simpl. destruct (Ascii.eqb x c); [reflexivity|].
  destruct (GoStrings.IndexByte s c); reflexivity.
Qed.

Lemma ContainsByte_append (a b : string) (c : ascii) :
  GoStrings.ContainsByte (a +:+ b) c = GoStrings.ContainsByte a c || GoStrings.ContainsByte b c.
Proof.
  induction a as [|x a IH]; [reflexivity|].
  change (String x a +:+ b) with (String x (a +:+ b)).
  rewrite !ContainsByte_String, IH. apply orb_assoc.
Qed.

Lemma rev_cons (x : ascii) (s : string) :
  String.rev (String x s) = String.rev s +:+ String x "".
Proof. exact (rev_append (String x "") s). Qed.

Lemma rev_involutive (s : string) : String.rev (String.rev s) = s.
Proof.
  induction s as [|x s IH]; [reflexivity|].
  rewrite rev_cons, rev_append, IH. reflexivity.
Qed.

Lemma ContainsByte_rev (s : string) (c : ascii) :
  GoStrings.ContainsByte (String.rev s) c = GoStrings.ContainsByte s c.
Proof.
  induction s as [|x s IH]; [reflexivity|].
  rewrite rev_cons, ContainsByte_append, IH.
  change (String x s) with (String x "" +:+ s). rewrite ContainsByte_append.
  apply orb_comm.
Qed.

Lemma dropLeading_plain (c : ascii) (s : string) (rest : string) :
  s <> "" -> GoStrings.ContainsByte s c = false ->
  GoStrings.dropLeading c (s +:+ rest) = s +:+ rest.
Proof.
  intros Hs Hc. destruct s as [|a s]; [contradiction|].
  apply ContainsByte_cons in Hc as [Ha _].
  unfold String.app. simpl. rewrite Ha. reflexivity.
Qed.

Lemma TrimRightByte_plain (c : ascii) (before name : string) :
  name <> "" -> GoStrings.ContainsByte name c = false ->
  GoStrings.TrimRightByte (before +:+ name) c = before +:+ name.
Proof.
  intros Hname Hc. unfold GoStrings.TrimRightByte. rewrite rev_append.
  rewrite dropLeading_plain.
  - rewrite <- rev_append. apply rev_involutive.
  - intros H. apply Hname. rewrite <- (rev_involutive name), H. reflexivity.
  - rewrite ContainsByte_rev. exact Hc.
Qed.

Lemma afterLast_segment (c : ascii) (before name : string) :
  GoStrings.ContainsByte name c = false ->
  GoStrings.afterLast c (before +:+ String c name) = name.
Proof.
  intros Hc. induction before as [|a d IH].
  - change ("" +:+ String c name) with (String c name). cbn [GoStrings.afterLast].
    rewrite Hc, Ascii.eqb_refl. reflexivity.
  - change (String a d +:+ String c name) with (String a (d +:+ String c name)).
    cbn [GoStrings.afterLast].
    rewrite ContainsByte_append, (ContainsByte_String c name c), Ascii.eqb_refl.
    cbn [orb]. rewrite orb_true_r. exact IH.
Qed.

Lemma Base_segment (before name : string) :
  name <> "" -> GoStrings.ContainsByte name "/" = false ->
  GoStrings.Base (before +:+ "/" +:+ name) = name.
Proof.
  intros Hname Hc. unfold GoStrings.Base.
  destruct (String.eqb (before +:+ "/" +:+ name) "") eqn:Hempty.
  { apply String.eqb_eq in Hempty. destruct before; discriminate Hempty. }
  cbv zeta.
  replace (before +:+ "/" +:+ name) with ((before +:+ "/") +:+ name)
    by apply append_assoc.
  rewrite (TrimRightByte_plain "/" _ name Hname Hc).
  rewrite append_assoc. change ("/" +:+ name) with (String "/" name).
  rewrite (afterLast_segment "/" before name Hc).
  destruct (String.eqb name "") eqn:Hn; [|reflexivity].
  apply String.eqb_eq in Hn. contradiction.
Qed.

End PlainReferences.

Section FirewallNetworkNames.
Variable parseAuthority : string -> option error.

(** X22.  For a plain network reference the name of the network is the
    last segment of the path: when the reference of a firewall is some text,
    a slash and a name, where the name is not empty and has no slash, and
    the reference has no control character, colon, question mark, percent
    sign or number sign and does not start with two slashes, then
    [getFirewallNetworkName] returns that name, without error, whatever the
    authority check of [url.Parse] would say. *)
Theorem getFirewallNetworkName_last_segment
    (firewall : Firewall.t) (before name : string) :
  Firewall.Network firewall = before +:+ "/" +:+ name ->
  name <> "" ->
  GoStrings.ContainsByte name "/" = false ->
  url.stringContainsCTLByte (Firewall.Network firewall) = false ->
  GoStrings.ContainsByte (Firewall.Network firewall) ":" = false ->
  GoStrings.ContainsByte (Firewall.Network firewall) "?" = false ->
  GoStrings.ContainsByte (Firewall.Network firewall) "%" = false ->
  GoStrings.ContainsByte (Firewall.Network firewall) "#" = false ->
  GoStrings.HasPrefix (Firewall.Network firewall) "//" = false ->
  Compute.getFirewallNetworkName parseAuthority firewall = inl name.
Proof.
  intros Hnet Hname Hslash Hctl Hcolon Hquery Hpercent Hfragment Hslashes.
  unfold Compute.getFirewallNetworkName. cbv zeta.
  rewrite (Parse_plain parseAuthority _ Hctl Hcolon Hquery Hpercent Hfragment Hslashes).
  rewrite Hnet.
  destruct (String.length (before +:+ "/" +:+ name) =? 0)%nat eqn:Hlen.
  { apply Nat.eqb_eq in Hlen. destruct before; discriminate Hlen. }
  cbn [url.Path]. rewrite (Base_segment before name Hname Hslash). reflexivity.
Qed.

End FirewallNetworkNames.

Lemma getFirewallNetworkName_last_segment_witness :
  Compute.getFirewallNetworkName Sample.parseAuthority Sample.clusterRule = inl "my-network".
Proof.
  apply (getFirewallNetworkName_last_segment Sample.parseAuthority Sample.clusterRule
           "projects/p/global/networks" "my-network").
  - reflexivity.
  - discriminate.
  - reflexivity.
  - reflexivity.
  - reflexivity.
  - reflexivity.
  - reflexivity.
  - reflexivity.
  - reflexivity.
Defined.

(** ** [Reconcile] of package [networks]: what it establishes *)

Section FakeNetworksReconcile.
Variable ClusterTagKey : string -> string.
Variable sc : Networks.Scope.

Local Abbreviation s := (Fake.networksService sc).
Local Abbreviation nk := (GlobalKey (Networks.NetworkName sc)).
Local Abbreviation rk :=
  (RegionalKey (Router.Name (Networks.NatRouterSpec sc)) (Networks.Region sc)).
Local Abbreviation sk subnet :=
  (RegionalKey (Subnetwork.Name subnet) (Subnetwork.Region subnet)).
Local Abbreviation tag := (ClusterTagKey (Networks.Name sc)).
Local Abbreviation Reconcile := (Networks.Reconcile ClusterTagKey s).
Local Abbreviation linked network := (set_SelfLink (Some (Network.SelfLink network))).

Lemma network_established (st : State Fake.World) :
  Networks.IsSharedVpc sc = false ->
  exists n T1 j1,
    Networks.createOrGetNetwork s st
    = (Returned (inl n), mkState (Fake.set_networksT T1 (provider st)) (cluster st), j1)
    /\ T1 !! nk = Some n
    /\ Fake.networksT (provider st) ⊆ T1.
Proof.
  intros Hshared. pose proof (createOrGetNetwork_fake sc st) as H.
  destruct (Fake.networksT (provider st) !! nk) as [n|] eqn:Hn.
  - exists n, (Fake.networksT (provider st)). eexists.
    split; [rewrite H; destruct st as [[] ?]; reflexivity|]. split; [exact Hn | reflexivity].
  - rewrite Hshared in H. eexists _, _, _.
    split; [exact H|]. split; [apply lookup_insert_eq | apply insert_subseteq; exact Hn].
Qed.

Lemma subnetworks_established (network : Network.t) (st : State Fake.World) :
  exists T2 j2,
    Networks.Reconcile_subnetworks s network st
    = (Returned None, mkState (Fake.set_subnetworksT T2 (provider st)) (cluster st), j2)
    /\ Fake.subnetworksT (provider st) ⊆ T2
    /\ (Network.AutoCreateSubnetworks network = false ->
        forall x, In x (Networks.SubnetworkSpec sc) -> is_Some (T2 !! sk x)).
Proof.
  unfold Networks.Reconcile_subnetworks.
  destruct (Network.AutoCreateSubnetworks network); cbn [negb].
  - exists (Fake.subnetworksT (provider st)), [].
    split; [destruct st as [[] ?]; reflexivity|]. split; [reflexivity | discriminate].
  - destruct (subnetworks_loop_fake sc (Networks.SubnetworkSpec sc) st)
      as (T2 & j2 & Hrun & Hsub & Hall).
    exists T2, j2. split; [exact Hrun|]. split; [exact Hsub | intros _; exact Hall].
Qed.

Lemma router_established (network : Network.t) (st : State Fake.World) :
  Networks.IsSharedVpc sc = false ->
  exists T3 c3 j3,
    Networks.Reconcile_router ClusterTagKey s network st
    = (Returned None, mkState (Fake.set_routersT T3 (provider st)) c3, j3)
    /\ Fake.routersT (provider st) ⊆ T3
    /\ (if String.eqb (Network.Description network) tag
        then exists r, T3 !! rk = Some r
                       /\ c3 = set_Router (Some (Router.SelfLink r)) (cluster st)
        else c3 = cluster st).
Proof.
  intros Hshared. unfold Networks.Reconcile_router.
  cbn [Networks.scope Fake.networksService].
  destruct (String.eqb (Network.Description network) tag).
  - pose proof (createOrGetRouter_fake ClusterTagKey sc network st) as H. cbv zeta in H.
    destruct (Fake.routersT (provider st) !! rk) as [r|] eqn:Hr.
    + exists (Fake.routersT (provider st)). eexists _, _.
      split; [unfold bind at 1; rewrite H; destruct st as [[] ?]; reflexivity|].
      split; [reflexivity|]. exists r. split; [exact Hr | reflexivity].
    + rewrite Hshared in H. eexists _, _, _.
      split; [unfold bind at 1; rewrite H; reflexivity|].
      split; [apply insert_subseteq; exact Hr|].
      eexists. split; [apply lookup_insert_eq | reflexivity].
  - exists (Fake.routersT (provider st)), (cluster st), [].
    split; [destruct st as [[] ?]; reflexivity|]. split; reflexivity.
Qed.

(** X23.  Over the in-memory provider, and without shared VPC,
    [Reconcile] returns nil and establishes what is declared: afterwards
    the network is on file under its name and its self-link is recorded;
    when the network is in custom mode every declared subnetwork is on
    file; when the network carries the ownership tag the NAT router is on
    file and its self-link is recorded; nothing that was on file is lost
    and the routes are as they were. *)
Theorem Reconcile_establishes_fake (st : State Fake.World) :
  Networks.IsSharedVpc sc = false ->
  let after := final (Reconcile st) in
  result (Reconcile st) = Returned None
  /\ (exists n,
        Fake.networksT (provider after) !! nk = Some n
        /\ Status_Network_SelfLink (cluster after) = Some (Network.SelfLink n)
        /\ (Network.AutoCreateSubnetworks n = false ->
            forall x, In x (Networks.SubnetworkSpec sc) ->
                      is_Some (Fake.subnetworksT (provider after) !! sk x))
        /\ (Network.Description n = tag ->
            exists r,
              Fake.routersT (provider after) !! rk = Some r
              /\ Status_Network_Router (cluster after) = Some (Router.SelfLink r)))
  /\ Fake.networksT (provider st) ⊆ Fake.networksT (provider after)
  /\ Fake.subnetworksT (provider st) ⊆ Fake.subnetworksT (provider after)
  /\ Fake.routersT (provider st) ⊆ Fake.routersT (provider after)
  /\ Fake.routesT (provider after) = Fake.routesT (provider st).
Proof.
  intros Hshared after. subst after.
  destruct (network_established st Hshared) as (n & T1 & j1 & H1 & Hn & Hsub1).
  set (st1 := mkState (Fake.set_networksT T1 (provider st)) (cluster st)) in *.
  destruct (subnetworks_established n
              (mkState (provider st1) (linked n (cluster st1))))
    as (T2 & j2 & H2 & Hsub2 & Hall).
  set (st2 := mkState (Fake.set_subnetworksT T2 _) _) in *.
  destruct (router_established n st2 Hshared) as (T3 & c3 & j3 & H3 & Hsub3 & Hrouter).
  rewrite (Reconcile_run ClusterTagKey _ _ _ _ _ _ _ _ _ _ H1 H2 H3).
  unfold result, final. cbn [fst snd provider cluster].
  subst st2 st1. cbn [provider cluster] in *.
  destruct st as [[nT sT rT oT fT iT] c]. cbn in *.
  split; [reflexivity|]. split; [|repeat split; assumption].
  exists n. split; [exact Hn|]. split.
  - destruct c3. reflexivity.
  - split; [exact Hall|]. intros Htag.
    rewrite Htag, String.eqb_refl in Hrouter. destruct Hrouter as (r & Hr & ->).
    exists r. split; [exact Hr|]. destruct c. reflexivity.
Qed.

End FakeNetworksReconcile.

Lemma Reconcile_establishes_fake_witness :
  let s := Fake.networksService (Sample.scope false) in
  let st := mkState Fake.emptyWorld Fake.emptyCluster in
  result (Networks.Reconcile Sample.ClusterTagKey s st) = Returned None.
Proof.
  intros s st.
  apply (Reconcile_establishes_fake Sample.ClusterTagKey (Sample.scope false) st).
  reflexivity.
Defined.

(** ** The older service: what [ReconcileNetwork] creates *)

Section EmitsFrom.
Context {W : Type}.

Lemma emitsFrom_emits {A} c0 P (m : M W A) : emits P m -> emitsFrom c0 P m.
Proof. intros H st _. apply H. Qed.

Lemma emitsFrom_read {A} c0 P (k : GCPCluster -> M W A) :
  emitsFrom c0 P (k c0) -> emitsFrom c0 P (bind readCluster k).
Proof. intros H st Hc. rewrite bind_readCluster_eq, Hc. apply H, Hc. Qed.

Lemma emitsFrom_bind {A B} c0 P (m : M W A) (k : A -> M W B) :
  emits P m -> preserves m -> (forall a, emitsFrom c0 P (k a)) ->
  emitsFrom c0 P (bind m k).
Proof.
  intros Hm Hkeep Hk st Hc. rewrite journal_bind. apply Forall_app.
  split; [apply Hm|].
  destruct (result (m st)); [apply Hk; rewrite Hkeep; exact Hc | constructor].
Qed.

Lemma emitsFrom_invoke {A B} c0 (P : Call -> Prop) cl v k p (err : A -> option error)
    (f : W -> A * W) (g : A -> M W B) :
  (forall e, P (mkCall cl v k p e)) -> (forall a, emitsFrom c0 P (g a)) ->
  emitsFrom c0 P (bind (invoke cl v k p err f) g).
Proof.
  intros Hc Hg. apply emitsFrom_bind;
    [apply emits_invoke; exact Hc | apply preserves_invoke | exact Hg].
Qed.

Lemma emitsFrom_forEach_In {A} c0 (P : A -> Call -> Prop)
    (body : A -> M W (option error)) l :
  (forall x, In x l -> emitsFrom c0 (P x) (body x)) ->
  (forall x, preserves (body x)) ->
  emitsFrom c0 (fun c => exists x, In x l /\ P x c) (forEach body l).
Proof.
  intros Hb Hkeep. induction l as [|x l IH]; intros st Hc; simpl; [constructor|].
  assert (Hx : Forall (fun c => exists y, In y (x :: l) /\ P y c) (journal (body x st))).
  { eapply Forall_impl; [apply (Hb x); [left; reflexivity | exact Hc]|].
    intros c HP. exists x. split; [left; reflexivity | exact HP]. }
  destruct (orReturn_cases (body x) (forEach body l) st)
    as [(err & _ & _ & _ & ->) | [(_ & _ & _ & ->) | (_ & _ & _ & ->)]];
    [exact Hx | exact Hx |].
  apply Forall_app. split; [exact Hx|].
  eapply Forall_impl; [apply IH; [intros y Hy; apply Hb; right; exact Hy|]|].
  - rewrite Hkeep. exact Hc.
  - intros c (y & Hy & HP). exists y. split; [right; exact Hy | exact HP].
Qed.

End EmitsFrom.

Section LegacyCreates.
Context {W : Type}.
Variable ClusterTagKey : string -> string.
Variable cs : Compute.Service W.

Local Abbreviation region := (Compute.Region (Compute.scope cs)).
Local Abbreviation ReconcileNetwork := (Compute.ReconcileNetwork ClusterTagKey cs).
Local Abbreviation spec st := (Compute.getNetworkSpec ClusterTagKey cs (cluster st)).
Local Abbreviation networkInserted st e :=
  (mkCall NetworksAPI DoInsert (GlobalKey (Network.Name (spec st)))
     (NetworkObj (spec st)) e).
Local Abbreviation routerInserted c0 network e :=
  (mkCall RoutersAPI DoInsert
     (RegionalKey (Compute.getRouterName (Network.Name network)) region)
     (RouterObj (Compute.getRouterSpec cs c0 network)) e).
Local Abbreviation natPatched c0 router e :=
  (mkCall RoutersAPI DoPatch (RegionalKey (Router.Name router) region)
     (RouterObj (Router.mk (Router.Name router) (Router.Description router)
                   (Router.Network router) (Router.SelfLink router)
                   [Compute.getRouterNatSpec cs c0])) e).
Local Abbreviation subnetInserted x sn e :=
  (mkCall SubnetworksAPI DoInsert (RegionalKey (Compute.subnet_Name x) region)
     (SubnetworkObj sn) e).
Local Abbreviation routerCreated c0 network c :=
  (c = routerInserted c0 network (answer c)
   \/ exists router, Router.Nats router = [] /\ c = natPatched c0 router (answer c)).
Local Abbreviation subnetCreated c0 c :=
  (exists x sn,
      In x (Compute.Subnets (Compute.scope cs))
      /\ Compute.getSubnetworkSpec cs c0 x = Some sn
      /\ c = subnetInserted x sn (answer c)).
Local Abbreviation assigned n c :=
  (set_SelfLink (Some (Network.SelfLink n))
     (set_Spec_Network_AutoCreateSubnetworks (Some (Network.AutoCreateSubnetworks n))
        (set_Spec_Network_Name (Some (Network.Name n)) c))).

Lemma createCloudNat_nat_creates c0 network router :
  emitsFrom c0 (fun c => mutating c = true -> routerCreated c0 network c)
    (Compute.createCloudNat_nat cs router).
Proof.
  unfold Compute.createCloudNat_nat. apply emitsFrom_read.
  apply emitsFrom_emits.
  apply emits_orReturn;
    [|apply emits_bind; [apply emits_assign | intros; apply emits_ret]].
  destruct (Router.Nats router) eqn:Hnats; [|apply emits_ret].
  unfold Compute.routers_Patch, Compute.wait_ForComputeOperation. cbn [Router.Name].
  apply emits_bind.
  - apply emits_invoke. intros e _. right. exists router. split; [exact Hnats | reflexivity].
  - intros [op|err]; [|apply emits_ret].
    apply emits_bind; [apply emits_invoke; intros e; discriminate | intros; apply emits_ret].
Qed.

Lemma createCloudNat_creates c0 network :
  emitsFrom c0 (fun c => mutating c = true -> routerCreated c0 network c)
    (Compute.createCloudNat cs network).
Proof.
  unfold Compute.createCloudNat. apply emitsFrom_read.
  unfold Compute.routers_Get, Compute.routers_Insert, Compute.wait_ForComputeOperation.
  cbv zeta.
  apply emitsFrom_invoke; [intros e; discriminate|]. intros r.
  destruct (gcperrors.IsNotFound _).
  - apply emitsFrom_invoke; [intros e _; left; reflexivity|].
    intros [op|err]; [|apply emitsFrom_emits, emits_ret].
    apply emitsFrom_invoke; [intros e; discriminate|].
    intros [err|]; [apply emitsFrom_emits, emits_ret|].
    apply emitsFrom_invoke; [intros e; discriminate|].
    intros [router|err];
      [apply createCloudNat_nat_creates | apply emitsFrom_emits, emits_ret].
  - destruct r as [router|err];
      [apply createCloudNat_nat_creates | apply emitsFrom_emits, emits_ret].
Qed.

Lemma createSubnetwork_keeps x : preserves (Compute.createSubnetwork cs x).
Proof.
  unfold Compute.createSubnetwork, Compute.subnetworks_Get, Compute.subnetworks_Insert,
    Compute.wait_ForComputeOperation. cbv zeta.
  journal_rules; destruct (gcperrors.IsNotFound _); journal_rules.
Qed.

Lemma createSubnetworks_creates c0 :
  emitsFrom c0 (fun c => mutating c = true -> subnetCreated c0 c)
    (Compute.createSubnetworks cs).
Proof.
  unfold Compute.createSubnetworks.
  pose proof (emitsFrom_forEach_In c0
    (fun x c => mutating c = true ->
                exists sn, Compute.getSubnetworkSpec cs c0 x = Some sn
                           /\ c = subnetInserted x sn (answer c))
    (Compute.createSubnetwork cs) (Compute.Subnets (Compute.scope cs))) as H.
  intros st Hc. eapply Forall_impl; [apply H; [| apply createSubnetwork_keeps | exact Hc]|].
  - intros x _. unfold Compute.createSubnetwork, Compute.subnetworks_Get,
      Compute.subnetworks_Insert, Compute.wait_ForComputeOperation. cbv zeta.
    apply emitsFrom_invoke; [intros e; discriminate|]. intros r.
    destruct (gcperrors.IsNotFound _); [|apply emitsFrom_emits, emits_ret].
    apply emitsFrom_read.
    destruct (Compute.getSubnetworkSpec cs c0 x) as [sn|] eqn:Hsn;
      [|apply emitsFrom_emits, emits_panic].
    assert (Hname : Subnetwork.Name sn = Compute.subnet_Name x).
    { unfold Compute.getSubnetworkSpec in Hsn.
      destruct (Compute.subnet_EnableFlowLogs x); [|discriminate].
      injection Hsn as <-. reflexivity. }
    rewrite Hname.
    apply emitsFrom_invoke; [intros e _; exists sn; split; reflexivity|].
    intros [op|err]; [|apply emitsFrom_emits, emits_ret].
    apply emitsFrom_invoke; [intros e; discriminate|].
    intros [err|]; [apply emitsFrom_emits, emits_ret|].
    apply emitsFrom_invoke; [intros e; discriminate|].
    intros; apply emitsFrom_emits, emits_ret.
  - intros c (x & Hx & HP) Hm. destruct (HP Hm) as (sn & Hsn & Hcall).
    exists x, sn. auto.
Qed.

Lemma ReconcileNetwork_network_creates network auto (st : State W) :
  Forall (fun c =>
            mutating c = true ->
            (auto = true /\ routerCreated (cluster st) network c)
            \/ subnetCreated
                 (cluster (final (Compute.ReconcileNetwork_network cs network auto st))) c)
    (journal (Compute.ReconcileNetwork_network cs network auto st)).
Proof.
  unfold Compute.ReconcileNetwork_network.
  set (m := if auto then _ else _). set (k := bind _ _).
  assert (Hm : Forall (fun c => mutating c = true ->
                                auto = true /\ routerCreated (cluster st) network c)
                 (journal (m st))).
  { subst m. destruct auto; [|constructor].
    rewrite journal_bind. apply Forall_app. split.
    - eapply Forall_impl; [apply (createCloudNat_creates (cluster st) network st eq_refl)|].
      intros c H Hmut. split; [reflexivity | exact (H Hmut)].
    - destruct (result _); constructor. }
  destruct (orReturn_cases m k st)
    as [(err & _ & _ & _ & ->) | [(_ & _ & _ & ->) | (_ & _ & -> & ->)]].
  - eapply Forall_impl; [exact Hm|]. intros c H Hmut. left. exact (H Hmut).
  - eapply Forall_impl; [exact Hm|]. intros c H Hmut. left. exact (H Hmut).
  - apply Forall_app. split.
    + eapply Forall_impl; [exact Hm|]. intros c H Hmut. left. exact (H Hmut).
    + subst k. rewrite !journal_assign, !final_assign. cbn [provider cluster].
      destruct (negb _); [|constructor].
      rewrite createSubnetworks_keeps.
      eapply Forall_impl; [apply (createSubnetworks_creates _ _ eq_refl)|].
      intros c H Hmut. right. exact (H Hmut).
Qed.

(** X24.  What [ReconcileNetwork] creates, whatever the provider answers:
    it never deletes, and each of its mutating calls is the Insert of the
    network specification, under the name of the network; or, only in a
    run in which the Insert of the network was answered without error, the
    Insert of the router specification for a network, in the region of the
    cluster, or the Patch that gives a router without NAT the one NAT
    configuration of the specification; or the Insert of the specification
    of a declared subnetwork, under its name and in the region of the
    cluster, referring to the network recorded in the cluster object. *)
Theorem ReconcileNetwork_creates (st : State W) (c : Call) :
  In c (journal (ReconcileNetwork st)) ->
  mutating c = true ->
  c = networkInserted st (answer c)
  \/ (In (networkInserted st None) (journal (ReconcileNetwork st))
      /\ exists network, routerCreated (cluster st) network c)
  \/ subnetCreated (cluster (final (ReconcileNetwork st))) c.
Proof.
  unfold Compute.ReconcileNetwork. rewrite bind_readCluster_eq. cbv zeta.
  unfold Compute.networks_Get, Compute.networks_Insert, Compute.wait_ForComputeOperation.
  cbv zeta.
  assert (Htail : forall network auto j0 (st' : State W),
             cluster st' = cluster st ->
             (auto = true -> In (networkInserted st None) j0) ->
             Forall (fun c => mutating c = true -> c = networkInserted st (answer c)) j0 ->
             forall c,
               In c (journal (prepend j0
                                (Compute.ReconcileNetwork_network cs network auto st'))) ->
               mutating c = true ->
               c = networkInserted st (answer c)
               \/ (In (networkInserted st None)
                      (journal (prepend j0
                                  (Compute.ReconcileNetwork_network cs network auto st')))
                   /\ exists network, routerCreated (cluster st) network c)
               \/ subnetCreated
                    (cluster (final (prepend j0
                                       (Compute.ReconcileNetwork_network cs network auto
                                          st')))) c).
  { intros network auto j0 st' Hc Hins Hj0 c0. rewrite journal_prepend, final_prepend.
    intros Hin Hmut. apply in_app_or in Hin. destruct Hin as [Hin|Hin].
    - left. rewrite List.Forall_forall in Hj0. exact (Hj0 _ Hin Hmut).
    - pose proof (ReconcileNetwork_network_creates network auto st') as H.
      rewrite List.Forall_forall in H. destruct (H _ Hin Hmut) as [[Hauto Hr]|Hs].
      + right; left. split; [apply in_or_app; left; exact (Hins Hauto)|].
        exists network. rewrite <- Hc. exact Hr.
      + right; right. exact Hs. }
  step_invoke r w1 Hget. destruct (gcperrors.IsNotFound (errorOf r)).
  - step_invoke r2 w2 Hinsert. rewrite prepend_prepend. destruct r2 as [op|err].
    + step_invoke e w3 Hwait. rewrite prepend_prepend. destruct e as [err|].
      * rewrite journal_prepend. cbn. intros [<-|[<-|[<-|[]]]]; try discriminate.
        intros _. left. reflexivity.
      * step_invoke r4 w4 Hget2. rewrite prepend_prepend. destruct r4 as [network|err].
        -- apply Htail; [reflexivity | intros _; cbn; auto |].
           repeat constructor; try discriminate.
        -- rewrite journal_prepend. cbn. intros [<-|[<-|[<-|[<-|[]]]]]; try discriminate.
           intros _. left. reflexivity.
    + rewrite journal_prepend. cbn. intros [<-|[<-|[]]]; try discriminate.
      intros _. left. reflexivity.
  - destruct r as [network|err].
    + apply Htail; [reflexivity | discriminate |]. repeat constructor; discriminate.
    + rewrite journal_prepend. cbn. intros [<-|[]]. discriminate.
Qed.

End LegacyCreates.

Lemma ReconcileNetwork_creates_witness :
  let cs := Fake.computeService Sample.computeScope in
  let st := mkState Fake.emptyWorld Fake.emptyCluster in
  let network :=
    Network.mk "default" "capg-cluster-my-cluster"
      "https://www.googleapis.com/compute/v1/projects/fake/networks/default" true [] [] in
  let c :=
    mkCall RoutersAPI DoInsert (RegionalKey "default-router" "us-east1")
      (RouterObj (Compute.getRouterSpec cs (cluster st) network)) None in
  In c (journal (Compute.ReconcileNetwork Sample.ClusterTagKey cs st))
  /\ In (mkCall NetworksAPI DoInsert (GlobalKey "default")
           (NetworkObj (Compute.getNetworkSpec Sample.ClusterTagKey cs (cluster st))) None)
       (journal (Compute.ReconcileNetwork Sample.ClusterTagKey cs st)).
Proof.
  intros cs st network c.
  assert (Hin : In c (journal (Compute.ReconcileNetwork Sample.ClusterTagKey cs st))).
  { vm_compute. do 5 right. left. reflexivity. }
  split; [exact Hin|].
  destruct (ReconcileNetwork_creates Sample.ClusterTagKey cs st c Hin eq_refl)
    as [Hc | [[Hins _] | (x & sn & _ & _ & Hc)]].
  - discriminate Hc.
  - exact Hins.
  - discriminate Hc.
Defined.

(** ** [ReconcileFirewalls]: what it creates and what it records *)

Section FirewallsCreates.
Context {W : Type}.
Variable APIServerRoleTagValue : string.
Variable cs : Compute.Service W.

Local Abbreviation ReconcileFirewalls :=
  (Compute.ReconcileFirewalls APIServerRoleTagValue cs).
Local Abbreviation specs st :=
  (Compute.getFirewallSpecs APIServerRoleTagValue cs (cluster st)).
Local Abbreviation rulesOf st := (Status_Network_FirewallRules (cluster st)).
Local Abbreviation ruleInserted spec e :=
  (mkCall FirewallsAPI DoInsert (GlobalKey (Firewall.Name spec)) (FirewallObj spec) e).
Local Abbreviation ruleFound spec :=
  (mkCall FirewallsAPI DoGet (GlobalKey (Firewall.Name spec)) NoPayload None).
Local Abbreviation stored firewall c :=
  (set_FirewallRules
     (<[Firewall.Name firewall := Firewall.SelfLink firewall]>
        (Status_Network_FirewallRules c)) c).

(** The cluster object [c'] is [c] with more rules recorded. *)
Local Abbreviation recordsMore c c' :=
  (c' = set_FirewallRules (Status_Network_FirewallRules c') c
   /\ forall name,
       is_Some (Status_Network_FirewallRules c !! name) ->
       is_Some (Status_Network_FirewallRules c' !! name)).
Local Abbreviation records m :=
  (forall st : State W, recordsMore (cluster st) (cluster (final (m st)))).

Lemma recordsMore_refl (c : GCPCluster) : recordsMore c c.
Proof. split; [destruct c; reflexivity | auto]. Qed.

Lemma recordsMore_trans (c1 c2 c3 : GCPCluster) :
  recordsMore c1 c2 -> recordsMore c2 c3 -> recordsMore c1 c3.
Proof.
  intros [H12 G12] [H23 G23]. split; [|auto].
  rewrite H23 at 1. rewrite H12 at 1. reflexivity.
Qed.

Lemma records_preserves {A} (m : M W A) : preserves m -> records m.
Proof. intros H st. rewrite !(H st). exact (recordsMore_refl (cluster st)). Qed.

Lemma records_bind {A B} (m : M W A) (k : A -> M W B) :
  records m -> (forall a, records (k a)) -> records (bind m k).
Proof.
  intros Hm Hk st. rewrite final_bind.
  destruct (result (m st)) as [a|]; [|apply Hm].
  exact (recordsMore_trans _ _ _ (Hm st) (Hk a (final (m st)))).
Qed.

Lemma records_forEach {A} (body : A -> M W (option error)) l :
  (forall x, records (body x)) -> records (forEach body l).
Proof.
  intros Hb. induction l as [|x l IH]; simpl.
  - apply records_preserves, preserves_ret.
  - apply records_bind; [apply Hb|].
    intros [err|]; [apply records_preserves, preserves_ret | exact IH].
Qed.

Lemma storeFirewall_records firewall : records (Compute.storeFirewall firewall).
Proof.
  intros st. unfold Compute.storeFirewall. rewrite final_assign. cbn.
  split; [reflexivity|].
  intros name Hname.
  destruct (decide (Firewall.Name firewall = name)) as [->|Hne].
  - rewrite lookup_insert_eq. eauto.
  - rewrite lookup_insert_ne by exact Hne. exact Hname.
Qed.

Lemma ReconcileFirewall_records spec : records (Compute.ReconcileFirewall cs spec).
Proof.
  unfold Compute.ReconcileFirewall, Compute.firewalls_Get, Compute.firewalls_Insert,
    Compute.wait_ForComputeOperation. cbv zeta.
  apply records_bind; [apply records_preserves, preserves_invoke|]. intros r.
  destruct (gcperrors.IsNotFound _).
  - apply records_bind; [apply records_preserves, preserves_invoke|].
    intros [op|err]; [|apply records_preserves, preserves_ret].
    apply records_bind; [apply records_preserves, preserves_invoke|].
    intros [err|]; [apply records_preserves, preserves_ret|].
    apply records_bind; [apply records_preserves, preserves_invoke|].
    intros [firewall|err];
      [apply storeFirewall_records | apply records_preserves, preserves_ret].
  - destruct r as [firewall|err];
      [apply storeFirewall_records | apply records_preserves, preserves_ret].
Qed.

Lemma ReconcileFirewall_inserts spec :
  emits (fun c => mutating c = true -> c = ruleInserted spec (answer c))
    (Compute.ReconcileFirewall cs spec).
Proof.
  unfold Compute.ReconcileFirewall, Compute.firewalls_Get, Compute.firewalls_Insert,
    Compute.wait_ForComputeOperation, Compute.storeFirewall. cbv zeta.
  apply emits_bind; [apply emits_invoke; intros e; discriminate|]. intros r.
  destruct (gcperrors.IsNotFound _).
  - apply emits_bind; [apply emits_invoke; intros e _; reflexivity|].
    intros [op|err]; [|apply emits_ret].
    apply emits_bind; [apply emits_invoke; intros e; discriminate|].
    intros [err|]; [apply emits_ret|].
    apply emits_bind; [apply emits_invoke; intros e; discriminate|].
    intros [firewall|err]; journal_rules.
  - destruct r as [firewall|err]; journal_rules.
Qed.

Lemma ReconcileFirewalls_returns : returns ReconcileFirewalls.
Proof.
  unfold Compute.ReconcileFirewalls. apply returns_bind; [apply returns_readCluster|].
  intros c. apply returns_forEach. intros spec _.
  unfold Compute.ReconcileFirewall, Compute.firewalls_Get, Compute.firewalls_Insert,
    Compute.wait_ForComputeOperation, Compute.storeFirewall. cbv zeta.
  returns_rules.
Qed.

(** X25.  [ReconcileFirewalls] creates the missing rules and adopts the
    others as they are, whatever the provider answers: it does not panic;
    each of its mutating calls is the Insert of one of the two firewall
    specifications under its name, never a Delete or a Patch; of the
    cluster object it changes the recorded rules only, and every name
    recorded before is still recorded; and a rule that the lookup finds is
    not compared with its specification: the step returns nil after that
    one call and records the self-link of the rule found under its name. *)
Theorem ReconcileFirewalls_creates (st : State W) :
  result (ReconcileFirewalls st) <> Panicked
  /\ (forall c,
        In c (journal (ReconcileFirewalls st)) ->
        mutating c = true ->
        exists spec, In spec (specs st) /\ c = ruleInserted spec (answer c))
  /\ cluster (final (ReconcileFirewalls st))
     = set_FirewallRules (rulesOf (final (ReconcileFirewalls st))) (cluster st)
  /\ (forall name,
        is_Some (rulesOf st !! name) ->
        is_Some (rulesOf (final (ReconcileFirewalls st)) !! name))
  /\ (forall spec firewall w1,
        Compute.api_Get (Compute.firewalls cs) (GlobalKey (Firewall.Name spec))
          (provider st) = (inl firewall, w1) ->
        Compute.ReconcileFirewall cs spec st
        = (Returned None, mkState w1 (stored firewall (cluster st)), [ruleFound spec])).
Proof.
  split; [apply ReconcileFirewalls_returns|].
  split; [|split; [|split]].
  - intros c Hin Hmut. unfold Compute.ReconcileFirewalls in Hin.
    rewrite bind_readCluster_eq in Hin.
    pose proof (emits_forEach_In
                  (fun spec c => mutating c = true -> c = ruleInserted spec (answer c))
                  (Compute.ReconcileFirewall cs) (specs st)
                  (fun spec _ => ReconcileFirewall_inserts spec)) as H.
    destruct (emits_In _ _ _ _ H Hin) as (spec & Hspec & Hc).
    exists spec. auto.
  - unfold Compute.ReconcileFirewalls. rewrite bind_readCluster_eq.
    apply (records_forEach _ _ ReconcileFirewall_records st).
  - unfold Compute.ReconcileFirewalls. rewrite bind_readCluster_eq.
    apply (records_forEach _ _ ReconcileFirewall_records st).
  - intros spec firewall w1 Hget.
    unfold Compute.ReconcileFirewall, Compute.firewalls_Get.
    rewrite (bind_invoke_eq _ _ _ _ _ _ _ _ _ _ Hget). reflexivity.
Qed.

End FirewallsCreates.

Lemma ReconcileFirewalls_creates_witness :
  let cs := Fake.computeService Sample.computeScope in
  let stale :=
    Firewall.mk "allow-my-cluster-apiserver-cluster"
      "projects/p/global/networks/other-network" "projects/p/global/firewalls/stale"
      [FirewallAllowed.mk "TCP" ["22"]] "INGRESS" ["0.0.0.0/0"] [] [] in
  let st :=
    mkState (Fake.set_firewallsT {[ GlobalKey (Firewall.Name stale) := stale ]}
               Fake.emptyWorld) Fake.emptyCluster in
  let spec := List.last (Compute.getFirewallSpecs "apiserver" cs (cluster st)) stale in
  spec <> stale
  /\ result (Compute.ReconcileFirewall cs spec st) = Returned None
  /\ journal (Compute.ReconcileFirewall cs spec st)
     = [mkCall FirewallsAPI DoGet (GlobalKey "allow-my-cluster-apiserver-cluster")
          NoPayload None].
Proof.
  intros cs stale st spec.
  assert (Hget : Compute.api_Get (Compute.firewalls cs) (GlobalKey (Firewall.Name spec))
                   (provider st) = (inl stale, provider st))
    by (replace (Firewall.Name spec) with (Firewall.Name stale)
          by (vm_compute; reflexivity);
        apply (f_equal (fun o => match o with
                                 | Some x => (inl x, provider st)
                                 | None => (inr Fake.notFound, provider st)
                                 end)
                 (lookup_singleton_eq (M := gmap Key) (GlobalKey (Firewall.Name stale)) stale))).
  pose proof (proj2 (proj2 (proj2 (proj2 (ReconcileFirewalls_creates "apiserver" cs st))))
                spec stale (provider st) Hget) as Hrun.
  split; [discriminate|].
  split; [exact (f_equal result Hrun) | exact (f_equal journal Hrun)].
Defined.
